(** * spotifyhygiene: the cleanup pipeline of [spotify_service.py] and
      [spotify_cleaner.py]

    A shallow embedding of the two service classes of the repository,
    [SpotifyService] (the web service) and [SpotifyLikedSongsCleaner] (the
    command-line tool): the request loop with its retry policy, the paginated
    fetch of the liked songs, the staleness classification, the batched
    removal and the two orchestrating operations, followed by the properties
    the specification states about them.

    Conventions.
    - API payloads are untyped Python objects in the source; they are
      [value]s here and every subscript, [.get], [len], iteration and
      truth test is written out with the exception Python raises.
    - Every method of the two classes is a computation in [M]: it takes the
      [world] (the requests issued so far, the time spent in [time.sleep],
      the current access token) and returns an outcome and the new world.
      The world is kept when an exception is raised.
    - The remote service and [datetime.fromisoformat] are parameters. *)

From Stdlib Require Import ZArith List String Ascii Bool Lia DecimalString.
Import ListNotations.
Local Open Scope string_scope.
Local Open Scope Z_scope.

(** ** Python values and exceptions *)

Inductive exn : Type :=
| KeyError
| TypeError
| IndexError
| ValueError
| AttributeError.

#[local] Set Warnings "-register-all".

(** JSON payloads as Python sees them after [response.json()]. Objects are
    association lists read by first match. JSON floats do not occur in the
    fields the code reads and are left out. *)
Inductive value : Type :=
| VNone
| VBool (b : bool)
| VInt (n : Z)
| VStr (s : string)
| VList (l : list value)
| VDict (d : list (string * value)).

(** The outcome of a Python expression: a value or a raised exception. *)
Inductive res (A : Type) : Type :=
| Ok (a : A)
| Raise (e : exn).
Arguments Ok {A} a.
Arguments Raise {A} e.

Definition rbind {A B} (r : res A) (k : A -> res B) : res B :=
  match r with
  | Ok a => k a
  | Raise e => Raise e
  end.

Declare Scope res_scope.
Delimit Scope res_scope with res.
Notation "x <- c ;; k" := (rbind c (fun x => k))
  (at level 61, c at next level, right associativity) : res_scope.
Notation "c ;; k" := (rbind c (fun _ => k))
  (at level 61, right associativity) : res_scope.

Fixpoint lookup (k : string) (d : list (string * value)) : option value :=
  match d with
  | [] => None
  | (k', v) :: d' => if String.eqb k k' then Some v else lookup k d'
  end.

(** [bool(v)] *)
Definition truthy (v : value) : bool :=
  match v with
  | VNone => false
  | VBool b => b
  | VInt n => negb (n =? 0)
  | VStr s => negb (String.eqb s EmptyString)
  | VList l => match l with [] => false | _ => true end
  | VDict d => match d with [] => false | _ => true end
  end.

(** [v[k]] for a string key [k] *)
Definition subscript (v : value) (k : string) : res value :=
  match v with
  | VDict d => match lookup k d with Some x => Ok x | None => Raise KeyError end
  | _ => Raise TypeError
  end.

Definition chars (s : string) : list value :=
  map (fun c => VStr (String c EmptyString)) (list_ascii_of_string s).

(** [v[0]] *)
Definition index0 (v : value) : res value :=
  match v with
  | VList (x :: _) => Ok x
  | VList [] => Raise IndexError
  | VStr s => match chars s with x :: _ => Ok x | [] => Raise IndexError end
  | VDict _ => Raise KeyError
  | _ => Raise TypeError
  end.

(** [v.get(k, default)]: only dictionaries have [get] *)
Definition dict_get (v : value) (k : string) (default : value) : res value :=
  match v with
  | VDict d => match lookup k d with Some x => Ok x | None => Ok default end
  | _ => Raise AttributeError
  end.

(** The elements [for x in v] visits *)
Definition iterate (v : value) : res (list value) :=
  match v with
  | VList l => Ok l
  | VStr s => Ok (chars s)
  | VDict d => Ok (map (fun kv => VStr (fst kv)) d)
  | _ => Raise TypeError
  end.

(** [len(v)] *)
Definition py_len (v : value) : res Z :=
  match v with
  | VList l => Ok (Z.of_nat (List.length l))
  | VStr s => Ok (Z.of_nat (String.length s))
  | VDict d => Ok (Z.of_nat (List.length d))
  | _ => Raise TypeError
  end.

(** [a + b] on the operands the code adds: lists, strings and numbers *)
Definition num_of (v : value) : option Z :=
  match v with
  | VInt n => Some n
  | VBool b => Some (if b then 1 else 0)
  | _ => None
  end.

Definition py_add (a b : value) : res value :=
  match a, b with
  | VList x, VList y => Ok (VList (x ++ y)%list)
  | VStr x, VStr y => Ok (VStr (x ++ y))
  | _, _ =>
      match num_of a, num_of b with
      | Some x, Some y => Ok (VInt (x + y))
      | _, _ => Raise TypeError
      end
  end.

(** [s.replace('Z', '+00:00')] on a Python string *)
Fixpoint replace_Z (s : string) : string :=
  match s with
  | EmptyString => EmptyString
  | String c s' =>
      if Ascii.eqb c "Z"%char then "+00:00" ++ replace_Z s'
      else String c (replace_Z s')
  end.

Definition str_replace_Z (v : value) : res string :=
  match v with
  | VStr s => Ok (replace_Z s)
  | _ => Raise AttributeError
  end.

(** [sep.join(v)]: every element must be a string *)
Fixpoint join_strs (sep : string) (l : list value) : res string :=
  match l with
  | [] => Ok EmptyString
  | [VStr s] => Ok s
  | VStr s :: l' =>
      match join_strs sep l' with
      | Ok r => Ok (s ++ sep ++ r)
      | other => other
      end
  | _ :: _ => Raise TypeError
  end.

Definition py_join (sep : string) (v : value) : res string :=
  match iterate v with
  | Ok l => join_strs sep l
  | Raise e => Raise e
  end.

(** ["ids" in v] *)
Definition is_substring (k s : string) : bool :=
  match String.index 0 k s with Some _ => true | None => false end.

Definition contains_str (k : string) (v : value) : res bool :=
  match v with
  | VDict d => Ok (match lookup k d with Some _ => true | None => false end)
  | VList l =>
      Ok (existsb (fun x => match x with VStr s => String.eqb s k | _ => false end) l)
  | VStr s => Ok (is_substring k s)
  | _ => Raise TypeError
  end.

(** Hashable values, as the keys of a Python [set]: lists and dictionaries
    are unhashable, and [True], [False] hash and compare as [1] and [0]. *)
Inductive atom : Type :=
| ANone
| AInt (n : Z)
| AStr (s : string).

Definition atom_eqb (a b : atom) : bool :=
  match a, b with
  | ANone, ANone => true
  | AInt x, AInt y => x =? y
  | AStr x, AStr y => String.eqb x y
  | _, _ => false
  end.

Definition hash_key (v : value) : res atom :=
  match v with
  | VNone => Ok ANone
  | VBool b => Ok (AInt (if b then 1 else 0))
  | VInt n => Ok (AInt n)
  | VStr s => Ok (AStr s)
  | VList _ | VDict _ => Raise TypeError
  end.

Definition pyset : Type := list atom.

Definition set_mem (a : atom) (s : pyset) : bool := existsb (atom_eqb a) s.

(** [s.add(v)] *)
Definition set_add (v : value) (s : pyset) : res pyset :=
  match hash_key v with
  | Ok a => Ok (if set_mem a s then s else (s ++ [a])%list)
  | Raise e => Raise e
  end.

(** [v in s] *)
Definition set_contains (v : value) (s : pyset) : res bool :=
  match hash_key v with
  | Ok a => Ok (set_mem a s)
  | Raise e => Raise e
  end.

(** [int(s)] on a header string: surrounding whitespace, an optional sign,
    decimal digits with single underscores between digits. [None] stands
    for the [ValueError] of a malformed literal. *)
Definition is_space (c : ascii) : bool :=
  let n := nat_of_ascii c in
  ((9 <=? n)%nat && (n <=? 13)%nat) || ((28 <=? n)%nat && (n <=? 32)%nat).

Definition is_digit (c : ascii) : bool :=
  let n := nat_of_ascii c in (48 <=? n)%nat && (n <=? 57)%nat.

Fixpoint lstrip (l : list ascii) : list ascii :=
  match l with
  | c :: l' => if is_space c then lstrip l' else l
  | [] => []
  end.

Definition strip (l : list ascii) : list ascii := rev (lstrip (rev (lstrip l))).

Fixpoint digits_value (acc : Z) (after_digit : bool) (l : list ascii) : option Z :=
  match l with
  | [] => if after_digit then Some acc else None
  | c :: l' =>
      if is_digit c
      then digits_value (10 * acc + (Z.of_nat (nat_of_ascii c) - 48)) true l'
      else if Ascii.eqb c "_"%char
           then if after_digit then digits_value acc false l' else None
           else None
  end.

Definition int_of_str (s : string) : option Z :=
  match strip (list_ascii_of_string s) with
  | c :: l =>
      if Ascii.eqb c "-"%char then option_map Z.opp (digits_value 0 false l)
      else if Ascii.eqb c "+"%char then digits_value 0 false l
      else digits_value 0 false (c :: l)
  | [] => None
  end.

(** [not text.strip()] *)
Definition blank (s : string) : bool :=
  match strip (list_ascii_of_string s) with [] => true | _ => false end.

(** ** The HTTP layer: [requests] and the remote service *)

Inductive verb : Type := HGET | HDELETE | HPUT | HPOST.

(** One call of [requests.get/delete/put/post]. [c_bearer] is the token the
    [Authorization: Bearer ...] header was formatted from, [None] when the
    call carries no headers (the token endpoint). [c_params], [c_json] and
    [c_form] are the [params=], [json=] and [data=] arguments, [VNone]
    when not given. *)
Record http_call : Type := {
  c_verb : verb;
  c_url : string;
  c_bearer : option value;
  c_params : value;
  c_json : value;
  c_form : value
}.

(** What the code reads of a [requests.Response]: [retry_after_header] is
    [response.headers.get('Retry-After')], [json] is what
    [response.json()] returns, [None] when it raises [ValueError]. *)
Record http_response : Type := {
  status_code : Z;
  retry_after_header : option string;
  text : string;
  json : option value
}.

Inductive http_outcome : Type :=
| Responded (r : http_response)
| NetworkFailure.

(** The constructor arguments of the command-line cleaner that never change. *)
Record credentials : Type := {
  client_id : value;
  client_secret : value;
  refresh_token : value
}.

(** One invocation of [make_request] / [make_spotify_request]. *)
Record api_call : Type := {
  a_endpoint : string;
  a_method : string;
  a_data : value;
  a_params : value
}.

(** The state a run threads through: the HTTP calls issued so far (oldest
    first), the total time spent in [time.sleep] (milliseconds),
    [self.access_token] (from which [self.headers] is formatted), the
    constructor arguments, and, as ghost state that no code reads, the
    invocations of the request method so far (oldest first). *)
Record world : Type := {
  w_requests : list http_call;
  w_slept : Z;
  w_access_token : value;
  w_creds : credentials;
  w_calls : list api_call
}.

Definition with_request (c : http_call) (w : world) : world :=
  {| w_requests := w_requests w ++ [c]; w_slept := w_slept w;
     w_access_token := w_access_token w; w_creds := w_creds w;
     w_calls := w_calls w |}.

Definition with_sleep (ms : Z) (w : world) : world :=
  {| w_requests := w_requests w; w_slept := w_slept w + ms;
     w_access_token := w_access_token w; w_creds := w_creds w;
     w_calls := w_calls w |}.

Definition with_token (t : value) (w : world) : world :=
  {| w_requests := w_requests w; w_slept := w_slept w;
     w_access_token := t; w_creds := w_creds w;
     w_calls := w_calls w |}.

Definition with_call (a : api_call) (w : world) : world :=
  {| w_requests := w_requests w; w_slept := w_slept w;
     w_access_token := w_access_token w; w_creds := w_creds w;
     w_calls := w_calls w ++ [a] |}.

(** ** The monad of methods *)

(** [RequestFailed] is [requests.RequestException]; the other exceptions
    are those of [exn]. *)
Inductive pyexn : Type :=
| Builtin (e : exn)
| RequestFailed.

(** The outcome of a method: it returns, raises, or, in the model only,
    runs out of the fuel given to a [while True] loop. *)
Inductive out (A : Type) : Type :=
| Returns (a : A)
| Raises (e : pyexn)
| OutOfFuel.
Arguments Returns {A} a.
Arguments Raises {A} e.
Arguments OutOfFuel {A}.

Definition M (A : Type) : Type := world -> out A * world.

Definition ret {A} (a : A) : M A := fun w => (Returns a, w).

Definition bind {A B} (m : M A) (k : A -> M B) : M B :=
  fun w =>
    match m w with
    | (Returns a, w') => k a w'
    | (Raises e, w') => (Raises e, w')
    | (OutOfFuel, w') => (OutOfFuel, w')
    end.

Definition lift {A} (r : res A) : M A :=
  fun w =>
    match r with
    | Ok a => (Returns a, w)
    | Raise e => (Raises (Builtin e), w)
    end.

(** [try: body  except <handles>: handler] *)
Definition try_except {A} (handles : pyexn -> bool) (body handler : M A) : M A :=
  fun w =>
    match body w with
    | (Raises e, w') => if handles e then handler w' else (Raises e, w')
    | other => other
    end.

Definition is_request_exception (e : pyexn) : bool :=
  match e with RequestFailed => true | Builtin _ => false end.

Definition any_exception (e : pyexn) : bool := true.

Declare Scope m_scope.
Delimit Scope m_scope with M.
Notation "x <- c ;; k" := (bind c (fun x => k))
  (at level 61, c at next level, right associativity) : m_scope.
Notation "c ;; k" := (bind c (fun _ => k))
  (at level 61, right associativity) : m_scope.
Local Open Scope m_scope.

(** [time.sleep(ms / 1000)]: a negative length raises [ValueError] *)
Definition sleep (ms : Z) : M unit :=
  fun w =>
    if ms <? 0 then (Raises (Builtin ValueError), w)
    else (Returns tt, with_sleep ms w).

(** [for attempt in range(3): body] followed by [return None]: the body
    answers [Some v] when it executes [return v] and [None] when the loop
    goes on to the next attempt ([continue], or the end of an [except]). *)
Fixpoint for_attempts (attempts : list Z) (body : Z -> M (option value)) : M value :=
  match attempts with
  | [] => ret VNone
  | a :: rest =>
      r <- body a ;;
      match r with
      | Some v => ret v
      | None => for_attempts rest body
      end
  end.

Definition success : value := VDict [("success", VBool true)].

Definition base_url : string := "https://api.spotify.com/v1".

(** ** [spotify_service.py]: class [SpotifyService] *)

Module SpotifyService.
Section Service.

(** The remote service: its answer to a call may depend on everything that
    happened before. *)
Variable remote : world -> http_call -> http_outcome.

(** [datetime.fromisoformat(s).replace(tzinfo=None)] as an instant in
    microseconds, [None] for its [ValueError]. *)
Variable fromisoformat : string -> option Z.

(** The remote answers the call, or [requests] raises. *)
Definition perform (c : http_call) : M http_response :=
  fun w =>
    match remote w c with
    | Responded r => (Returns r, with_request c w)
    | NetworkFailure => (Raises RequestFailed, with_request c w)
    end.

(** Lines 28-39: the call [requests.<verb>(url, headers=self.headers, ...)]
    the method makes for [method], with [token] the one in [self.headers]. *)
Definition prepare (token : value) (endpoint method : string) (data params : value)
  : res http_call :=
  let call v p b := {| c_verb := v; c_url := base_url ++ endpoint;
                       c_bearer := Some token; c_params := p; c_json := b;
                       c_form := VNone |} in
  if String.eqb method "GET" then Ok (call HGET params VNone)
  else if String.eqb method "DELETE" then
    if String.eqb endpoint "/me/tracks" && truthy data then
      (has_ids <- contains_str "ids" data ;;
       if has_ids : bool then
         (ids <- subscript data "ids" ;;
          joined <- py_join "," ids ;;
          Ok (call HDELETE (VDict [("ids", VStr joined)]) VNone))
       else Ok (call HDELETE VNone data))%res
    else Ok (call HDELETE VNone data)
  else if String.eqb method "PUT" then Ok (call HPUT VNone data)
  else Ok (call HPOST VNone data).

Definition dispatch (endpoint method : string) (data params : value) : M http_response :=
  fun w =>
    match prepare (w_access_token w) endpoint method data params with
    | Ok c => perform c w
    | Raise e => (Raises (Builtin e), w)
    end.

(** [int(response.headers.get('Retry-After', 1))] *)
Definition retry_after_seconds (r : http_response) : res Z :=
  match retry_after_header r with
  | None => Ok 1
  | Some s => match int_of_str s with Some n => Ok n | None => Raise ValueError end
  end.

(** Lines 41-66: what the method does with a response. *)
Definition handle_response (method : string) (response : http_response) : M (option value) :=
  if status_code response =? 429 then
    retry_after <- lift (retry_after_seconds response) ;;
    sleep (retry_after * 1000) ;;
    ret None
  else if status_code response =? 200 then
    if String.eqb method "DELETE" && blank (text response) then ret (Some success)
    else
      match json response with
      | Some j => ret (Some j)
      | None => if String.eqb method "DELETE" then ret (Some success)
                else ret (Some VNone)
      end
  else if status_code response =? 401 then ret (Some VNone)
  else ret (Some VNone).

(** The body of [for attempt in range(3)] (lines 27-72). *)
Definition attempt_body (endpoint method : string) (data params : value)
    (attempt : Z) : M (option value) :=
  try_except is_request_exception
    (response <- dispatch endpoint method data params ;;
     handle_response method response)
    (if attempt =? 2 then ret (Some VNone)
     else sleep 1000 ;; ret None).

Definition make_request (endpoint method : string) (data params : value) : M value :=
  fun w =>
    for_attempts [0; 1; 2] (attempt_body endpoint method data params)
      (with_call {| a_endpoint := endpoint; a_method := method;
                    a_data := data; a_params := params |} w).

Definition get_user_profile : M value := make_request "/me" "GET" VNone VNone.

(** [get_liked_songs]: the [while True] loop, cut by [fuel]. *)
Fixpoint liked_songs_loop (fuel : nat) (limit : Z) (songs : list value)
    (offset : Z) : M (list value) :=
  match fuel with
  | O => fun w => (OutOfFuel, w)
  | S fuel' =>
      response <- make_request "/me/tracks" "GET" VNone
                    (VDict [("limit", VInt limit); ("offset", VInt offset)]) ;;
      if negb (truthy response) then ret songs
      else
        items <- lift (dict_get response "items" VNone) ;;
        if negb (truthy items) then ret songs
        else
          page <- lift (subscript response "items") ;;
          new <- lift (iterate page) ;;
          n <- lift (py_len page) ;;
          if n <? limit then ret (songs ++ new)%list
          else liked_songs_loop fuel' limit (songs ++ new)%list (offset + limit)
  end.

Definition get_liked_songs (fuel : nat) (limit : Z) : M (list value) :=
  liked_songs_loop fuel limit [] 0.

(** [response.get('items', []) if response else []] *)
Definition items_or_empty (response : value) : M value :=
  if truthy response then lift (dict_get response "items" (VList []))
  else ret (VList []).

Definition get_recently_played (limit : Z) : M value :=
  response <- make_request "/me/player/recently-played" "GET" VNone
                (VDict [("limit", VInt limit)]) ;;
  items_or_empty response.

Definition get_top_tracks (time_range : string) (limit : Z) : M value :=
  response <- make_request "/me/top/tracks" "GET" VNone
                (VDict [("time_range", VStr time_range); ("limit", VInt limit)]) ;;
  items_or_empty response.

(** [range(0, stop, step)] and [l[i:j]] *)
Fixpoint range_from (fuel i stop step : nat) : list nat :=
  match fuel with
  | O => []
  | S fuel' => if (i <? stop)%nat then i :: range_from fuel' (i + step) stop step else []
  end.

Definition py_range (stop step : nat) : list nat := range_from stop 0 stop step.

Definition slice {A} (l : list A) (i j : nat) : list A := firstn (j - i) (skipn i l).

Definition batch_size : nat := 50.

(** The [for i in range(0, len(track_ids), batch_size)] loop of
    [remove_tracks_from_liked] over the start indices still to visit. *)
Fixpoint remove_batches (track_ids : list value) (starts : list nat) : M bool :=
  match starts with
  | [] => ret true
  | i :: rest =>
      let batch := slice track_ids i (i + batch_size) in
      response <- make_request "/me/tracks" "DELETE"
                    (VDict [("ids", VList batch)]) VNone ;;
      if negb (truthy response) then ret false
      else
        ok <- lift (dict_get response "success" VNone) ;;
        if negb (truthy ok) then ret false
        else remove_batches track_ids rest
  end.

Definition remove_tracks_from_liked (track_ids : list value) : M bool :=
  remove_batches track_ids (py_range (List.length track_ids) batch_size).

(** *** The analysis *)

(** The dictionaries appended to [tracks_to_remove]. [r_added_at] is the
    parsed instant ([analyze_and_cleanup] stores the [datetime],
    [preview_cleanup] its [isoformat()]); [r_preview_image] is [None] when
    the dictionary has no ['preview_image'] key. *)
Record removal_record : Type := {
  r_id : value;
  r_name : value;
  r_artist : value;
  r_album : value;
  r_added_at : Z;
  r_preview_image : option value
}.

(** Lines 159-160 and 163-164: filling [active_track_ids]. *)
Fixpoint add_played (items : list value) (active : pyset) : res pyset :=
  match items with
  | [] => Ok active
  | item :: rest =>
      (track <- subscript item "track" ;;
       id <- subscript track "id" ;;
       active' <- set_add id active ;;
       add_played rest active')%res
  end.

Fixpoint add_top (tracks : list value) (active : pyset) : res pyset :=
  match tracks with
  | [] => Ok active
  | track :: rest =>
      (id <- subscript track "id" ;;
       active' <- set_add id active ;;
       add_top rest active')%res
  end.

Definition collect_active (recently_played short_term_top medium_term_top : value)
  : res pyset :=
  (played <- iterate recently_played ;;
   active <- add_played played [] ;;
   tops <- py_add short_term_top medium_term_top ;;
   top_tracks <- iterate tops ;;
   add_top top_tracks active)%res.

Definition microseconds_per_day : Z := 86400 * 1000000.

(** [datetime.now().replace(tzinfo=None) - timedelta(days=timeframe_months * 30)],
    with [now] the instant [datetime.now()] returns (the range checks of
    [datetime] are not modelled). *)
Definition cutoff_date (now timeframe_months : Z) : Z :=
  now - timeframe_months * 30 * microseconds_per_day.

(** Lines 174-175: the added-at instant of a liked-songs item. *)
Definition parse_added_at (item : value) : res Z :=
  (raw <- subscript item "added_at" ;;
   added_at_str <- str_replace_Z raw ;;
   match fromisoformat added_at_str with
   | Some t => Ok t
   | None => Raise ValueError
   end)%res.

(** Lines 183-189: the dictionary of [analyze_and_cleanup]. *)
Definition removal_entry (track : value) (added_at : Z) : res removal_record :=
  (id <- subscript track "id" ;;
   name <- subscript track "name" ;;
   artists <- subscript track "artists" ;;
   first_artist <- index0 artists ;;
   artist <- subscript first_artist "name" ;;
   album <- subscript track "album" ;;
   album_name <- subscript album "name" ;;
   Ok {| r_id := id; r_name := name; r_artist := artist; r_album := album_name;
         r_added_at := added_at; r_preview_image := None |})%res.

(** Lines 254-261: the dictionary of [preview_cleanup]. *)
Definition preview_entry (track : value) (added_at : Z) : res removal_record :=
  (id <- subscript track "id" ;;
   name <- subscript track "name" ;;
   artists <- subscript track "artists" ;;
   first_artist <- index0 artists ;;
   artist <- subscript first_artist "name" ;;
   album <- subscript track "album" ;;
   album_name <- subscript album "name" ;;
   album' <- subscript track "album" ;;
   images <- subscript album' "images" ;;
   image <- (if truthy images
             then (first_image <- index0 images ;; subscript first_image "url")
             else Ok VNone) ;;
   Ok {| r_id := id; r_name := name; r_artist := artist; r_album := album_name;
         r_added_at := added_at; r_preview_image := Some image |})%res.

(** The body of [for item in liked_songs] (lines 172-189 and 243-261):
    [None] when nothing is appended, [Some r] when [r] is appended. *)
Definition classify_item (entry : value -> Z -> res removal_record)
    (active : pyset) (cutoff : Z) (item : value) : res (option removal_record) :=
  (track <- subscript item "track" ;;
   added_at <- parse_added_at item ;;
   id <- subscript track "id" ;;
   is_active <- set_contains id active ;;
   if is_active : bool then Ok None
   else if added_at <? cutoff
        then (r <- entry track added_at ;; Ok (Some r))
        else Ok None)%res.

Fixpoint classify_all (entry : value -> Z -> res removal_record)
    (active : pyset) (cutoff : Z) (liked_songs : list value)
    (tracks_to_remove : list removal_record) : res (list removal_record) :=
  match liked_songs with
  | [] => Ok tracks_to_remove
  | item :: rest =>
      (r <- classify_item entry active cutoff item ;;
       classify_all entry active cutoff rest
         (match r with
          | Some x => tracks_to_remove ++ [x]
          | None => tracks_to_remove
          end)%list)%res
  end.

(** The dictionary [analyze_and_cleanup] returns; the two optional keys are
    absent from the early return on an empty library. *)
Record cleanup_result : Type := {
  total_liked_songs : Z;
  songs_analyzed : Z;
  songs_removed : Z;
  songs_kept : Z;
  recent_tracks_found : option Z;
  top_tracks_found : option Z;
  removed_tracks : list removal_record
}.

Definition py_list_len {A} (l : list A) : Z := Z.of_nat (List.length l).

Definition analyze_and_cleanup (fuel : nat) (timeframe_months now : Z) : M cleanup_result :=
  liked_songs <- get_liked_songs fuel 50 ;;
  let total_liked := py_list_len liked_songs in
  match liked_songs with
  | [] =>
      ret {| total_liked_songs := 0; songs_analyzed := 0; songs_removed := 0;
             songs_kept := 0; recent_tracks_found := None;
             top_tracks_found := None; removed_tracks := [] |}
  | _ :: _ =>
      recently_played <- get_recently_played 50 ;;
      short_term_top <- get_top_tracks "short_term" 50 ;;
      medium_term_top <- get_top_tracks "medium_term" 50 ;;
      active_track_ids <- lift (collect_active recently_played short_term_top
                                  medium_term_top) ;;
      let cutoff := cutoff_date now timeframe_months in
      tracks_to_remove <- lift (classify_all removal_entry active_track_ids cutoff
                                  liked_songs []) ;;
      removed_count <-
        match tracks_to_remove with
        | [] => ret 0
        | _ :: _ =>
            ok <- remove_tracks_from_liked (map r_id tracks_to_remove) ;;
            ret (if ok : bool then py_list_len tracks_to_remove else 0)
        end ;;
      n_recent <- lift (py_len recently_played) ;;
      n_short <- lift (py_len short_term_top) ;;
      n_medium <- lift (py_len medium_term_top) ;;
      ret {| total_liked_songs := total_liked;
             songs_analyzed := py_list_len liked_songs;
             songs_removed := removed_count;
             songs_kept := total_liked - removed_count;
             recent_tracks_found := Some n_recent;
             top_tracks_found := Some (n_short + n_medium);
             removed_tracks := firstn (Z.to_nat removed_count) tracks_to_remove |}
  end.

(** The dictionary [preview_cleanup] returns. *)
Record preview_result : Type := {
  p_total_liked_songs : Z;
  p_tracks_to_remove : list removal_record;
  p_tracks_to_keep : Z;
  p_recent_activity_count : option Z
}.

Definition preview_cleanup (fuel : nat) (timeframe_months now : Z) : M preview_result :=
  liked_songs <- get_liked_songs fuel 50 ;;
  let total_liked := py_list_len liked_songs in
  match liked_songs with
  | [] =>
      ret {| p_total_liked_songs := 0; p_tracks_to_remove := [];
             p_tracks_to_keep := 0; p_recent_activity_count := None |}
  | _ :: _ =>
      recently_played <- get_recently_played 50 ;;
      short_term_top <- get_top_tracks "short_term" 50 ;;
      medium_term_top <- get_top_tracks "medium_term" 50 ;;
      active_track_ids <- lift (collect_active recently_played short_term_top
                                  medium_term_top) ;;
      let cutoff := cutoff_date now timeframe_months in
      tracks_to_remove <- lift (classify_all preview_entry active_track_ids cutoff
                                  liked_songs []) ;;
      ret {| p_total_liked_songs := total_liked;
             p_tracks_to_remove := tracks_to_remove;
             p_tracks_to_keep := total_liked - py_list_len tracks_to_remove;
             p_recent_activity_count := Some (py_list_len active_track_ids) |}
  end.

End Service.
End SpotifyService.

(** ** [spotify_cleaner.py]: class [SpotifyLikedSongsCleaner] *)

Module SpotifyLikedSongsCleaner.
Section Cleaner.

Variable remote : world -> http_call -> http_outcome.
Variable fromisoformat : string -> option Z.

Definition token_url : string := "https://accounts.spotify.com/api/token".

(** The remote answers the call, or [requests] raises. *)
Definition perform (c : http_call) : M http_response :=
  fun w =>
    match remote w c with
    | Responded r => (Returns r, with_request c w)
    | NetworkFailure => (Raises RequestFailed, with_request c w)
    end.

(** [requests.post(token_url, data=data)] of [refresh_access_token] *)
Definition refresh_call (creds : credentials) : http_call :=
  {| c_verb := HPOST; c_url := token_url; c_bearer := None;
     c_params := VNone; c_json := VNone;
     c_form := VDict [("grant_type", VStr "refresh_token");
                      ("refresh_token", refresh_token creds);
                      ("client_id", client_id creds);
                      ("client_secret", client_secret creds)] |}.

Definition post_refresh : M http_response :=
  fun w => perform (refresh_call (w_creds w)) w.

Definition set_access_token (t : value) : M unit :=
  fun w => (Returns tt, with_token t w).

Definition response_json (r : http_response) : M value :=
  match json r with
  | Some j => ret j
  | None => lift (Raise ValueError)
  end.

Definition refresh_access_token : M bool :=
  try_except any_exception
    (response <- post_refresh ;;
     if status_code response =? 200 then
       token_data <- response_json response ;;
       access_token <- lift (subscript token_data "access_token") ;;
       set_access_token access_token ;;
       ret true
     else ret false)
    (ret false).

(** Lines 61-73: the call the method makes for [method], with [token] the
    one in [self.headers]. *)
Definition prepare (token : value) (endpoint method : string) (data : value)
  : res http_call :=
  let call v p b := {| c_verb := v; c_url := base_url ++ endpoint;
                       c_bearer := Some token; c_params := p; c_json := b;
                       c_form := VNone |} in
  if String.eqb method "GET" then Ok (call HGET VNone VNone)
  else if String.eqb method "DELETE" then
    if String.eqb endpoint "/me/tracks" && truthy data then
      (has_ids <- contains_str "ids" data ;;
       if has_ids : bool then
         (ids <- subscript data "ids" ;;
          joined <- py_join "," ids ;;
          Ok (call HDELETE (VDict [("ids", VStr joined)]) VNone))
       else Ok (call HDELETE VNone data))%res
    else Ok (call HDELETE VNone data)
  else if String.eqb method "PUT" then Ok (call HPUT VNone data)
  else Ok (call HPOST VNone data).

Definition dispatch (endpoint method : string) (data : value) : M http_response :=
  fun w =>
    match prepare (w_access_token w) endpoint method data with
    | Ok c => perform c w
    | Raise e => (Raises (Builtin e), w)
    end.

Definition retry_after_seconds (r : http_response) : res Z :=
  match retry_after_header r with
  | None => Ok 1
  | Some s => match int_of_str s with Some n => Ok n | None => Raise ValueError end
  end.

(** Lines 75-106 *)
Definition handle_response (method : string) (response : http_response) : M (option value) :=
  if status_code response =? 401 then
    refreshed <- refresh_access_token ;;
    if refreshed : bool then ret None else ret (Some VNone)
  else if status_code response =? 429 then
    retry_after <- lift (retry_after_seconds response) ;;
    sleep (retry_after * 1000) ;;
    ret None
  else if status_code response =? 200 then
    if String.eqb method "DELETE" && blank (text response) then ret (Some success)
    else
      match json response with
      | Some j => ret (Some j)
      | None => if String.eqb method "DELETE" then ret (Some success)
                else ret (Some VNone)
      end
  else if status_code response =? 204 then ret (Some success)
  else ret (Some VNone).

(** The body of [for attempt in range(3)] (lines 60-113). *)
Definition attempt_body (endpoint method : string) (data : value)
    (attempt : Z) : M (option value) :=
  try_except any_exception
    (response <- dispatch endpoint method data ;;
     handle_response method response)
    (if attempt <? 2 then sleep 2000 ;; ret None
     else ret (Some VNone)).

Definition make_spotify_request (endpoint method : string) (data : value) : M value :=
  fun w =>
    for_attempts [0; 1; 2] (attempt_body endpoint method data)
      (with_call {| a_endpoint := endpoint; a_method := method;
                    a_data := data; a_params := VNone |} w).

Definition get_user_profile : M value := make_spotify_request "/me" "GET" VNone.

Definition decimal (n : Z) : string := NilZero.string_of_int (Z.to_int n).

(** [get_liked_songs]: the [while True] loop, cut by [fuel]; [limit = 50]. *)
Fixpoint liked_songs_loop (fuel : nat) (limit : Z) (liked_songs : list value)
    (offset : Z) : M (list value) :=
  match fuel with
  | O => fun w => (OutOfFuel, w)
  | S fuel' =>
      let endpoint := "/me/tracks?limit=" ++ decimal limit
                        ++ "&offset=" ++ decimal offset in
      response <- make_spotify_request endpoint "GET" VNone ;;
      if negb (truthy response) then ret liked_songs
      else
        items <- lift (dict_get response "items" (VList [])) ;;
        if negb (truthy items) then ret liked_songs
        else
          new <- lift (iterate items) ;;
          n <- lift (py_len items) ;;
          if n <? limit then ret (liked_songs ++ new)%list
          else
            sleep 100 ;;
            liked_songs_loop fuel' limit (liked_songs ++ new)%list (offset + limit)
  end.

Definition get_liked_songs (fuel : nat) : M (list value) :=
  liked_songs_loop fuel 50 [] 0.

(** [if response: tracks = response.get("items", []); print(len(tracks)); return tracks]
    and [return []] otherwise *)
Definition items_or_empty (response : value) : M value :=
  if truthy response then
    tracks <- lift (dict_get response "items" (VList [])) ;;
    _ <- lift (py_len tracks) ;;
    ret tracks
  else ret (VList []).

Definition get_recently_played_tracks : M value :=
  response <- make_spotify_request "/me/player/recently-played?limit=50" "GET" VNone ;;
  items_or_empty response.

Definition get_top_tracks (time_range : string) : M value :=
  response <- make_spotify_request ("/me/top/tracks?limit=50&time_range=" ++ time_range)
                "GET" VNone ;;
  items_or_empty response.

(** [if track.get("id"): recently_played_ids.add(track["id"])] *)
Definition add_id (track : value) (ids : pyset) : res pyset :=
  (id <- dict_get track "id" VNone ;;
   if truthy id then (id' <- subscript track "id" ;; set_add id' ids)
   else Ok ids)%res.

Fixpoint add_played (items : list value) (ids : pyset) : res pyset :=
  match items with
  | [] => Ok ids
  | item :: rest =>
      (track <- dict_get item "track" (VDict []) ;;
       ids' <- add_id track ids ;;
       add_played rest ids')%res
  end.

Fixpoint add_top (tracks : list value) (ids : pyset) : res pyset :=
  match tracks with
  | [] => Ok ids
  | track :: rest => (ids' <- add_id track ids ;; add_top rest ids')%res
  end.

Definition analyze_listening_activity : M pyset :=
  recent_tracks <- get_recently_played_tracks ;;
  played <- lift (iterate recent_tracks) ;;
  ids <- lift (add_played played []) ;;
  short_term <- get_top_tracks "short_term" ;;
  short_tracks <- lift (iterate short_term) ;;
  ids1 <- lift (add_top short_tracks ids) ;;
  medium_term <- get_top_tracks "medium_term" ;;
  medium_tracks <- lift (iterate medium_term) ;;
  lift (add_top medium_tracks ids1).

Definition remove_track_from_liked (track_id : value) : M value :=
  response <- make_spotify_request "/me/tracks" "DELETE"
                (VDict [("ids", VList [track_id])]) ;;
  match response with
  | VNone => ret (VBool false)
  | _ => lift (dict_get response "success" (VBool false))
  end.

(** The dictionaries appended to [songs_to_remove]. *)
Record song : Type := {
  s_id : value;
  s_name : value;
  s_artists : string;
  s_added_at : value
}.

Fixpoint artist_names (artists : list value) : res (list value) :=
  match artists with
  | [] => Ok []
  | artist :: rest =>
      (name <- dict_get artist "name" (VStr "Unknown") ;;
       names <- artist_names rest ;;
       Ok (name :: names))%res
  end.

(** Line 236: [", ".join([artist.get("name", "Unknown") for artist in
    track.get("artists", [])])] *)
Definition artists_text (track : value) : res string :=
  (artist_list <- dict_get track "artists" (VList []) ;;
   artist_values <- iterate artist_list ;;
   names <- artist_names artist_values ;;
   join_strs ", " names)%res.

(** Lines 243-244: the body of the [try], [true] when the song is appended. *)
Definition older_than (six_months_ago : Z) (added_at : value) : res bool :=
  (s <- str_replace_Z added_at ;;
   match fromisoformat s with
   | Some added_date => Ok (added_date <? six_months_ago)
   | None => Raise ValueError
   end)%res.

(** The body of [for item in liked_songs] (lines 233-258): [None] when
    nothing is appended, [Some s] when [s] is appended. *)
Definition classify_item (recently_played_ids : pyset) (six_months_ago : Z)
    (item : value) : res (option song) :=
  (track <- dict_get item "track" (VDict []) ;;
   track_id <- dict_get track "id" VNone ;;
   track_name <- dict_get track "name" (VStr "Unknown") ;;
   artists <- artists_text track ;;
   added_at <- dict_get item "added_at" (VStr EmptyString) ;;
   is_recent <- set_contains track_id recently_played_ids ;;
   let entry := {| s_id := track_id; s_name := track_name;
                   s_artists := artists; s_added_at := added_at |} in
   if is_recent : bool then Ok None
   else
     match older_than six_months_ago added_at with
     | Ok true => Ok (Some entry)
     | Ok false => Ok None
     | Raise _ => Ok (Some entry)
     end)%res.

Fixpoint classify_all (recently_played_ids : pyset) (six_months_ago : Z)
    (liked_songs : list value) (songs_to_remove : list song) : res (list song) :=
  match liked_songs with
  | [] => Ok songs_to_remove
  | item :: rest =>
      (r <- classify_item recently_played_ids six_months_ago item ;;
       classify_all recently_played_ids six_months_ago rest
         (match r with
          | Some x => songs_to_remove ++ [x]
          | None => songs_to_remove
          end)%list)%res
  end.

(** Lines 289-299: the removal loop, one call per song, with the counters
    [(removed_count, failed_count)]. *)
Fixpoint remove_songs (songs : list song) (counts : Z * Z) : M (Z * Z) :=
  match songs with
  | [] => ret counts
  | s :: rest =>
      removed <- remove_track_from_liked (s_id s) ;;
      let counts' := if truthy removed then (fst counts + 1, snd counts)
                     else (fst counts, snd counts + 1) in
      sleep 100 ;;
      remove_songs rest counts'
  end.

(** [input(...).lower().strip() in ["yes", "y"]] *)
Definition lower (c : ascii) : ascii :=
  let n := nat_of_ascii c in
  if (65 <=? n)%nat && (n <=? 90)%nat then ascii_of_nat (n + 32) else c.

Definition confirms (answer : string) : bool :=
  let a := string_of_list_ascii (strip (map lower (list_ascii_of_string answer))) in
  String.eqb a "yes" || String.eqb a "y".

(** [clean_liked_songs]: the method returns nothing; the model returns the
    counters of the printed summary, [None] on the early returns.
    [six_months_ago] is the instant fixed by the constructor and [answer]
    is what [input] returns. *)
Definition clean_liked_songs (fuel : nat) (six_months_ago : Z) (answer : string)
  : M (option (Z * Z)) :=
  user <- get_user_profile ;;
  if negb (truthy user) then ret None
  else
    _ <- lift (dict_get user "display_name" (VStr "Unknown")) ;;
    liked_songs <- get_liked_songs fuel ;;
    match liked_songs with
    | [] => ret None
    | _ :: _ =>
        recently_played_ids <- analyze_listening_activity ;;
        songs_to_remove <- lift (classify_all recently_played_ids six_months_ago
                                   liked_songs []) ;;
        match songs_to_remove with
        | [] => ret None
        | _ :: _ =>
            if negb (confirms answer) then ret None
            else
              counts <- remove_songs songs_to_remove (0, 0) ;;
              ret (Some counts)
        end
    end.

End Cleaner.
End SpotifyLikedSongsCleaner.

(** ** [app.py]: the redirect URI *)

Module App.

(** [s.split(",")[0]] *)
Fixpoint first_field (s : string) : string :=
  match s with
  | EmptyString => EmptyString
  | String c s' =>
      if Ascii.eqb c ","%char then EmptyString else String c (first_field s')
  end.

(** [s.strip()] *)
Definition py_strip (s : string) : string :=
  string_of_list_ascii (strip (list_ascii_of_string s)).

(** The truth test [if value:] on what [os.getenv] returned: [None] when
    the variable is unset or empty. *)
Definition if_set (v : option string) : option string :=
  match v with
  | Some s => if String.eqb s EmptyString then None else Some s
  | None => None
  end.

(** Lines 47-59: [REDIRECT_URI] from [REPLIT_DOMAINS] and
    [REPLIT_DEV_DOMAIN]. *)
Definition redirect_uri (replit_domains replit_dev_domain : option string) : string :=
  match if_set replit_domains with
  | Some domains => "https://" ++ py_strip (first_field domains) ++ "/callback"
  | None =>
      match if_set replit_dev_domain with
      | Some dev => "https://" ++ dev ++ "/callback"
      | None => "http://localhost:5000/callback"
      end
  end.

End App.

(** ** The rule of the specification and sample data *)

Module S := SpotifyService.
Module C := SpotifyLikedSongsCleaner.

(** The classification rule as the specification words it. *)
Inductive decision : Type := Keep | Remove.

Definition reference_rule (is_active : bool) (added_at cutoff : Z) : decision :=
  if is_active then Keep
  else if added_at <? cutoff then Remove
  else Keep.

(** A parser for the timestamps the remote API emits,
    [YYYY-MM-DDTHH:MM:SS] with an optional [+HH:MM] offset that
    [.replace(tzinfo=None)] drops: microseconds since 1970-01-01T00:00:00.
    It is the instance of [fromisoformat] the examples run with. *)
Definition digit (c : ascii) : option Z :=
  if is_digit c then Some (Z.of_nat (nat_of_ascii c) - 48) else None.

Definition two_digits (a b : ascii) : option Z :=
  match digit a, digit b with
  | Some x, Some y => Some (10 * x + y)
  | _, _ => None
  end.

Definition four_digits (a b c d : ascii) : option Z :=
  match two_digits a b, two_digits c d with
  | Some x, Some y => Some (100 * x + y)
  | _, _ => None
  end.

Definition leap_year (y : Z) : bool :=
  ((y mod 4 =? 0) && negb (y mod 100 =? 0)) || (y mod 400 =? 0).

Definition days_in_month (y m : Z) : Z :=
  if m =? 2 then (if leap_year y then 29 else 28)
  else if (m =? 4) || (m =? 6) || (m =? 9) || (m =? 11) then 30
  else 31.

Definition days_from_civil (y m d : Z) : Z :=
  let y' := if m <=? 2 then y - 1 else y in
  let era := y' / 400 in
  let yoe := y' - era * 400 in
  let mp := (m + 9) mod 12 in
  let doy := (153 * mp + 2) / 5 + d - 1 in
  let doe := yoe * 365 + yoe / 4 - yoe / 100 + doy in
  era * 146097 + doe - 719468.

Definition valid_offset (l : list ascii) : bool :=
  match l with
  | [] => true
  | [sign; h1; h2; colon; m1; m2] =>
      (Ascii.eqb sign "+"%char || Ascii.eqb sign "-"%char)
      && Ascii.eqb colon ":"%char
      && match two_digits h1 h2, two_digits m1 m2 with
         | Some h, Some m => (h <? 24) && (m <? 60)
         | _, _ => false
         end
  | _ => false
  end.

Definition iso_seconds (s : string) : option Z :=
  match list_ascii_of_string s with
  | y1 :: y2 :: y3 :: y4 :: d1 :: mo1 :: mo2 :: d2 :: da1 :: da2 :: sep
      :: h1 :: h2 :: c1 :: mi1 :: mi2 :: c2 :: s1 :: s2 :: offset =>
      match four_digits y1 y2 y3 y4, two_digits mo1 mo2, two_digits da1 da2 with
      | Some y, Some mo, Some da =>
          match two_digits h1 h2, two_digits mi1 mi2, two_digits s1 s2 with
          | Some h, Some mi, Some sec =>
              if Ascii.eqb d1 "-"%char && Ascii.eqb d2 "-"%char
                 && Ascii.eqb sep "T"%char
                 && Ascii.eqb c1 ":"%char && Ascii.eqb c2 ":"%char
                 && (1 <=? y) && (1 <=? mo) && (mo <=? 12)
                 && (1 <=? da) && (da <=? days_in_month y mo)
                 && (h <? 24) && (mi <? 60) && (sec <? 60)
                 && valid_offset offset
              then Some ((days_from_civil y mo da * 86400
                          + h * 3600 + mi * 60 + sec) * 1000000)
              else None
          | _, _, _ => None
          end
      | _, _, _ => None
      end
  | _ => None
  end.

(** A remote that answers the n-th HTTP call of the run with the n-th
    entry of a script, and fails once the script is over. *)
Definition scripted (answers : list http_outcome) : world -> http_call -> http_outcome :=
  fun w _ => nth (List.length (w_requests w)) answers NetworkFailure.

Definition sample_creds : credentials :=
  {| client_id := VStr "client"; client_secret := VStr "secret";
     refresh_token := VStr "refresh" |}.

Definition fresh_world : world :=
  {| w_requests := []; w_slept := 0; w_access_token := VStr "token";
     w_creds := sample_creds; w_calls := [] |}.

Definition answer_json (j : value) : http_outcome :=
  Responded {| status_code := 200; retry_after_header := None;
               text := "{}"; json := Some j |}.

Definition answer_empty (status : Z) : http_outcome :=
  Responded {| status_code := status; retry_after_header := None;
               text := EmptyString; json := None |}.

Definition answer_rate_limited (retry_after : string) : http_outcome :=
  Responded {| status_code := 429; retry_after_header := Some retry_after;
               text := EmptyString; json := None |}.

Definition items_page (items : list value) : value := VDict [("items", VList items)].

Definition sample_album : value :=
  VDict [("name", VStr "Album");
         ("images", VList [VDict [("url", VStr "https://i.scdn.co/image/cover")]])].

Definition sample_track (id : string) (album : value) : value :=
  VDict [("id", VStr id); ("name", VStr ("Song " ++ id));
         ("artists", VList [VDict [("name", VStr "Artist")]]);
         ("album", album)].

Definition liked_item (id added_at : string) (album : value) : value :=
  VDict [("added_at", VStr added_at); ("track", sample_track id album)].

(** The instant of the sample runs, 2024-01-01T00:00:00. *)
Definition sample_now : Z := 1704067200 * 1000000.

Definition stale_item (n : nat) : value :=
  liked_item ("t" ++ NilZero.string_of_uint (Nat.to_uint n))
    "2020-01-01T00:00:00Z" sample_album.

(** The scenario of the specification: A is active and was added a year
    ago, B is inactive and was added a year ago, C is inactive and was added
    a month ago; the timeframe is six months. *)
Definition scenario_cutoff : Z := S.cutoff_date sample_now 6.

Definition item_A : value := liked_item "A" "2023-01-01T00:00:00Z" sample_album.
Definition item_B : value := liked_item "B" "2023-01-01T00:00:00Z" sample_album.
Definition item_C : value := liked_item "C" "2023-12-01T00:00:00Z" sample_album.

Definition played (id : string) : value := VDict [("track", VDict [("id", VStr id)])].

(** The answers to a run over the scenario: the liked songs, the recently
    played tracks, the two pages of top tracks and the removal call. *)
Definition scenario_script : list http_outcome :=
  [answer_json (items_page [item_A; item_B; item_C]);
   answer_json (items_page [played "A"]);
   answer_json (items_page []);
   answer_json (items_page []);
   answer_empty 200].

(** The same library with a liked song whose added-at string is no
    timestamp, and with one whose album is null. *)
Definition item_unparsable : value := liked_item "X" "not-a-date" sample_album.

Definition item_without_album : value := liked_item "B" "2023-01-01T00:00:00Z" VNone.

Definition library_script (liked : list value) : list http_outcome :=
  [answer_json (items_page liked);
   answer_json (items_page []);
   answer_json (items_page []);
   answer_json (items_page [])].

(** A library of 51 stale songs, fetched in two pages; the removal of the
    first batch of 50 is accepted and that of the second is answered 500. *)
Definition liked_51 : list value := map stale_item (seq 0 51).

Definition sample_ids (n : nat) : list value :=
  map (fun k => VStr ("t" ++ NilZero.string_of_uint (Nat.to_uint k))) (seq 0 n).

Definition ids_51 : list value := sample_ids 51.

Definition partial_removal_script : list http_outcome :=
  [answer_json (items_page (firstn 50 liked_51));
   answer_json (items_page (skipn 50 liked_51));
   answer_json (items_page []);
   answer_json (items_page []);
   answer_json (items_page []);
   answer_empty 200;
   answer_empty 500].

(** A library whose second page cannot be fetched: the request for the
    offset 0 is answered with 50 songs and every other one with 500. *)
Definition first_page : value := items_page (firstn 50 liked_51).

Definition first_page_only : world -> http_call -> http_outcome :=
  fun _ c =>
    match c_params c with
    | VDict [_; (_, VInt 0)] => answer_json first_page
    | _ =>
        if String.eqb (c_url c)
             "https://api.spotify.com/v1/me/tracks?limit=50&offset=0"
        then answer_json first_page
        else answer_empty 500
    end.

Definition status_of (o : http_outcome) : Z :=
  match o with
  | Responded r => status_code r
  | NetworkFailure => -1
  end.

(** The answers of the one-page library of [first_page_only]. *)
Definition first_page_answers (i : nat) : value :=
  match i with
  | O => first_page
  | S _ => VNone
  end.

Definition sample_get (endpoint : string) : http_call :=
  {| c_verb := HGET; c_url := base_url ++ endpoint; c_bearer := Some (VStr "token");
     c_params := VNone; c_json := VNone; c_form := VNone |}.

Definition sample_profile : value := VDict [("display_name", VStr "Listener")].

Definition songs_51 : list C.song :=
  map (fun id => {| C.s_id := id; C.s_name := VStr "Song"; C.s_artists := "Artist";
                    C.s_added_at := VStr "2020-01-01T00:00:00Z" |}) ids_51.

(** A remote that gives every call the same answer, and the answer with
    a status and no body. *)
Definition always (o : http_outcome) : world -> http_call -> http_outcome :=
  fun _ _ => o.

Definition no_body (status : Z) : http_response :=
  {| status_code := status; retry_after_header := None;
     text := EmptyString; json := None |}.

(** A 429 whose Retry-After header is an HTTP date. *)
Definition dated_rate_limit : http_response :=
  {| status_code := 429;
     retry_after_header := Some "Wed, 21 Oct 2015 07:28:00 GMT";
     text := EmptyString; json := None |}.

Definition sample_names (n : nat) : list string :=
  map (fun k => "t" ++ NilZero.string_of_uint (Nat.to_uint k)) (seq 0 n).

(** The record the cleanup builds for the sample track [id] added at [t],
    and the view of its liked item. *)
Definition sample_record (id : string) (t : Z) : S.removal_record :=
  {| S.r_id := VStr id; S.r_name := VStr ("Song " ++ id); S.r_artist := VStr "Artist";
     S.r_album := VStr "Album"; S.r_added_at := t; S.r_preview_image := None |}.

Definition sample_view (id : string) (t : Z) : atom * Z * S.removal_record :=
  (AStr id, t, sample_record id t).

Definition sample_song (id added_at : string) : C.song :=
  {| C.s_id := VStr id; C.s_name := VStr ("Song " ++ id); C.s_artists := "Artist";
     C.s_added_at := VStr added_at |}.

(** The answers to a run of the command-line tool over the scenario: the
    profile, the liked songs, the recently played tracks, the two pages of
    top tracks and the removal call. *)
Definition cleaner_script : list http_outcome :=
  answer_json sample_profile :: scenario_script.

(** The result of a run that returned. *)
Definition returned {A} (default : A) (run : out A * world) : A :=
  match fst run with
  | Returns x => x
  | _ => default
  end.

(** A 200 answer with a JSON body, and the profile request under the
    bearer of a renewed token. *)
Definition ok_response (j : value) : http_response :=
  {| status_code := 200; retry_after_header := None; text := "{}"; json := Some j |}.



(** ** Predicates of the statements *)

(** The entry [make_request] leaves in the ghost log. *)
Definition api_call_of (endpoint method : string) (data params : value) : api_call :=
  {| a_endpoint := endpoint; a_method := method; a_data := data; a_params := params |}.

(** A method that issues at most [n] HTTP calls. *)
Definition issues_at_most {A} (n : nat) (m : M A) : Prop :=
  forall w, (List.length (w_requests (snd (m w))) <= List.length (w_requests w) + n)%nat.

(** A method that takes every world to one related to it by [R]. *)
Definition respects (R : world -> world -> Prop) {A} (m : M A) : Prop :=
  forall w, R w (snd (m w)).

(** The ghost log of invocations is unchanged. *)
Definition same_calls (w w' : world) : Prop := w_calls w' = w_calls w.

(** The batches [track_ids[i:i + 50]] the removal loop of the web service
    plans, and the invocation it makes for a batch. *)
Definition batches (track_ids : list value) : list (list value) :=
  map (fun i => S.slice track_ids i (i + S.batch_size))
      (S.py_range (List.length track_ids) S.batch_size).

Definition delete_call (batch : list value) : api_call :=
  api_call_of "/me/tracks" "DELETE" (VDict [("ids", VList batch)]) VNone.

(** An answer of [make_request] that [remove_tracks_from_liked] takes as a
    failed batch: [not response or not response.get('success')]. *)
Definition rejected (response : out value) : Prop :=
  exists v, response = Returns v
            /\ (truthy v = false
                \/ exists x, dict_get v "success" VNone = Ok x /\ truthy x = false).

(** The HTTP calls added to the log are all made with the verb [v]. *)
Definition adds_only (v : verb) (w w' : world) : Prop :=
  exists new, w_requests w' = (w_requests w ++ new)%list
              /\ Forall (fun c => c_verb c = v) new.

(** The calls and the invocations added to the logs are all reads. *)
Definition reads_only (w w' : world) : Prop :=
  adds_only HGET w w'
  /\ exists calls, w_calls w' = (w_calls w ++ calls)%list
                   /\ Forall (fun a => a_method a = "GET") calls.


(** The answers of the request method to a page request of the
    liked-songs fetch: a page of at least 50 items, a page of fewer, and
    no page at all, which is a failed request ([None]), an empty answer or
    one without items. *)
Definition full_page (response : value) (items : list value) : Prop :=
  exists d, response = VDict d /\ lookup "items" d = Some (VList items)
            /\ (50 <= List.length items)%nat.

Definition short_page (response : value) (items : list value) : Prop :=
  exists d, response = VDict d /\ lookup "items" d = Some (VList items)
            /\ (0 < List.length items < 50)%nat.

Definition no_page (response : value) : Prop :=
  truthy response = false
  \/ exists d, response = VDict d
               /\ match lookup "items" d with
                  | Some x => truthy x = false
                  | None => True
                  end.

Definition last_page (response : value) (items : list value) : Prop :=
  short_page response items \/ (no_page response /\ items = []).

(** The page requests of the two implementations for the page number [i]. *)
Definition service_page_params (i : nat) : value :=
  VDict [("limit", VInt 50); ("offset", VInt (50 * Z.of_nat i))].

Definition cleaner_page_endpoint (i : nat) : string :=
  "/me/tracks?limit=" ++ C.decimal 50 ++ "&offset=" ++ C.decimal (50 * Z.of_nat i).

(** How a method may fail: [Q (Some e)] when it raises [e], [Q None] when
    it runs out of fuel. *)
Definition may_fail {A} (Q : option pyexn -> Prop) (m : M A) : Prop :=
  forall w,
    match fst (m w) with
    | Returns _ => True
    | Raises e => Q (Some e)
    | OutOfFuel => Q None
    end.

Definition never (k : option pyexn) : Prop := False.

Definition builtin_only (k : option pyexn) : Prop := exists e, k = Some (Builtin e).

Definition raises_only (k : option pyexn) : Prop := exists e, k = Some e.

(** A Retry-After header that [int] rejects, or a negative one that
    [time.sleep] rejects. *)
Definition bad_retry_after (r : http_response) : Prop :=
  S.retry_after_seconds r = Raise ValueError
  \/ exists n, S.retry_after_seconds r = Ok n /\ n < 0.

(** A remote that answers every call with an error status. *)
Definition api_down (remote : world -> http_call -> http_outcome) : Prop :=
  forall w c, exists r, remote w c = Responded r
                        /\ status_code r <> 200 /\ status_code r <> 204
                        /\ status_code r <> 401 /\ status_code r <> 429.

(** The world after one HTTP call was added to the log and nothing else
    changed but the ghost log. *)
Definition one_call_later (v : verb) (w w' : world) : Prop :=
  (exists c, w_requests w' = (w_requests w ++ [c])%list /\ c_verb c = v)
  /\ w_slept w' = w_slept w
  /\ w_access_token w' = w_access_token w.

Definition empty_result : S.cleanup_result :=
  {| S.total_liked_songs := 0; S.songs_analyzed := 0; S.songs_removed := 0;
     S.songs_kept := 0; S.recent_tracks_found := None;
     S.top_tracks_found := None; S.removed_tracks := [] |}.

Definition empty_preview : S.preview_result :=
  {| S.p_total_liked_songs := 0; S.p_tracks_to_remove := [];
     S.p_tracks_to_keep := 0; S.p_recent_activity_count := None |}.

(** The ids the activity lists contribute: the id of the track of a
    recently played item, and the id of a top track. *)
Definition played_id (item : value) (a : atom) : Prop :=
  exists track id, subscript item "track" = Ok track
                   /\ subscript track "id" = Ok id /\ hash_key id = Ok a.

Definition top_id (track : value) (a : atom) : Prop :=
  exists id, subscript track "id" = Ok id /\ hash_key id = Ok a.

(** [picked P items plan]: the plan is made, in order, of one entry for
    each item of a subsequence of the items, related to its item by [P]. *)
Inductive picked {A : Type} (P : value -> A -> Prop) : list value -> list A -> Prop :=
| picked_nil : picked P [] []
| picked_skip (item : value) (items : list value) (plan : list A) :
    picked P items plan -> picked P (item :: items) plan
| picked_take (item : value) (x : A) (items : list value) (plan : list A) :
    P item x -> picked P items plan -> picked P (item :: items) (x :: plan).

(** A liked-songs item of the web service whose track id is [id], is not
    in the active set and whose added-at instant [t] is before the cutoff. *)
Definition inactive_and_old (fromisoformat : string -> option Z) (active : pyset)
    (cutoff : Z) (item id : value) (t : Z) : Prop :=
  exists track a,
    subscript item "track" = Ok track /\ subscript track "id" = Ok id
    /\ hash_key id = Ok a /\ set_mem a active = false
    /\ S.parse_added_at fromisoformat item = Ok t /\ t < cutoff.

(** The same for the command-line tool: the id is not in the set and the
    added-at value is older than the cutoff or does not parse. *)
Definition inactive_and_old_or_unparsable (fromisoformat : string -> option Z)
    (ids : pyset) (cutoff : Z) (item : value) (s : C.song) : Prop :=
  exists track a,
    dict_get item "track" (VDict []) = Ok track
    /\ dict_get track "id" VNone = Ok (C.s_id s)
    /\ hash_key (C.s_id s) = Ok a /\ set_mem a ids = false
    /\ dict_get item "added_at" (VStr EmptyString) = Ok (C.s_added_at s)
    /\ (C.older_than fromisoformat cutoff (C.s_added_at s) = Ok true
        \/ exists e, C.older_than fromisoformat cutoff (C.s_added_at s) = Raise e).

(** What the web service's classification reads of a well-formed item: the
    key of its id, its added-at instant, and the record built for it when
    it is selected. *)
Definition describes (fromisoformat : string -> option Z)
    (entry : value -> Z -> res S.removal_record) (active : pyset) (cutoff : Z)
    (item : value) (view : atom * Z * S.removal_record) : Prop :=
  let '(a, t, r) := view in
  exists track id,
    subscript item "track" = Ok track /\ subscript track "id" = Ok id
    /\ hash_key id = Ok a
    /\ S.parse_added_at fromisoformat item = Ok t
    /\ (set_mem a active = false -> t < cutoff -> entry track t = Ok r).

Definition is_stale (active : pyset) (cutoff : Z)
    (view : atom * Z * S.removal_record) : bool :=
  let '(a, t, _) := view in negb (set_mem a active) && (t <? cutoff).

(** A remote that accepts every removal: it answers each DELETE with a
    200 without a body. *)
Definition accepts_removals (remote : world -> http_call -> http_outcome) : Prop :=
  forall w c, c_verb c = HDELETE ->
    exists r, remote w c = Responded r /\ status_code r = 200
              /\ blank (text r) = true.

(** The DELETE call for a batch of ids: the ids comma-joined in the query
    parameter ["ids"], no body. *)
Definition removal_request (token : value) (batch : list string) : http_call :=
  {| c_verb := HDELETE; c_url := base_url ++ "/me/tracks"; c_bearer := Some token;
     c_params := VDict [("ids", VStr (String.concat "," batch))];
     c_json := VNone; c_form := VNone |}.

Definition string_batches (ids : list string) : list (list string) :=
  map (fun i => S.slice ids i (i + S.batch_size))
      (S.py_range (List.length ids) S.batch_size).

Definition is_string (v : value) : bool :=
  match v with VStr _ => true | _ => false end.

(** The HTTP calls added to the log are GETs followed by DELETEs. *)
Definition reads_then_deletes (w w' : world) : Prop :=
  exists gets deletes,
    w_requests w' = (w_requests w ++ gets ++ deletes)%list
    /\ Forall (fun c => c_verb c = HGET) gets
    /\ Forall (fun c => c_verb c = HDELETE) deletes.

(** A preview record without its image reference. *)
Definition without_image (r : S.removal_record) : S.removal_record :=
  {| S.r_id := S.r_id r; S.r_name := S.r_name r; S.r_artist := S.r_artist r;
     S.r_album := S.r_album r; S.r_added_at := S.r_added_at r;
     S.r_preview_image := None |}.


Definition has_comma (s : string) : bool :=
  existsb (Ascii.eqb ","%char) (list_ascii_of_string s).

(** The views the reference rule removes: a view holds the key of an
    item's track id and its added-at instant. *)
Definition rule_removes {A} (active : pyset) (cutoff : Z) (view : atom * Z * A) : bool :=
  let '(a, t, _) := view in
  match reference_rule (set_mem a active) t cutoff with
  | Remove => true
  | Keep => false
  end.

(** What the command-line tool reads of a liked-songs item whose added-at
    string parses: the key of its id, its added-at instant and the entry
    appended for it when it is selected. *)
Definition cleaner_describes (fromisoformat : string -> option Z) (item : value)
    (view : atom * Z * C.song) : Prop :=
  let '(a, t, s) := view in
  exists track raw,
    dict_get item "track" (VDict []) = Ok track
    /\ dict_get track "id" VNone = Ok (C.s_id s)
    /\ hash_key (C.s_id s) = Ok a
    /\ dict_get track "name" (VStr "Unknown") = Ok (C.s_name s)
    /\ C.artists_text track = Ok (C.s_artists s)
    /\ dict_get item "added_at" (VStr EmptyString) = Ok (C.s_added_at s)
    /\ C.s_added_at s = VStr raw
    /\ fromisoformat (replace_Z raw) = Some t.

(** [classified P Q items plan]: the loop went through all the items, kept
    those that satisfy [Q] and appended to the plan, in order, an entry
    related by [P] to each of the others. *)
Inductive classified {A : Type} (P : value -> A -> Prop) (Q : value -> Prop)
  : list value -> list A -> Prop :=
| classified_nil : classified P Q [] []
| classified_keep (item : value) (items : list value) (plan : list A) :
    Q item -> classified P Q items plan -> classified P Q (item :: items) plan
| classified_remove (item : value) (x : A) (items : list value) (plan : list A) :
    P item x -> classified P Q items plan -> classified P Q (item :: items) (x :: plan).

(** A liked-songs item the rule keeps: its id is in the active set or its
    added-at instant is at or after the cutoff. *)
Definition kept_by_rule (fromisoformat : string -> option Z) (active : pyset)
    (cutoff : Z) (item : value) : Prop :=
  exists track id a t,
    subscript item "track" = Ok track /\ subscript track "id" = Ok id
    /\ hash_key id = Ok a
    /\ S.parse_added_at fromisoformat item = Ok t
    /\ reference_rule (set_mem a active) t cutoff = Keep.


(** An entry of the removal plan for a liked-songs item: the rule removes
    the item, and the record carries its id and its added-at instant. A
    candidate of the preview also carries the image reference of the
    item's album. *)
Definition rule_candidate (fromisoformat : string -> option Z) (active : pyset)
    (cutoff : Z) (item : value) (r : S.removal_record) : Prop :=
  exists track a,
    subscript item "track" = Ok track
    /\ subscript track "id" = Ok (S.r_id r)
    /\ hash_key (S.r_id r) = Ok a
    /\ S.parse_added_at fromisoformat item = Ok (S.r_added_at r)
    /\ reference_rule (set_mem a active) (S.r_added_at r) cutoff = Remove.


(** A liked-songs item the command-line tool keeps: its id is among the
    recently played ones, or its added-at string parses to an instant at
    or after six months ago. *)
Definition cleaner_kept (fromisoformat : string -> option Z) (ids : pyset)
    (six_months_ago : Z) (item : value) : Prop :=
  exists track id a,
    dict_get item "track" (VDict []) = Ok track
    /\ dict_get track "id" VNone = Ok id
    /\ hash_key id = Ok a
    /\ (set_mem a ids = true
        \/ exists added_at,
             dict_get item "added_at" (VStr EmptyString) = Ok added_at
             /\ C.older_than fromisoformat six_months_ago added_at = Ok false).

(** The calls to the token endpoint and the calls to the API in the log. *)
Definition is_token_call (c : http_call) : bool := String.eqb (c_url c) C.token_url.

Definition api_calls (w : world) : nat :=
  List.length (filter (fun c => negb (is_token_call c)) (w_requests w)).

Definition token_calls (w : world) : nat :=
  List.length (filter is_token_call (w_requests w)).

(** A method that adds at most [n] to a count of the log. *)
Definition sends_at_most (count : world -> nat) (n : nat) {A} (m : M A) : Prop :=
  forall w, (count (snd (m w)) <= count w + n)%nat.

(** The remote answers the call [c] with a 429 as often as [ns] is long,
    the i-th time with the Retry-After value [ns_i], from the world [w] on
    and as the request method sleeps and asks again. *)
Fixpoint rate_limited (retry_after : http_response -> res Z)
    (remote : world -> http_call -> http_outcome) (c : http_call) (ns : list Z)
    (w : world) : Prop :=
  match ns with
  | [] => True
  | n :: rest =>
      (exists r, remote w c = Responded r /\ status_code r = 429
                 /\ retry_after r = Ok n /\ 0 <= n)
      /\ rate_limited retry_after remote c rest
           (with_sleep (n * 1000) (with_request c w))
  end.

(** The world after these answers: the call sent and the sleep taken once
    for each. *)
Fixpoint after_rate_limits (c : http_call) (ns : list Z) (w : world) : world :=
  match ns with
  | [] => w
  | n :: rest => after_rate_limits c rest (with_sleep (n * 1000) (with_request c w))
  end.

Definition total (ns : list Z) : Z := fold_right Z.add 0 ns.

(** Nothing was sent and the access token is the same. *)
Definition same_log (w w' : world) : Prop :=
  w_requests w' = w_requests w /\ w_access_token w' = w_access_token w.

(** ** Properties of the classification *)

Section Classification.

Variable fromisoformat : string -> option Z.

Lemma parse_added_at_inv (item : value) (t : Z) :
  S.parse_added_at fromisoformat item = Ok t ->
  exists raw, subscript item "added_at" = Ok (VStr raw)
              /\ fromisoformat (replace_Z raw) = Some t.
Proof.
  unfold S.parse_added_at, rbind.
  destruct (subscript item "added_at") as [v|e]; [|discriminate].
  destruct v; simpl; try discriminate.
  destruct (fromisoformat (replace_Z s)) as [t'|] eqn:P; [|discriminate].
  intros H. injection H as ->. exists s. auto.
Qed.

Lemma subscript_dict_get (v : value) (k : string) (x default : value) :
  subscript v k = Ok x -> dict_get v k default = Ok x.
Proof.
  destruct v; simpl; try discriminate.
  destruct (lookup k d); [auto | discriminate].
Qed.

(** C5. A liked-songs item whose added-at string does not parse: the
    web service raises [ValueError] out of the classification loop, for
    active and inactive ids alike and whatever items follow, while the
    command-line tool puts an inactive item on the removal list. *)
Theorem unparsable_added_at_raises_in_service
    (active : pyset) (cutoff : Z) (item track id : value) (a : atom)
    (raw artists : string) :
  subscript item "track" = Ok track ->
  subscript item "added_at" = Ok (VStr raw) ->
  fromisoformat (replace_Z raw) = None ->
  subscript track "id" = Ok id ->
  hash_key id = Ok a ->
  set_mem a active = false ->
  C.artists_text track = Ok artists ->
  (forall entry rest acc,
     S.classify_item fromisoformat entry active cutoff item = Raise ValueError
     /\ S.classify_all fromisoformat entry active cutoff (item :: rest) acc
        = Raise ValueError)
  /\ (exists s, C.classify_item fromisoformat active cutoff item = Ok (Some s)
                /\ C.s_id s = id).
Proof.
  intros Htrack Hraw Hiso Hid Hhash Hmem Hart. split.
  - intros entry rest acc.
    assert (S.classify_item fromisoformat entry active cutoff item = Raise ValueError) as H.
    { unfold S.classify_item, S.parse_added_at, rbind.
      rewrite Htrack, Hraw. simpl. rewrite Hiso. reflexivity. }
    split; [exact H|]. simpl. unfold rbind at 1. rewrite H. reflexivity.
  - assert (exists name, dict_get track "name" (VStr "Unknown") = Ok name) as [name Hname].
    { destruct track; simpl in Hid; try discriminate. simpl.
      destruct (lookup "name" d); eauto. }
    eexists. unfold C.classify_item, set_contains, C.older_than, rbind.
    rewrite (subscript_dict_get _ _ _ (VDict []) Htrack).
    rewrite (subscript_dict_get _ _ _ VNone Hid).
    rewrite Hname, Hart.
    rewrite (subscript_dict_get _ _ _ (VStr EmptyString) Hraw).
    rewrite Hhash, Hmem. simpl. rewrite Hiso. split; reflexivity.
Qed.

End Classification.

(** ** What the classification selects *)

Section SelectedItems.

Variable fromisoformat : string -> option Z.

Lemma removal_entry_fields (track : value) (t : Z) (r : S.removal_record) :
  S.removal_entry track t = Ok r ->
  subscript track "id" = Ok (S.r_id r) /\ S.r_added_at r = t.
Proof.
  unfold S.removal_entry, rbind.
  repeat match goal with
         | |- context [match ?x with Ok _ => _ | Raise _ => _ end] =>
             destruct x; try discriminate
         end.
  intros H. inversion H. auto.
Qed.

Lemma preview_entry_fields (track : value) (t : Z) (r : S.removal_record) :
  S.preview_entry track t = Ok r ->
  subscript track "id" = Ok (S.r_id r) /\ S.r_added_at r = t.
Proof.
  unfold S.preview_entry, rbind.
  destruct (subscript track "id") as [id|]; [|discriminate].
  repeat match goal with
         | |- context [match ?x with Ok _ => _ | Raise _ => _ end] =>
             destruct x; try discriminate
         end.
  intros H. inversion H. auto.
Qed.

Lemma classify_item_selected (entry : value -> Z -> res S.removal_record)
    (active : pyset) (cutoff : Z) (item : value) (r : S.removal_record) :
  S.classify_item fromisoformat entry active cutoff item = Ok (Some r) ->
  exists track id a t,
    subscript item "track" = Ok track /\ subscript track "id" = Ok id
    /\ hash_key id = Ok a /\ set_mem a active = false
    /\ S.parse_added_at fromisoformat item = Ok t /\ t < cutoff
    /\ entry track t = Ok r.
Proof.
  unfold S.classify_item, set_contains, rbind.
  destruct (subscript item "track") as [track|] eqn:Ht; [|discriminate].
  destruct (S.parse_added_at fromisoformat item) as [t|] eqn:Hp; [|discriminate].
  destruct (subscript track "id") as [id|] eqn:Hid; [|discriminate].
  destruct (hash_key id) as [a|] eqn:Hk; [|discriminate].
  destruct (set_mem a active) eqn:Hm; [discriminate|].
  destruct (Z.ltb_spec t cutoff) as [Hlt|Hge]; [|discriminate].
  destruct (entry track t) as [r'|] eqn:He; [|discriminate].
  intros Hr. inversion Hr. subst. exists track, id, a, t. auto 10.
Qed.

Lemma cleaner_classify_item_selected (ids : pyset) (cutoff : Z) (item : value)
    (s : C.song) :
  C.classify_item fromisoformat ids cutoff item = Ok (Some s) ->
  inactive_and_old_or_unparsable fromisoformat ids cutoff item s.
Proof.
  unfold C.classify_item, set_contains, rbind.
  destruct (dict_get item "track" (VDict [])) as [track|] eqn:Ht; [|discriminate].
  destruct (dict_get track "id" VNone) as [id|] eqn:Hid; [|discriminate].
  destruct (dict_get track "name" (VStr "Unknown")) as [name|]; [|discriminate].
  destruct (C.artists_text track) as [artists|]; [|discriminate].
  destruct (dict_get item "added_at" (VStr EmptyString)) as [added|] eqn:Ha;
    [|discriminate].
  destruct (hash_key id) as [a|] eqn:Hk; [|discriminate].
  destruct (set_mem a ids) eqn:Hm; [discriminate|].
  destruct (C.older_than fromisoformat cutoff added) as [[|]|e] eqn:Ho;
    try discriminate; intros H; inversion H; subst; clear H;
    exists track, a; simpl; repeat split; auto.
  right. exists e. exact Ho.
Qed.

Lemma classify_all_complete (entry : value -> Z -> res S.removal_record)
    (active : pyset) (cutoff : Z) (liked : list value)
    (views : list (atom * Z * S.removal_record)) :
  Forall2 (describes fromisoformat entry active cutoff) liked views ->
  forall acc,
    S.classify_all fromisoformat entry active cutoff liked acc
    = Ok (acc ++ map snd (filter (is_stale active cutoff) views))%list.
Proof.
  intros H. induction H as [|item [[a t] r] liked views Hd _ IH]; intros acc; simpl.
  - rewrite app_nil_r. reflexivity.
  - destruct Hd as (track & id & Ht & Hid & Hk & Hp & He).
    unfold rbind at 1. unfold S.classify_item, set_contains, rbind.
    rewrite Ht, Hp, Hid, Hk.
    destruct (set_mem a active) eqn:Hm; simpl; [apply IH|].
    destruct (Z.ltb_spec t cutoff) as [Hlt|Hge]; simpl; [|apply IH].
    rewrite (He eq_refl Hlt). rewrite IH, <- app_assoc. reflexivity.
Qed.

End SelectedItems.

Section ClassificationLoops.

Variable fromisoformat : string -> option Z.

Lemma stale_is_rule (active : pyset) (cutoff : Z) (view : atom * Z * S.removal_record) :
  is_stale active cutoff view = rule_removes active cutoff view.
Proof.
  destruct view as [[a t] r]. unfold is_stale, rule_removes, reference_rule.
  destruct (set_mem a active), (t <? cutoff); reflexivity.
Qed.

Lemma cleaner_classify_all_complete (active : pyset) (cutoff : Z)
    (liked : list value) (views : list (atom * Z * C.song)) :
  Forall2 (cleaner_describes fromisoformat) liked views ->
  forall acc,
    C.classify_all fromisoformat active cutoff liked acc
    = Ok (acc ++ map snd (filter (rule_removes active cutoff) views))%list.
Proof.
  intros H.
  induction H as [|item [[a t] [sid sname sartists sadded]] liked views Hd _ IH];
    intros acc; cbn [C.classify_all].
  - rewrite app_nil_r. reflexivity.
  - destruct Hd as (track & raw & Ht & Hid & Hk & Hn & Ha & Had & Hraw & Hiso).
    cbn [C.s_id C.s_name C.s_artists C.s_added_at] in *. subst sadded.
    unfold C.classify_item, set_contains, C.older_than, rbind.
    rewrite Ht, Hid, Hn, Ha, Had, Hk. cbn [str_replace_Z]. rewrite Hiso.
    cbn [filter rule_removes]. unfold reference_rule.
    destruct (set_mem a active); [apply IH|].
    destruct (t <? cutoff); [|apply IH].
    rewrite IH. cbn [map snd]. rewrite <- app_assoc. reflexivity.
Qed.

End ClassificationLoops.

(** ** What the classification loop returns *)

Section ClassifiedPlans.

Variable fromisoformat : string -> option Z.

Lemma classified_impl {A} (P P' : value -> A -> Prop) (Q Q' : value -> Prop)
    (items : list value) (plan : list A) :
  (forall item x, P item x -> P' item x) ->
  (forall item, Q item -> Q' item) ->
  classified P Q items plan -> classified P' Q' items plan.
Proof.
  intros HP HQ H. induction H.
  - apply classified_nil.
  - apply classified_keep; auto.
  - apply classified_remove; auto.
Qed.

Lemma classify_all_classified (entry : value -> Z -> res S.removal_record)
    (active : pyset) (cutoff : Z) (liked : list value) :
  forall acc plan,
    S.classify_all fromisoformat entry active cutoff liked acc = Ok plan ->
    exists sel,
      plan = (acc ++ sel)%list
      /\ classified
           (fun item r =>
              S.classify_item fromisoformat entry active cutoff item = Ok (Some r))
           (fun item =>
              S.classify_item fromisoformat entry active cutoff item = Ok None)
           liked sel.
Proof.
  induction liked as [|item rest IH]; intros acc plan; cbn [S.classify_all].
  - intros H. inversion H. exists []. rewrite app_nil_r.
    split; [reflexivity | apply classified_nil].
  - unfold rbind at 1.
    destruct (S.classify_item fromisoformat entry active cutoff item)
      as [[r|]|e] eqn:E; try discriminate; intros H; apply IH in H;
      destruct H as (sel & -> & Hsel).
    + exists (r :: sel). rewrite <- app_assoc. split; [reflexivity|].
      apply classified_remove; assumption.
    + exists sel. split; [reflexivity|]. apply classified_keep; assumption.
Qed.

Lemma classify_item_kept (entry : value -> Z -> res S.removal_record)
    (active : pyset) (cutoff : Z) (item : value) :
  S.classify_item fromisoformat entry active cutoff item = Ok None ->
  kept_by_rule fromisoformat active cutoff item.
Proof.
  unfold S.classify_item, set_contains, rbind, kept_by_rule, reference_rule.
  destruct (subscript item "track") as [track|] eqn:Ht; [|discriminate].
  destruct (S.parse_added_at fromisoformat item) as [t|] eqn:Hp; [|discriminate].
  destruct (subscript track "id") as [id|] eqn:Hid; [|discriminate].
  destruct (hash_key id) as [a|] eqn:Hk; [|discriminate].
  intros H. exists track, id, a, t.
  repeat split; try reflexivity; try assumption.
  destruct (set_mem a active); [reflexivity|].
  destruct (t <? cutoff); [|reflexivity].
  destruct (entry track t); discriminate.
Qed.


Lemma selected_is_rule_candidate (entry : value -> Z -> res S.removal_record)
    (active : pyset) (cutoff : Z) (item : value) (r : S.removal_record) :
  (forall track t r', entry track t = Ok r' ->
     subscript track "id" = Ok (S.r_id r') /\ S.r_added_at r' = t) ->
  S.classify_item fromisoformat entry active cutoff item = Ok (Some r) ->
  rule_candidate fromisoformat active cutoff item r.
Proof.
  intros Hentry H. apply classify_item_selected in H.
  destruct H as (track & id & a & t & Ht & Hid & Hk & Hm & Hp & Hlt & He).
  destruct (Hentry track t r He) as [Hrid Hrt].
  assert (S.r_id r = id) as Eid by congruence.
  exists track, a. rewrite Eid, Hrt.
  repeat split; try assumption.
  unfold reference_rule. rewrite Hm.
  apply Z.ltb_lt in Hlt. rewrite Hlt. reflexivity.
Qed.


Lemma removal_plan_classified (active : pyset) (cutoff : Z) (liked : list value)
    (plan : list S.removal_record) :
  S.classify_all fromisoformat S.removal_entry active cutoff liked [] = Ok plan ->
  classified (rule_candidate fromisoformat active cutoff)
    (kept_by_rule fromisoformat active cutoff) liked plan.
Proof.
  intros H. apply classify_all_classified in H. destruct H as (sel & -> & H).
  simpl. eapply classified_impl; [| |exact H].
  - intros item r. apply (selected_is_rule_candidate S.removal_entry).
    apply removal_entry_fields.
  - intros item. apply classify_item_kept.
Qed.

Lemma cleaner_classify_item_kept (ids : pyset) (cutoff : Z) (item : value) :
  C.classify_item fromisoformat ids cutoff item = Ok None ->
  cleaner_kept fromisoformat ids cutoff item.
Proof.
  unfold C.classify_item, set_contains, rbind, cleaner_kept.
  destruct (dict_get item "track" (VDict [])) as [track|] eqn:Ht; [|discriminate].
  destruct (dict_get track "id" VNone) as [id|] eqn:Hid; [|discriminate].
  destruct (dict_get track "name" (VStr "Unknown")) as [name|]; [|discriminate].
  destruct (C.artists_text track) as [artists|]; [|discriminate].
  destruct (dict_get item "added_at" (VStr EmptyString)) as [added|] eqn:Ha;
    [|discriminate].
  destruct (hash_key id) as [a|] eqn:Hk; [|discriminate].
  intros H. exists track, id, a. repeat split; try reflexivity; try assumption.
  destruct (set_mem a ids); [left; reflexivity|].
  right. exists added. split; [reflexivity|].
  destruct (C.older_than fromisoformat cutoff added) as [[|]|e];
    try discriminate. reflexivity.
Qed.

Lemma cleaner_plan_classified (ids : pyset) (cutoff : Z) (liked : list value) :
  forall acc songs,
    C.classify_all fromisoformat ids cutoff liked acc = Ok songs ->
    exists sel,
      songs = (acc ++ sel)%list
      /\ classified (inactive_and_old_or_unparsable fromisoformat ids cutoff)
           (cleaner_kept fromisoformat ids cutoff) liked sel.
Proof.
  induction liked as [|item rest IH]; intros acc songs; cbn [C.classify_all].
  - intros H. inversion H. exists []. rewrite app_nil_r.
    split; [reflexivity | apply classified_nil].
  - unfold rbind at 1.
    destruct (C.classify_item fromisoformat ids cutoff item) as [[s|]|e] eqn:E;
      try discriminate; intros H; apply IH in H;
      destruct H as (sel & -> & Hsel).
    + exists (s :: sel). rewrite <- app_assoc. split; [reflexivity|].
      apply classified_remove; [|assumption].
      apply cleaner_classify_item_selected. exact E.
    + exists sel. split; [reflexivity|]. apply classified_keep; [|assumption].
      apply cleaner_classify_item_kept. exact E.
Qed.


End ClassifiedPlans.

(** C10. The record of a removal candidate is built when the track has an
    id, a name, a first artist with a name and an album with a name; in the
    preview the album's image list must be present and may be empty, the
    image reference is then [None], and otherwise it is the url of the
    first image. *)
Theorem candidate_record_needs_album
    (track id name first_artist artist album album_name : value)
    (other_artists : list value) (added_at : Z) :
  subscript track "id" = Ok id ->
  subscript track "name" = Ok name ->
  subscript track "artists" = Ok (VList (first_artist :: other_artists)) ->
  subscript first_artist "name" = Ok artist ->
  subscript track "album" = Ok album ->
  subscript album "name" = Ok album_name ->
  S.removal_entry track added_at
  = Ok {| S.r_id := id; S.r_name := name; S.r_artist := artist;
          S.r_album := album_name; S.r_added_at := added_at;
          S.r_preview_image := None |}
  /\ (subscript album "images" = Ok (VList []) ->
      S.preview_entry track added_at
      = Ok {| S.r_id := id; S.r_name := name; S.r_artist := artist;
              S.r_album := album_name; S.r_added_at := added_at;
              S.r_preview_image := Some VNone |})
  /\ (forall image others url,
        subscript album "images" = Ok (VList (image :: others)) ->
        subscript image "url" = Ok url ->
        S.preview_entry track added_at
        = Ok {| S.r_id := id; S.r_name := name; S.r_artist := artist;
                S.r_album := album_name; S.r_added_at := added_at;
                S.r_preview_image := Some url |}).
Proof.
  intros Hid Hname Hartists Hartist Halbum Halbum_name.
  unfold S.removal_entry, S.preview_entry, rbind.
  rewrite Hid, Hname, Hartists. simpl index0. cbv iota.
  rewrite Hartist, Halbum, Halbum_name.
  split; [reflexivity|]. split.
  - intros ->. reflexivity.
  - intros image others url -> Hurl. simpl. rewrite Hurl. reflexivity.
Qed.

(** ** Reasoning about methods *)

Lemma bind_returns {A B} (m : M A) (k : A -> M B) (w w1 : world) (a : A) :
  m w = (Returns a, w1) -> bind m k w = k a w1.
Proof. unfold bind. intros ->. reflexivity. Qed.

Lemma bind_inv {A B} (m : M A) (k : A -> M B) (w w' : world) (b : B) :
  bind m k w = (Returns b, w') ->
  exists a w1, m w = (Returns a, w1) /\ k a w1 = (Returns b, w').
Proof.
  unfold bind. destruct (m w) as [[a|e|] w1]; intros H; try discriminate.
  exists a, w1. auto.
Qed.

Lemma lift_inv {A} (r : res A) (w w' : world) (a : A) :
  lift r w = (Returns a, w') -> r = Ok a /\ w' = w.
Proof.
  unfold lift. destruct r; intros H; inversion H; auto.
Qed.

Lemma for_attempts_next (body : Z -> M (option value)) (a : Z) (rest : list Z)
    (w w1 : world) :
  body a w = (Returns None, w1) ->
  for_attempts (a :: rest) body w = for_attempts rest body w1.
Proof. intros H. simpl. unfold bind. rewrite H. reflexivity. Qed.

Lemma for_attempts_return (body : Z -> M (option value)) (a : Z) (rest : list Z)
    (w w1 : world) (v : value) :
  body a w = (Returns (Some v), w1) ->
  for_attempts (a :: rest) body w = (Returns v, w1).
Proof. intros H. simpl. unfold bind. rewrite H. reflexivity. Qed.

Lemma issues_ret {A} (a : A) : issues_at_most 0 (ret a).
Proof. intros w. simpl. lia. Qed.

Lemma issues_lift {A} (r : res A) : issues_at_most 0 (lift r).
Proof. intros w. unfold lift. destruct r; simpl; lia. Qed.

Lemma issues_sleep (ms : Z) : issues_at_most 0 (sleep ms).
Proof. intros w. unfold sleep. destruct (ms <? 0); simpl; lia. Qed.

Lemma issues_weaken {A} (n n' : nat) (m : M A) :
  (n <= n')%nat -> issues_at_most n m -> issues_at_most n' m.
Proof. intros Hle H w. specialize (H w). lia. Qed.

Lemma issues_bind {A B} (n k : nat) (m : M A) (f : A -> M B) :
  issues_at_most n m -> (forall a, issues_at_most k (f a)) ->
  issues_at_most (n + k) (bind m f).
Proof.
  intros Hm Hf w. unfold bind. specialize (Hm w).
  destruct (m w) as [[a|e|] w1]; simpl in *; try lia.
  specialize (Hf a w1). lia.
Qed.

Lemma issues_try {A} (n k : nat) (handles : pyexn -> bool) (body handler : M A) :
  issues_at_most n body -> issues_at_most k handler ->
  issues_at_most (n + k) (try_except handles body handler).
Proof.
  intros Hb Hh w. unfold try_except. specialize (Hb w).
  destruct (body w) as [[a|e|] w1]; simpl in *; try lia.
  destruct (handles e); simpl; [|lia].
  specialize (Hh w1). lia.
Qed.

Lemma issues_for_attempts (n : nat) (body : Z -> M (option value)) (attempts : list Z) :
  (forall a, issues_at_most n (body a)) ->
  issues_at_most (List.length attempts * n) (for_attempts attempts body).
Proof.
  intros Hb. induction attempts as [|a rest IH].
  - apply issues_ret.
  - simpl. apply issues_bind; [apply Hb|].
    intros [v|]; [|exact IH].
    eapply issues_weaken; [|apply issues_ret]. lia.
Qed.

(** ** The request loop of the web service *)

Section ServiceRequests.

Variable remote : world -> http_call -> http_outcome.

Let make_request := S.make_request remote.
Let attempt_body := S.attempt_body remote.

Lemma service_perform_issues (c : http_call) : issues_at_most 1 (S.perform remote c).
Proof.
  intros w. unfold S.perform.
  destruct (remote w c); simpl; rewrite length_app; simpl; lia.
Qed.

Lemma service_attempt_issues (endpoint method : string) (data params : value) (a : Z) :
  issues_at_most 1 (attempt_body endpoint method data params a).
Proof.
  unfold attempt_body, S.attempt_body.
  apply (issues_try 1 0).
  - apply (issues_bind 1 0).
    + intros w. unfold S.dispatch.
      destruct (S.prepare _ _ _ _ _); [apply service_perform_issues | simpl; lia].
    + intros r. unfold S.handle_response.
      destruct (status_code r =? 429).
      { apply (issues_bind 0 0); [apply issues_lift|]. intros n.
        apply (issues_bind 0 0); [apply issues_sleep|]. intros _. apply issues_ret. }
      destruct (status_code r =? 200).
      { destruct (_ && _); [apply issues_ret|].
        destruct (json r); [apply issues_ret|].
        destruct (String.eqb method "DELETE"); apply issues_ret. }
      destruct (status_code r =? 401); apply issues_ret.
  - destruct (a =? 2); [apply issues_ret|].
    apply (issues_bind 0 0); [apply issues_sleep|]. intros _. apply issues_ret.
Qed.

Lemma service_attempt_rate_limited
    (endpoint method : string) (data params : value) (a : Z)
    (w : world) (c : http_call) (r : http_response) (n : Z) :
  S.prepare (w_access_token w) endpoint method data params = Ok c ->
  remote w c = Responded r ->
  status_code r = 429 ->
  S.retry_after_seconds r = Ok n ->
  0 <= n ->
  attempt_body endpoint method data params a w
  = (Returns None, with_sleep (n * 1000) (with_request c w)).
Proof.
  intros Hprep Hr Hs Hn Hpos.
  unfold attempt_body, S.attempt_body, try_except, bind, S.dispatch.
  rewrite Hprep. unfold S.perform. rewrite Hr.
  unfold S.handle_response. rewrite Hs. simpl.
  unfold bind, lift. rewrite Hn. unfold sleep.
  destruct (n * 1000 <? 0) eqn:E; [apply Z.ltb_lt in E; lia|]. reflexivity.
Qed.

Lemma service_attempt_ok
    (endpoint method : string) (data params : value) (a : Z)
    (w : world) (c : http_call) (r : http_response) (v : value) :
  S.prepare (w_access_token w) endpoint method data params = Ok c ->
  remote w c = Responded r ->
  status_code r = 200 ->
  json r = Some v ->
  String.eqb method "DELETE" && blank (text r) = false ->
  attempt_body endpoint method data params a w
  = (Returns (Some v), with_request c w).
Proof.
  intros Hprep Hr Hs Hj Hb.
  unfold attempt_body, S.attempt_body, try_except, bind, S.dispatch.
  rewrite Hprep. unfold S.perform. rewrite Hr.
  unfold S.handle_response. rewrite Hs. simpl. rewrite Hb, Hj. reflexivity.
Qed.

Lemma service_attempt_unauthorized
    (endpoint method : string) (data params : value) (a : Z)
    (w : world) (c : http_call) (r : http_response) :
  S.prepare (w_access_token w) endpoint method data params = Ok c ->
  remote w c = Responded r ->
  status_code r = 401 ->
  attempt_body endpoint method data params a w
  = (Returns (Some VNone), with_request c w).
Proof.
  intros Hprep Hr Hs.
  unfold attempt_body, S.attempt_body, try_except, bind, S.dispatch.
  rewrite Hprep. unfold S.perform. rewrite Hr.
  unfold S.handle_response. rewrite Hs. reflexivity.
Qed.

End ServiceRequests.

(** ** The request loop of the command-line tool *)

Section CleanerRequests.

Variable remote : world -> http_call -> http_outcome.

Let attempt_body := C.attempt_body remote.

Lemma cleaner_perform_issues (c : http_call) : issues_at_most 1 (C.perform remote c).
Proof.
  intros w. unfold C.perform.
  destruct (remote w c); simpl; rewrite length_app; simpl; lia.
Qed.

Lemma cleaner_refresh_issues : issues_at_most 1 (C.refresh_access_token remote).
Proof.
  unfold C.refresh_access_token.
  apply (issues_try 1 0); [|apply issues_ret].
  apply (issues_bind 1 0).
  - intros w. unfold C.post_refresh. apply cleaner_perform_issues.
  - intros r. destruct (status_code r =? 200); [|apply issues_ret].
    apply (issues_bind 0 0).
    { unfold C.response_json. destruct (json r); [apply issues_ret | apply issues_lift]. }
    intros j. apply (issues_bind 0 0); [apply issues_lift|]. intros t.
    apply (issues_bind 0 0); [|intros _; apply issues_ret].
    intros w. simpl. lia.
Qed.

Lemma cleaner_attempt_issues (endpoint method : string) (data : value) (a : Z) :
  issues_at_most 2 (attempt_body endpoint method data a).
Proof.
  unfold attempt_body, C.attempt_body.
  apply (issues_try 2 0).
  - apply (issues_bind 1 1).
    + intros w. unfold C.dispatch.
      destruct (C.prepare _ _ _ _); [apply cleaner_perform_issues | simpl; lia].
    + intros r. unfold C.handle_response.
      destruct (status_code r =? 401).
      { apply (issues_bind 1 0); [apply cleaner_refresh_issues|].
        intros [|]; apply issues_ret. }
      apply (issues_weaken 0 1); [lia|].
      destruct (status_code r =? 429).
      { apply (issues_bind 0 0); [apply issues_lift|]. intros n.
        apply (issues_bind 0 0); [apply issues_sleep|]. intros _. apply issues_ret. }
      destruct (status_code r =? 200).
      { destruct (_ && _); [apply issues_ret|].
        destruct (json r); [apply issues_ret|].
        destruct (String.eqb method "DELETE"); apply issues_ret. }
      destruct (status_code r =? 204); apply issues_ret.
  - destruct (a <? 2); [|apply issues_ret].
    apply (issues_bind 0 0); [apply issues_sleep|]. intros _. apply issues_ret.
Qed.

Lemma cleaner_attempt_rate_limited
    (endpoint method : string) (data : value) (a : Z)
    (w : world) (c : http_call) (r : http_response) (n : Z) :
  C.prepare (w_access_token w) endpoint method data = Ok c ->
  remote w c = Responded r ->
  status_code r = 429 ->
  C.retry_after_seconds r = Ok n ->
  0 <= n ->
  attempt_body endpoint method data a w
  = (Returns None, with_sleep (n * 1000) (with_request c w)).
Proof.
  intros Hprep Hr Hs Hn Hpos.
  unfold attempt_body, C.attempt_body, try_except, bind, C.dispatch.
  rewrite Hprep. unfold C.perform. rewrite Hr.
  unfold C.handle_response. rewrite Hs. simpl.
  unfold bind, lift. rewrite Hn. unfold sleep.
  destruct (n * 1000 <? 0) eqn:E; [apply Z.ltb_lt in E; lia|]. reflexivity.
Qed.

Lemma cleaner_attempt_ok
    (endpoint method : string) (data : value) (a : Z)
    (w : world) (c : http_call) (r : http_response) (v : value) :
  C.prepare (w_access_token w) endpoint method data = Ok c ->
  remote w c = Responded r ->
  status_code r = 200 ->
  json r = Some v ->
  String.eqb method "DELETE" && blank (text r) = false ->
  attempt_body endpoint method data a w
  = (Returns (Some v), with_request c w).
Proof.
  intros Hprep Hr Hs Hj Hb.
  unfold attempt_body, C.attempt_body, try_except, bind, C.dispatch.
  rewrite Hprep. unfold C.perform. rewrite Hr.
  unfold C.handle_response. rewrite Hs. simpl. rewrite Hb, Hj. reflexivity.
Qed.




End CleanerRequests.

(** ** Rate limiting and expired tokens *)


(** C4. The web service on a 401 answer: [make_request] returns [None]
    after the single call that was answered 401; no call goes to the token
    endpoint, the access token is unchanged and the request is not sent
    again. *)
Theorem service_gives_up_on_unauthorized
    (remote : world -> http_call -> http_outcome)
    (endpoint method : string) (data params : value) (w : world)
    (c : http_call) (r : http_response) :
  status_code r = 401 ->
  S.prepare (w_access_token w) endpoint method data params = Ok c ->
  remote (with_call (api_call_of endpoint method data params) w) c = Responded r ->
  let run := S.make_request remote endpoint method data params w in
  fst run = Returns VNone
  /\ w_requests (snd run) = (w_requests w ++ [c])%list
  /\ c_url c <> C.token_url
  /\ w_access_token (snd run) = w_access_token w.
Proof.
  intros Hs Hp Hr run. subst run. unfold S.make_request.
  fold (api_call_of endpoint method data params).
  erewrite for_attempts_return
    by (eapply service_attempt_unauthorized; eauto).
  simpl. repeat split; auto.
  assert (c_url c = base_url ++ endpoint) as ->.
  { revert Hp. unfold S.prepare, rbind.
    repeat match goal with
           | |- context [if ?b then _ else _] => destruct b
           | |- context [match ?x with Ok _ => _ | Raise _ => _ end] => destruct x
           end; intros H; inversion H; reflexivity. }
  unfold base_url, C.token_url. simpl. intros H. discriminate.
Qed.

(** ** Frames: what a method leaves of the world *)

Section Frame.

(** [R w w'] relates the world before a method to the world after it; a
    frame is reflexive, transitive and unaffected by sleeping. *)
Variable R : world -> world -> Prop.
Hypothesis R_refl : forall w, R w w.
Hypothesis R_trans : forall w1 w2 w3, R w1 w2 -> R w2 w3 -> R w1 w3.
Hypothesis R_sleep : forall ms w, R w (with_sleep ms w).

Lemma respects_ret {A} (a : A) : respects R (ret a).
Proof. intros w. apply R_refl. Qed.

Lemma respects_lift {A} (r : res A) : respects R (lift r).
Proof. intros w. unfold lift. destruct r; apply R_refl. Qed.

Lemma respects_sleep (ms : Z) : respects R (sleep ms).
Proof. intros w. unfold sleep. destruct (ms <? 0); simpl; auto. Qed.

Lemma respects_bind {A B} (m : M A) (f : A -> M B) :
  respects R m -> (forall a, respects R (f a)) -> respects R (bind m f).
Proof.
  intros Hm Hf w. unfold bind. specialize (Hm w).
  destruct (m w) as [[a|e|] w1]; simpl in *; auto.
  eapply R_trans; [exact Hm | apply Hf].
Qed.

Lemma respects_try {A} (handles : pyexn -> bool) (body handler : M A) :
  respects R body -> respects R handler -> respects R (try_except handles body handler).
Proof.
  intros Hb Hh w. unfold try_except. specialize (Hb w).
  destruct (body w) as [[a|e|] w1]; simpl in *; auto.
  destruct (handles e); simpl; auto.
  eapply R_trans; [exact Hb | apply Hh].
Qed.

Lemma respects_for_attempts (body : Z -> M (option value)) (attempts : list Z) :
  (forall a, respects R (body a)) -> respects R (for_attempts attempts body).
Proof.
  intros Hb. induction attempts as [|a rest IH].
  - apply respects_ret.
  - simpl. apply respects_bind; [apply Hb|].
    intros [v|]; [apply respects_ret | exact IH].
Qed.

Variable remote : world -> http_call -> http_outcome.

Lemma service_perform_respects (c : http_call) :
  (forall w, R w (with_request c w)) -> respects R (S.perform remote c).
Proof.
  intros Hc w. unfold S.perform. destruct (remote w c); simpl; apply Hc.
Qed.

Lemma service_handle_respects (method : string) (r : http_response) :
  respects R (S.handle_response method r).
Proof.
  unfold S.handle_response.
  destruct (status_code r =? 429).
  { apply respects_bind; [apply respects_lift|]. intros n.
    apply respects_bind; [apply respects_sleep|]. intros _. apply respects_ret. }
  destruct (status_code r =? 200).
  { destruct (_ && _); [apply respects_ret|].
    destruct (json r); [apply respects_ret|].
    destruct (String.eqb method "DELETE"); apply respects_ret. }
  destruct (status_code r =? 401); apply respects_ret.
Qed.

(** The loop of [make_request] respects R a frame that admits the calls it
    prepares; [make_request] itself also adds the entry of the ghost log. *)
Lemma service_attempts_respects (endpoint method : string) (data params : value) :
  (forall token c w, S.prepare token endpoint method data params = Ok c ->
                     R w (with_request c w)) ->
  respects R (for_attempts [0; 1; 2] (S.attempt_body remote endpoint method data params)).
Proof.
  intros Hc.
  apply respects_for_attempts. intros a.
  unfold S.attempt_body. apply respects_try.
  - apply respects_bind; [|apply service_handle_respects].
    intros w1. unfold S.dispatch.
    destruct (S.prepare _ _ _ _ _) eqn:P; [|apply R_refl].
    apply service_perform_respects. intros w2. eapply Hc. exact P.
  - destruct (a =? 2); [apply respects_ret|].
    apply respects_bind; [apply respects_sleep|]. intros _. apply respects_ret.
Qed.

Lemma service_make_request_respects (endpoint method : string) (data params : value) :
  (forall token c w, S.prepare token endpoint method data params = Ok c ->
                     R w (with_request c w)) ->
  (forall w, R w (with_call (api_call_of endpoint method data params) w)) ->
  respects R (S.make_request remote endpoint method data params).
Proof.
  intros Hc Ha w. unfold S.make_request.
  eapply R_trans; [apply Ha|].
  apply service_attempts_respects. exact Hc.
Qed.

Hypothesis R_token : forall t w, R w (with_token t w).

Lemma cleaner_perform_respects (c : http_call) :
  (forall w, R w (with_request c w)) -> respects R (C.perform remote c).
Proof.
  intros Hc w. unfold C.perform. destruct (remote w c); simpl; apply Hc.
Qed.

Lemma cleaner_refresh_respects :
  (forall creds w, R w (with_request (C.refresh_call creds) w)) ->
  respects R (C.refresh_access_token remote).
Proof.
  intros Hc. unfold C.refresh_access_token.
  apply respects_try; [|apply respects_ret].
  apply respects_bind.
  - intros w. unfold C.post_refresh. apply cleaner_perform_respects. apply Hc.
  - intros r. destruct (status_code r =? 200); [|apply respects_ret].
    apply respects_bind.
    { unfold C.response_json. destruct (json r); [apply respects_ret | apply respects_lift]. }
    intros j. apply respects_bind; [apply respects_lift|]. intros t.
    apply respects_bind; [|intros _; apply respects_ret].
    intros w. simpl. apply R_token.
Qed.

Lemma cleaner_attempts_respects (endpoint method : string) (data : value) :
  (forall token c w, C.prepare token endpoint method data = Ok c ->
                     R w (with_request c w)) ->
  (forall creds w, R w (with_request (C.refresh_call creds) w)) ->
  respects R (for_attempts [0; 1; 2] (C.attempt_body remote endpoint method data)).
Proof.
  intros Hc Hrefresh.
  apply respects_for_attempts. intros a.
  unfold C.attempt_body. apply respects_try.
  - apply respects_bind.
    + intros w1. unfold C.dispatch.
      destruct (C.prepare _ _ _ _) eqn:P; [|apply R_refl].
      apply cleaner_perform_respects. intros w2. eapply Hc. exact P.
    + intros r. unfold C.handle_response.
      destruct (status_code r =? 401).
      { apply respects_bind; [apply cleaner_refresh_respects; exact Hrefresh|].
        intros [|]; apply respects_ret. }
      destruct (status_code r =? 429).
      { apply respects_bind; [apply respects_lift|]. intros n.
        apply respects_bind; [apply respects_sleep|]. intros _. apply respects_ret. }
      destruct (status_code r =? 200).
      { destruct (_ && _); [apply respects_ret|].
        destruct (json r); [apply respects_ret|].
        destruct (String.eqb method "DELETE"); apply respects_ret. }
      destruct (status_code r =? 204); apply respects_ret.
  - destruct (a <? 2); [|apply respects_ret].
    apply respects_bind; [apply respects_sleep|]. intros _. apply respects_ret.
Qed.

End Frame.

Lemma same_calls_refl (w : world) : same_calls w w.
Proof. reflexivity. Qed.

Lemma same_calls_trans (w1 w2 w3 : world) :
  same_calls w1 w2 -> same_calls w2 w3 -> same_calls w1 w3.
Proof. unfold same_calls. congruence. Qed.

Lemma service_make_request_calls (remote : world -> http_call -> http_outcome)
    (endpoint method : string) (data params : value) (w : world) :
  w_calls (snd (S.make_request remote endpoint method data params w))
  = (w_calls w ++ [api_call_of endpoint method data params])%list.
Proof.
  unfold S.make_request. fold (api_call_of endpoint method data params).
  apply (service_attempts_respects same_calls same_calls_refl same_calls_trans).
  - reflexivity.
  - reflexivity.
Qed.

Lemma cleaner_make_request_calls (remote : world -> http_call -> http_outcome)
    (endpoint method : string) (data : value) (w : world) :
  w_calls (snd (C.make_spotify_request remote endpoint method data w))
  = (w_calls w ++ [api_call_of endpoint method data VNone])%list.
Proof.
  unfold C.make_spotify_request. fold (api_call_of endpoint method data VNone).
  apply (cleaner_attempts_respects same_calls same_calls_refl same_calls_trans).
  - reflexivity.
  - reflexivity.
  - reflexivity.
  - reflexivity.
Qed.

(** ** Counting the calls of a method *)

Section Counting.

Variable count : world -> nat.
Hypothesis count_sleep : forall ms w, count (with_sleep ms w) = count w.

Lemma sends_ret {A} (a : A) : sends_at_most count 0 (ret a).
Proof. intros w. simpl. lia. Qed.

Lemma sends_lift {A} (r : res A) : sends_at_most count 0 (lift r).
Proof. intros w. unfold lift. destruct r; simpl; lia. Qed.

Lemma sends_sleep (ms : Z) : sends_at_most count 0 (sleep ms).
Proof.
  intros w. unfold sleep. destruct (ms <? 0); simpl; [lia|].
  rewrite count_sleep. lia.
Qed.

Lemma sends_weaken {A} (n n' : nat) (m : M A) :
  (n <= n')%nat -> sends_at_most count n m -> sends_at_most count n' m.
Proof. intros Hle H w. specialize (H w). lia. Qed.

Lemma sends_bind {A B} (n k : nat) (m : M A) (f : A -> M B) :
  sends_at_most count n m -> (forall a, sends_at_most count k (f a)) ->
  sends_at_most count (n + k) (bind m f).
Proof.
  intros Hm Hf w. unfold bind. specialize (Hm w).
  destruct (m w) as [[a|e|] w1]; simpl in *; try lia.
  specialize (Hf a w1). lia.
Qed.

Lemma sends_try {A} (n k : nat) (handles : pyexn -> bool) (body handler : M A) :
  sends_at_most count n body -> sends_at_most count k handler ->
  sends_at_most count (n + k) (try_except handles body handler).
Proof.
  intros Hb Hh w. unfold try_except. specialize (Hb w).
  destruct (body w) as [[a|e|] w1]; simpl in *; try lia.
  destruct (handles e); simpl; [|lia].
  specialize (Hh w1). lia.
Qed.

Lemma sends_for_attempts (n : nat) (body : Z -> M (option value)) (attempts : list Z) :
  (forall a, sends_at_most count n (body a)) ->
  sends_at_most count (List.length attempts * n) (for_attempts attempts body).
Proof.
  intros Hb. induction attempts as [|a rest IH].
  - apply sends_ret.
  - simpl. apply sends_bind; [apply Hb|].
    intros [v|]; [|exact IH].
    eapply sends_weaken; [|apply sends_ret]. lia.
Qed.

End Counting.

Lemma cleaner_prepare_url (token : value) (endpoint method : string) (data : value)
    (c : http_call) :
  C.prepare token endpoint method data = Ok c -> c_url c = base_url ++ endpoint.
Proof.
  unfold C.prepare, rbind.
  repeat match goal with
         | |- context [if ?b then _ else _] => destruct b
         | |- context [match ?x with Ok _ => _ | Raise _ => _ end] => destruct x
         end; intros H; inversion H; reflexivity.
Qed.

Lemma api_url_is_no_token_url (endpoint : string) :
  String.eqb (base_url ++ endpoint) C.token_url = false.
Proof. reflexivity. Qed.

Lemma api_calls_request (c : http_call) (w : world) :
  api_calls (with_request c w)
  = (api_calls w + (if is_token_call c then 0 else 1))%nat.
Proof.
  unfold api_calls. simpl. rewrite filter_app, length_app. simpl.
  destruct (is_token_call c); reflexivity.
Qed.

Lemma token_calls_request (c : http_call) (w : world) :
  token_calls (with_request c w)
  = (token_calls w + (if is_token_call c then 1 else 0))%nat.
Proof.
  unfold token_calls. simpl. rewrite filter_app, length_app. simpl.
  destruct (is_token_call c); reflexivity.
Qed.

Section CleanerCalls.

Variable remote : world -> http_call -> http_outcome.

Lemma cleaner_dispatch_sends (endpoint method : string) (data : value) :
  sends_at_most api_calls 1 (C.dispatch remote endpoint method data)
  /\ sends_at_most token_calls 0 (C.dispatch remote endpoint method data).
Proof.
  split; intros w; unfold C.dispatch;
    destruct (C.prepare (w_access_token w) endpoint method data) as [c|e] eqn:P;
    try (simpl; lia);
    apply cleaner_prepare_url in P;
    assert (is_token_call c = false) as Hc
      by (unfold is_token_call; rewrite P; apply api_url_is_no_token_url);
    unfold C.perform; destruct (remote w c); simpl;
    rewrite ?api_calls_request, ?token_calls_request, Hc; lia.
Qed.

Lemma cleaner_refresh_sends :
  sends_at_most api_calls 0 (C.refresh_access_token remote)
  /\ sends_at_most token_calls 1 (C.refresh_access_token remote).
Proof.
  assert (forall count : world -> nat,
            (forall ms w, count (with_sleep ms w) = count w) ->
            (forall t w, count (with_token t w) = count w) ->
            forall n,
              (forall w, count (with_request (C.refresh_call (w_creds w)) w)
                         <= count w + n)%nat ->
              sends_at_most count n (C.refresh_access_token remote)) as H.
  { intros count Hsleep Htoken n Hreq. unfold C.refresh_access_token.
    apply (sends_weaken count (n + 0 + 0) n); [lia|].
    apply (sends_try count (n + 0) 0); [|apply sends_ret].
    apply (sends_bind count n 0).
    - intros w. unfold C.post_refresh, C.perform.
      destruct (remote w _); simpl; apply Hreq.
    - intros r. destruct (status_code r =? 200); [|apply sends_ret].
      apply (sends_bind count 0 0).
      { unfold C.response_json. destruct (json r); [apply sends_ret | apply sends_lift]. }
      intros j. apply (sends_bind count 0 0); [apply sends_lift|]. intros t.
      apply (sends_bind count 0 0); [|intros _; apply sends_ret].
      intros w. simpl. rewrite Htoken. lia. }
  split; apply H; try reflexivity; intros w.
  - rewrite api_calls_request. simpl. lia.
  - rewrite token_calls_request. simpl. lia.
Qed.

Lemma cleaner_handle_sends (method : string) (r : http_response) :
  sends_at_most api_calls 0 (C.handle_response remote method r)
  /\ sends_at_most token_calls 1 (C.handle_response remote method r).
Proof.
  assert (forall count : world -> nat,
            (forall ms w, count (with_sleep ms w) = count w) ->
            forall n,
              sends_at_most count n (C.refresh_access_token remote) ->
              sends_at_most count n (C.handle_response remote method r)) as H.
  { intros count Hsleep n Hrefresh. unfold C.handle_response.
    destruct (status_code r =? 401).
    { apply (sends_weaken count (n + 0) n); [lia|].
      apply sends_bind; [exact Hrefresh|]. intros [|]; apply sends_ret. }
    apply (sends_weaken count 0 n); [lia|].
    destruct (status_code r =? 429).
    { apply (sends_bind count 0 0); [apply sends_lift|]. intros k.
      apply (sends_bind count 0 0); [apply sends_sleep; exact Hsleep|].
      intros _. apply sends_ret. }
    destruct (status_code r =? 200).
    { destruct (_ && _); [apply sends_ret|].
      destruct (json r); [apply sends_ret|].
      destruct (String.eqb method "DELETE"); apply sends_ret. }
    destruct (status_code r =? 204); apply sends_ret. }
  split; apply H; try reflexivity; apply cleaner_refresh_sends.
Qed.

Lemma cleaner_make_request_sends (endpoint method : string) (data : value) :
  sends_at_most api_calls 3 (C.make_spotify_request remote endpoint method data)
  /\ sends_at_most token_calls 3 (C.make_spotify_request remote endpoint method data).
Proof.
  assert (forall count : world -> nat,
            (forall ms w, count (with_sleep ms w) = count w) ->
            (forall a w, count (with_call a w) = count w) ->
            forall n k, (n + k = 1)%nat ->
              sends_at_most count n (C.dispatch remote endpoint method data) ->
              (forall r, sends_at_most count k (C.handle_response remote method r)) ->
              sends_at_most count 3 (C.make_spotify_request remote endpoint method data))
    as H.
  { intros count Hsleep Hcall n k Hnk Hd Hh w. unfold C.make_spotify_request.
    assert (forall a, sends_at_most count 1
                        (C.attempt_body remote endpoint method data a)) as Hbody;
      [|pose proof (sends_for_attempts count 1 _ [0; 1; 2] Hbody
                      (with_call (api_call_of endpoint method data VNone) w)) as Hloop;
        rewrite Hcall in Hloop; exact Hloop].
    intros a. unfold C.attempt_body.
    apply (sends_try count 1 0).
    - rewrite <- Hnk. apply sends_bind; [exact Hd | exact Hh].
    - destruct (a <? 2); [|apply sends_ret].
      apply (sends_bind count 0 0); [apply sends_sleep; exact Hsleep|].
      intros _. apply sends_ret. }
  split.
  - apply (H api_calls (fun _ _ => eq_refl) (fun _ _ => eq_refl) 1%nat 0%nat eq_refl).
    + apply cleaner_dispatch_sends.
    + intros r. apply cleaner_handle_sends.
  - apply (H token_calls (fun _ _ => eq_refl) (fun _ _ => eq_refl) 0%nat 1%nat eq_refl).
    + apply cleaner_dispatch_sends.
    + intros r. apply cleaner_handle_sends.
Qed.

End CleanerCalls.

(** ** The same call, again *)

Lemma same_log_refl (w : world) : same_log w w.
Proof. split; reflexivity. Qed.

Lemma same_log_trans (w1 w2 w3 : world) :
  same_log w1 w2 -> same_log w2 w3 -> same_log w1 w3.
Proof. unfold same_log. intros [A B] [C D]. split; congruence. Qed.

Lemma same_log_sleep (ms : Z) (w : world) : same_log w (with_sleep ms w).
Proof. split; reflexivity. Qed.

Section ServiceCalls.

Variable remote : world -> http_call -> http_outcome.

Lemma service_attempt_same_call (endpoint method : string) (data params : value)
    (a : Z) (w : world) (cs : http_call) :
  S.prepare (w_access_token w) endpoint method data params = Ok cs ->
  let w' := snd (S.attempt_body remote endpoint method data params a w) in
  w_requests w' = (w_requests w ++ [cs])%list
  /\ w_access_token w' = w_access_token w.
Proof.
  intros Hprep.
  assert (forall w1, same_log w1
            (snd ((if a =? 2 then ret (Some VNone) else sleep 1000 ;; ret None) w1)))
    as Hhandler.
  { intros w1. destruct (a =? 2); [apply same_log_refl|].
    apply (respects_bind same_log same_log_trans).
    - apply (respects_sleep same_log same_log_refl same_log_sleep).
    - intros _. apply (respects_ret same_log same_log_refl). }
  unfold S.attempt_body, try_except, bind, S.dispatch. rewrite Hprep.
  unfold S.perform. destruct (remote w cs) as [r|].
  - pose proof (service_handle_respects same_log same_log_refl same_log_trans
                  same_log_sleep method r (with_request cs w)) as Hh.
    destruct (S.handle_response method r (with_request cs w)) as [[v|e|] w1];
      simpl in Hh; try (simpl; exact Hh).
    destruct (is_request_exception e); [|simpl; exact Hh].
    destruct (same_log_trans _ _ _ Hh (Hhandler w1)) as [A B]. simpl in A, B.
    simpl. split; assumption.
  - destruct (Hhandler (with_request cs w)) as [A B]. simpl in A, B.
    simpl. split; assumption.
Qed.

Lemma service_attempts_same_call (endpoint method : string) (data params : value)
    (cs : http_call) (attempts : list Z) :
  forall w,
    S.prepare (w_access_token w) endpoint method data params = Ok cs ->
    exists k, (k <= List.length attempts)%nat
              /\ w_requests (snd (for_attempts attempts
                                    (S.attempt_body remote endpoint method data params) w))
                 = (w_requests w ++ repeat cs k)%list.
Proof.
  induction attempts as [|a rest IH]; intros w Hprep.
  - exists 0%nat. simpl. rewrite app_nil_r. split; [lia | reflexivity].
  - destruct (service_attempt_same_call endpoint method data params a w cs Hprep)
      as [Hreq Htok].
    cbn [for_attempts]. unfold bind.
    destruct (S.attempt_body remote endpoint method data params a w) as [[[v|]|e|] w1];
      simpl in Hreq, Htok; simpl.
    + exists 1%nat. split; [lia | exact Hreq].
    + rewrite <- Htok in Hprep. destruct (IH w1 Hprep) as (k & Hk & E).
      exists (S k). split; [lia|]. rewrite E, Hreq, <- app_assoc. reflexivity.
    + exists 1%nat. split; [lia | exact Hreq].
    + exists 1%nat. split; [lia | exact Hreq].
Qed.

End ServiceCalls.

(** ** Rate limiting *)

Lemma after_rate_limits_world (c : http_call) (ns : list Z) :
  forall w,
    w_requests (after_rate_limits c ns w)
    = (w_requests w ++ repeat c (List.length ns))%list
    /\ w_slept (after_rate_limits c ns w) = w_slept w + total ns * 1000
    /\ w_access_token (after_rate_limits c ns w) = w_access_token w
    /\ w_calls (after_rate_limits c ns w) = w_calls w.
Proof.
  induction ns as [|n rest IH]; intros w; simpl.
  - rewrite app_nil_r. repeat split; lia.
  - destruct (IH (with_sleep (n * 1000) (with_request c w))) as (A & B & C' & D).
    simpl in A, B, C', D. rewrite A, B, C', D, <- app_assoc.
    repeat split; simpl; try reflexivity. lia.
Qed.

Lemma service_rate_limited_loop (remote : world -> http_call -> http_outcome)
    (endpoint method : string) (data params : value) (cs : http_call) (ns : list Z) :
  forall attempts w,
    S.prepare (w_access_token w) endpoint method data params = Ok cs ->
    rate_limited S.retry_after_seconds remote cs ns w ->
    (List.length ns <= List.length attempts)%nat ->
    for_attempts attempts (S.attempt_body remote endpoint method data params) w
    = for_attempts (skipn (List.length ns) attempts)
        (S.attempt_body remote endpoint method data params)
        (after_rate_limits cs ns w).
Proof.
  induction ns as [|n rest IH]; intros attempts w Hprep Hlim Hlen; simpl.
  - reflexivity.
  - destruct attempts as [|a attempts]; [simpl in Hlen; lia|].
    destruct Hlim as ((r & Hr & Hs & Hn & Hpos) & Hrest).
    rewrite (for_attempts_next _ a attempts w _
               (service_attempt_rate_limited remote endpoint method data params a
                  w cs r n Hprep Hr Hs Hn Hpos)).
    apply IH; [exact Hprep | exact Hrest | simpl in Hlen; lia].
Qed.

Lemma cleaner_rate_limited_loop (remote : world -> http_call -> http_outcome)
    (endpoint method : string) (data : value) (cc : http_call) (ns : list Z) :
  forall attempts w,
    C.prepare (w_access_token w) endpoint method data = Ok cc ->
    rate_limited C.retry_after_seconds remote cc ns w ->
    (List.length ns <= List.length attempts)%nat ->
    for_attempts attempts (C.attempt_body remote endpoint method data) w
    = for_attempts (skipn (List.length ns) attempts)
        (C.attempt_body remote endpoint method data)
        (after_rate_limits cc ns w).
Proof.
  induction ns as [|n rest IH]; intros attempts w Hprep Hlim Hlen; simpl.
  - reflexivity.
  - destruct attempts as [|a attempts]; [simpl in Hlen; lia|].
    destruct Hlim as ((r & Hr & Hs & Hn & Hpos) & Hrest).
    rewrite (for_attempts_next _ a attempts w _
               (cleaner_attempt_rate_limited remote endpoint method data a
                  w cc r n Hprep Hr Hs Hn Hpos)).
    apply IH; [exact Hprep | exact Hrest | simpl in Hlen; lia].
Qed.

(** C3. A 429 answer makes the request method sleep for the Retry-After
    seconds of the answer (one second when the header is absent) and go on
    to the next of its three attempts with the same call, whatever
    happened in the attempts before. So when the remote answers the first
    attempts with 429s, the method has sent the call and slept once for
    each and goes on with the attempts that are left: after fewer than
    three 429s a 200 with a JSON body is returned, after three the method
    returns [None]. Whatever the remote answers, one invocation of the web
    service sends the one call at most three times, and one invocation of
    the command-line tool makes at most three API calls and at most three
    token calls; a 429 is thus retried at most twice. *)
Theorem rate_limited_request_retried_within_three_attempts
    (remote : world -> http_call -> http_outcome)
    (endpoint method : string) (data params : value) (w : world)
    (cs cc : http_call) (ns : list Z) :
  let ws := with_call (api_call_of endpoint method data params) w in
  let wc := with_call (api_call_of endpoint method data VNone) w in
  let service := S.attempt_body remote endpoint method data params in
  let cleaner := C.attempt_body remote endpoint method data in
  S.prepare (w_access_token w) endpoint method data params = Ok cs ->
  C.prepare (w_access_token w) endpoint method data = Ok cc ->
  (List.length ns <= 3)%nat ->
  (rate_limited S.retry_after_seconds remote cs ns ws ->
   let w' := after_rate_limits cs ns ws in
   S.make_request remote endpoint method data params w
   = for_attempts (skipn (List.length ns) [0; 1; 2]) service w'
   /\ (List.length ns = 3%nat ->
       S.make_request remote endpoint method data params w = (Returns VNone, w'))
   /\ (forall r v,
         (List.length ns < 3)%nat ->
         remote w' cs = Responded r ->
         status_code r = 200 ->
         json r = Some v ->
         String.eqb method "DELETE" && blank (text r) = false ->
         S.make_request remote endpoint method data params w
         = (Returns v, with_request cs w'))
   /\ w_requests w' = (w_requests w ++ repeat cs (List.length ns))%list
   /\ w_slept w' = w_slept w + total ns * 1000)
  /\ (rate_limited C.retry_after_seconds remote cc ns wc ->
      let w' := after_rate_limits cc ns wc in
      C.make_spotify_request remote endpoint method data w
      = for_attempts (skipn (List.length ns) [0; 1; 2]) cleaner w'
      /\ (List.length ns = 3%nat ->
          C.make_spotify_request remote endpoint method data w = (Returns VNone, w'))
      /\ (forall r v,
            (List.length ns < 3)%nat ->
            remote w' cc = Responded r ->
            status_code r = 200 ->
            json r = Some v ->
            String.eqb method "DELETE" && blank (text r) = false ->
            C.make_spotify_request remote endpoint method data w
            = (Returns v, with_request cc w'))
      /\ w_requests w' = (w_requests w ++ repeat cc (List.length ns))%list
      /\ w_slept w' = w_slept w + total ns * 1000)
  /\ (forall a rest w0 c r n,
        S.prepare (w_access_token w0) endpoint method data params = Ok c ->
        remote w0 c = Responded r ->
        status_code r = 429 ->
        S.retry_after_seconds r = Ok n ->
        0 <= n ->
        for_attempts (a :: rest) service w0
        = for_attempts rest service (with_sleep (n * 1000) (with_request c w0)))
  /\ (forall a rest w0 c r n,
        C.prepare (w_access_token w0) endpoint method data = Ok c ->
        remote w0 c = Responded r ->
        status_code r = 429 ->
        C.retry_after_seconds r = Ok n ->
        0 <= n ->
        for_attempts (a :: rest) cleaner w0
        = for_attempts rest cleaner (with_sleep (n * 1000) (with_request c w0)))
  /\ (exists k, (k <= 3)%nat
                /\ w_requests (snd (S.make_request remote endpoint method data params w))
                   = (w_requests w ++ repeat cs k)%list)
  /\ (forall e m d p, issues_at_most 3 (S.make_request remote e m d p))
  /\ (forall e m d,
        sends_at_most api_calls 3 (C.make_spotify_request remote e m d)
        /\ sends_at_most token_calls 3 (C.make_spotify_request remote e m d)
        /\ issues_at_most 6 (C.make_spotify_request remote e m d))
  /\ (forall r, retry_after_header r = None ->
                S.retry_after_seconds r = Ok 1 /\ C.retry_after_seconds r = Ok 1).
Proof.
  intros ws wc service cleaner Hps Hpc Hlen.
  split; [|split; [|split; [|split; [|split; [|split; [|split]]]]]].
  - intros Hlim w'.
    assert (S.make_request remote endpoint method data params w
            = for_attempts (skipn (List.length ns) [0; 1; 2]) service w') as Hloop.
    { unfold S.make_request. fold (api_call_of endpoint method data params). fold ws.
      apply service_rate_limited_loop; [exact Hps | exact Hlim | exact Hlen]. }
    destruct (after_rate_limits_world cs ns ws) as (Hreq & Hslept & Htok & _).
    fold w' in Hreq, Hslept, Htok.
    split; [exact Hloop|]. split; [|split; [|split]].
    + intros H3. rewrite Hloop, H3. reflexivity.
    + intros r v Hlt Hr Hs Hj Hb. rewrite Hloop.
      destruct (skipn (List.length ns) [0; 1; 2]) as [|a rest] eqn:Hsk.
      { apply (f_equal (@List.length Z)) in Hsk. rewrite length_skipn in Hsk.
        change (List.length [0; 1; 2]) with 3%nat in Hsk.
        change (List.length (@nil Z)) with 0%nat in Hsk. lia. }
      apply for_attempts_return. apply service_attempt_ok with (r := r); auto.
      rewrite Htok. exact Hps.
    + exact Hreq.
    + exact Hslept.
  - intros Hlim w'.
    assert (C.make_spotify_request remote endpoint method data w
            = for_attempts (skipn (List.length ns) [0; 1; 2]) cleaner w') as Hloop.
    { unfold C.make_spotify_request. fold (api_call_of endpoint method data VNone).
      fold wc.
      apply cleaner_rate_limited_loop; [exact Hpc | exact Hlim | exact Hlen]. }
    destruct (after_rate_limits_world cc ns wc) as (Hreq & Hslept & Htok & _).
    fold w' in Hreq, Hslept, Htok.
    split; [exact Hloop|]. split; [|split; [|split]].
    + intros H3. rewrite Hloop, H3. reflexivity.
    + intros r v Hlt Hr Hs Hj Hb. rewrite Hloop.
      destruct (skipn (List.length ns) [0; 1; 2]) as [|a rest] eqn:Hsk.
      { apply (f_equal (@List.length Z)) in Hsk. rewrite length_skipn in Hsk.
        change (List.length [0; 1; 2]) with 3%nat in Hsk.
        change (List.length (@nil Z)) with 0%nat in Hsk. lia. }
      apply for_attempts_return. apply cleaner_attempt_ok with (r := r); auto.
      rewrite Htok. exact Hpc.
    + exact Hreq.
    + exact Hslept.
  - intros a rest w0 c r n Hp Hr Hs Hn Hpos.
    apply for_attempts_next.
    apply service_attempt_rate_limited with (r := r); assumption.
  - intros a rest w0 c r n Hp Hr Hs Hn Hpos.
    apply for_attempts_next.
    apply cleaner_attempt_rate_limited with (r := r); assumption.
  - unfold S.make_request. fold (api_call_of endpoint method data params). fold ws.
    destruct (service_attempts_same_call remote endpoint method data params cs
                [0; 1; 2] ws Hps) as (k & Hk & E).
    exists k. split; [exact Hk | exact E].
  - intros e m d p w0. unfold S.make_request.
    pose proof (issues_for_attempts 1 _ [0; 1; 2]
                  (service_attempt_issues remote e m d p)
                  (with_call (api_call_of e m d p) w0)) as H.
    simpl in H. exact H.
  - intros e m d.
    destruct (cleaner_make_request_sends remote e m d) as [Hapi Htoken].
    split; [exact Hapi|]. split; [exact Htoken|].
    intros w0. unfold C.make_spotify_request.
    pose proof (issues_for_attempts 2 _ [0; 1; 2]
                  (cleaner_attempt_issues remote e m d)
                  (with_call (api_call_of e m d VNone) w0)) as H.
    simpl in H. exact H.
  - intros r Hnone. unfold S.retry_after_seconds, C.retry_after_seconds.
    rewrite Hnone. split; reflexivity.
Qed.

(** ** Batched removal *)

Lemma range_from_cover (track_ids : list value) (fuel i : nat) :
  (List.length track_ids - i <= fuel)%nat ->
  List.concat (map (fun j => S.slice track_ids j (j + S.batch_size))
              (S.range_from fuel i (List.length track_ids) S.batch_size))
  = skipn i track_ids.
Proof.
  revert i. induction fuel as [|fuel IH]; intros i Hfuel; simpl.
  - symmetry. apply skipn_all2. lia.
  - destruct (Nat.ltb_spec i (List.length track_ids)) as [Hlt|Hge].
    + simpl. rewrite IH by (unfold S.batch_size; lia).
      unfold S.slice. replace (i + S.batch_size - i)%nat with S.batch_size by lia.
      rewrite Nat.add_comm, <- skipn_skipn. apply firstn_skipn.
    + symmetry. apply skipn_all2. lia.
Qed.

Lemma range_from_length (n fuel i : nat) :
  (n - i <= fuel)%nat ->
  List.length (S.range_from fuel i n S.batch_size) = ((n - i + 49) / 50)%nat.
Proof.
  revert i. induction fuel as [|fuel IH]; intros i Hfuel; cbn [S.range_from].
  - replace (n - i)%nat with 0%nat by lia. reflexivity.
  - destruct (Nat.ltb_spec i n) as [Hlt|Hge].
    + cbn [List.length]. rewrite IH by (unfold S.batch_size; lia). unfold S.batch_size.
      pose proof (Nat.div_mod_eq (n - (i + 50) + 49) 50).
      pose proof (Nat.div_mod_eq (n - i + 49) 50).
      pose proof (Nat.mod_upper_bound (n - (i + 50) + 49) 50).
      pose proof (Nat.mod_upper_bound (n - i + 49) 50).
      lia.
    + replace (n - i)%nat with 0%nat by lia. reflexivity.
Qed.

Lemma range_from_below (n fuel i : nat) :
  Forall (fun j => (j < n)%nat) (S.range_from fuel i n S.batch_size).
Proof.
  revert i. induction fuel as [|fuel IH]; intros i; simpl; [constructor|].
  destruct (Nat.ltb_spec i n); constructor; auto.
Qed.

Lemma batches_concat (track_ids : list value) : List.concat (batches track_ids) = track_ids.
Proof.
  unfold batches, S.py_range. rewrite range_from_cover by lia. reflexivity.
Qed.

Lemma batches_length (track_ids : list value) :
  List.length (batches track_ids) = ((List.length track_ids + 49) / 50)%nat.
Proof.
  unfold batches, S.py_range. rewrite length_map, range_from_length by lia.
  rewrite Nat.sub_0_r. reflexivity.
Qed.

Lemma batches_bounded (track_ids : list value) :
  Forall (fun b => (1 <= List.length b <= 50)%nat) (batches track_ids).
Proof.
  unfold batches, S.py_range. apply Forall_map.
  eapply Forall_impl; [|apply range_from_below].
  intros j Hj. cbv beta in *. unfold S.slice, S.batch_size.
  rewrite length_firstn, length_skipn. lia.
Qed.

Section Removal.

Variable remote : world -> http_call -> http_outcome.

Let delete (batch : list value) : M value :=
  S.make_request remote "/me/tracks" "DELETE" (VDict [("ids", VList batch)]) VNone.

(** The invocations of the removal loop are those of a prefix of the
    planned batches, all of them when the loop returns [True]. *)
Lemma remove_batches_calls (track_ids : list value) (starts : list nat) (w : world) :
  let run := S.remove_batches remote track_ids starts w in
  exists k,
    (k <= List.length starts)%nat
    /\ w_calls (snd run)
       = (w_calls w
          ++ map (fun i => delete_call (S.slice track_ids i (i + S.batch_size)))
                 (firstn k starts))%list
    /\ (fst run = Returns true -> k = List.length starts).
Proof.
  revert w. induction starts as [|i rest IH]; intros w; simpl.
  - exists 0%nat. simpl. rewrite app_nil_r. auto.
  - unfold bind.
    pose proof (service_make_request_calls remote "/me/tracks" "DELETE"
                  (VDict [("ids", VList (S.slice track_ids i (i + S.batch_size)))])
                  VNone w) as Hcalls.
    destruct (S.make_request remote _ _ _ _ w) as [[v|e|] w1] eqn:Hreq;
      simpl in Hcalls.
    2,3: exists 1%nat; simpl; split; [lia|]; split; [exact Hcalls | discriminate].
    assert (forall (o : out bool),
               o <> Returns true ->
               exists k, (k <= S (List.length rest))%nat
                 /\ w_calls w1
                    = (w_calls w
                       ++ map (fun i => delete_call (S.slice track_ids i (i + S.batch_size)))
                              (firstn k (i :: rest)))%list
                 /\ (o = Returns true -> k = S (List.length rest))) as Hstop.
    { intros o Ho. exists 1%nat. simpl. split; [lia|]. split; [exact Hcalls|].
      intros E. contradiction. }
    destruct (truthy v); simpl; [|apply Hstop; discriminate].
    unfold lift. destruct (dict_get v "success" VNone) as [x|e]; simpl;
      [|apply Hstop; discriminate].
    destruct (truthy x); simpl; [|apply Hstop; discriminate].
    destruct (IH w1) as (k & Hk & Hc & Ht). exists (S k). simpl.
    split; [lia|]. split.
    + rewrite Hc, Hcalls, <- app_assoc. reflexivity.
    + intros E. f_equal. auto.
Qed.

(** Fail-fast: when the batches before [i] succeed and the batch at [i] is
    rejected, the loop returns [False] in the world the rejected call left,
    whatever batches were planned after it. *)
Lemma remove_batches_fail_fast (track_ids : list value)
    (before : list nat) (i : nat) (after : list nat) (w : world) :
  let done := S.remove_batches remote track_ids before w in
  let failing := delete (S.slice track_ids i (i + S.batch_size)) (snd done) in
  fst done = Returns true ->
  rejected (fst failing) ->
  S.remove_batches remote track_ids (before ++ i :: after) w
  = (Returns false, snd failing).
Proof.
  revert w. induction before as [|j rest IH]; intros w; simpl.
  - intros _ (v & Hv & Hrej). unfold bind. fold (delete (S.slice track_ids i (i + S.batch_size))).
    destruct (delete _ w) as [o w1]. simpl in *. subst o.
    destruct Hrej as [Hf | (x & Hx & Hf)].
    + rewrite Hf. reflexivity.
    + destruct (truthy v); [|reflexivity]. simpl. unfold lift. rewrite Hx, Hf. reflexivity.
  - unfold bind. fold (delete (S.slice track_ids j (j + S.batch_size))).
    destruct (delete _ w) as [[v|e|] w1]; simpl; try discriminate.
    destruct (truthy v); simpl; [|discriminate].
    unfold lift. destruct (dict_get v "success" VNone) as [x|e]; simpl; [|discriminate].
    destruct (truthy x); simpl; [|discriminate].
    apply IH.
Qed.

Lemma adds_only_refl (v : verb) (w : world) : adds_only v w w.
Proof. exists []. rewrite app_nil_r. auto. Qed.

Lemma adds_only_same (v : verb) (w w' : world) :
  w_requests w' = w_requests w -> adds_only v w w'.
Proof. intros E. exists []. rewrite app_nil_r. auto. Qed.

Lemma adds_only_trans (v : verb) (w1 w2 w3 : world) :
  adds_only v w1 w2 -> adds_only v w2 w3 -> adds_only v w1 w3.
Proof.
  intros (n1 & E1 & F1) (n2 & E2 & F2). exists (n1 ++ n2)%list.
  rewrite E2, E1, app_assoc. split; [reflexivity|]. apply Forall_app. auto.
Qed.

Lemma adds_only_request (c : http_call) (w : world) :
  adds_only (c_verb c) w (with_request c w).
Proof. exists [c]. simpl. auto. Qed.

Lemma service_prepare_verb (token : value) (endpoint method : string)
    (data params : value) (c : http_call) :
  S.prepare token endpoint method data params = Ok c ->
  c_verb c = if String.eqb method "GET" then HGET
             else if String.eqb method "DELETE" then HDELETE
             else if String.eqb method "PUT" then HPUT
             else HPOST.
Proof.
  unfold S.prepare, rbind.
  repeat match goal with
         | |- context [if ?b then _ else _] => destruct b
         | |- context [match ?x with Ok _ => _ | Raise _ => _ end] => destruct x
         end; intros H; inversion H; reflexivity.
Qed.

Lemma service_make_request_verb (endpoint method : string) (data params : value) :
  respects (adds_only (if String.eqb method "GET" then HGET
                       else if String.eqb method "DELETE" then HDELETE
                       else if String.eqb method "PUT" then HPUT
                       else HPOST))
           (S.make_request remote endpoint method data params).
Proof.
  apply service_make_request_respects.
  - apply adds_only_refl.
  - apply adds_only_trans.
  - intros ms w. apply adds_only_same. reflexivity.
  - intros token c w Hp. rewrite <- (service_prepare_verb _ _ _ _ _ _ Hp).
    apply adds_only_request.
  - intros w. apply adds_only_same. reflexivity.
Qed.

Lemma remove_batches_only_deletes (track_ids : list value) (starts : list nat) :
  respects (adds_only HDELETE) (S.remove_batches remote track_ids starts).
Proof.
  induction starts as [|i rest IH]; simpl.
  - intros w. apply adds_only_refl.
  - apply (respects_bind _ (adds_only_trans HDELETE)).
    + apply (service_make_request_verb "/me/tracks" "DELETE").
    + intros v. destruct (truthy v); simpl; [|intros w; apply adds_only_refl].
      apply (respects_bind _ (adds_only_trans HDELETE)).
      * apply respects_lift. apply adds_only_refl.
      * intros x. destruct (truthy x); simpl; [exact IH|].
        intros w. apply adds_only_refl.
Qed.

End Removal.

Lemma cleaner_remove_track_calls (remote : world -> http_call -> http_outcome)
    (track_id : value) (w : world) :
  w_calls (snd (C.remove_track_from_liked remote track_id w))
  = (w_calls w ++ [delete_call [track_id]])%list.
Proof.
  unfold C.remove_track_from_liked, bind.
  pose proof (cleaner_make_request_calls remote "/me/tracks" "DELETE"
                (VDict [("ids", VList [track_id])]) w) as H.
  destruct (C.make_spotify_request remote _ _ _ w) as [[v|e|] w1]; simpl in *; auto.
  destruct v; simpl; auto. unfold lift.
  destruct (lookup "success" d); auto.
Qed.

Lemma cleaner_remove_songs_calls (remote : world -> http_call -> http_outcome)
    (songs : list C.song) (counts counts' : Z * Z) (w w' : world) :
  C.remove_songs remote songs counts w = (Returns counts', w') ->
  w_calls w' = (w_calls w ++ map (fun s => delete_call [C.s_id s]) songs)%list
  /\ fst counts' + snd counts' = fst counts + snd counts + Z.of_nat (List.length songs).
Proof.
  revert counts w. induction songs as [|s rest IH]; intros counts w; simpl.
  - unfold ret. intros H. inversion H. subst. rewrite app_nil_r. split; [auto | lia].
  - intros H. apply bind_inv in H. destruct H as (removed & w1 & Hrm & H).
    apply bind_inv in H. destruct H as ([] & w2 & Hsl & H).
    pose proof (cleaner_remove_track_calls remote (C.s_id s) w) as Hc.
    rewrite Hrm in Hc. simpl in Hc.
    unfold sleep in Hsl. simpl in Hsl. inversion Hsl. subst w2.
    apply IH in H. destruct H as (Hcalls & Hsum). split.
    + rewrite Hcalls. simpl. rewrite Hc, <- app_assoc. reflexivity.
    + rewrite Hsum. destruct (truthy removed); simpl; lia.
Qed.

(** C6. The web service plans the batches [track_ids[i:i + 50]]: there
    are ceil(N/50) of them, each of 1 to 50 ids, and in order they make up
    the list. It invokes the request method once per batch, in order, for
    a prefix of the plan, and for all ceil(N/50) batches when the removal
    returns [True]. The command-line tool does not batch: a removal loop
    that ends has invoked the request method once per song, with that one
    id. *)
Theorem removal_batches_of_at_most_fifty
    (remote : world -> http_call -> http_outcome) (track_ids : list value) (w : world) :
  let n := List.length track_ids in
  List.length (batches track_ids) = ((n + 49) / 50)%nat
  /\ List.concat (batches track_ids) = track_ids
  /\ Forall (fun b => (1 <= List.length b <= 50)%nat) (batches track_ids)
  /\ (let run := S.remove_tracks_from_liked remote track_ids w in
      exists k,
        (k <= (n + 49) / 50)%nat
        /\ w_calls (snd run)
           = (w_calls w ++ map delete_call (firstn k (batches track_ids)))%list
        /\ (fst run = Returns true -> k = ((n + 49) / 50)%nat))
  /\ (forall songs counts counts' w',
        C.remove_songs remote songs counts w = (Returns counts', w') ->
        w_calls w' = (w_calls w ++ map (fun s => delete_call [C.s_id s]) songs)%list).
Proof.
  intros n. split; [apply batches_length|].
  split; [apply batches_concat|].
  split; [apply batches_bounded|]. split.
  - unfold S.remove_tracks_from_liked.
    destruct (remove_batches_calls remote track_ids
                (S.py_range (List.length track_ids) S.batch_size) w)
      as (k & Hk & Hc & Ht).
    pose proof (batches_length track_ids) as Hlen.
    unfold batches in Hlen. rewrite length_map in Hlen. fold n in Hlen.
    exists k. rewrite <- Hlen. split; [exact Hk|]. split; [|exact Ht].
    rewrite Hc. unfold batches. rewrite firstn_map, map_map. reflexivity.
  - intros songs counts counts' w' H.
    apply (cleaner_remove_songs_calls remote songs counts counts' w w' H).
Qed.

(** C2. Fail-fast removal without a count: when the batches before the
    one starting at [i] are removed and that batch is rejected,
    [remove_tracks_from_liked] returns [False] in the world the rejected
    call left. The request method was invoked for the batches up to and
    including the rejected one and for none after it, and every HTTP call
    of the removal is a DELETE, so nothing removed is added back. The
    outcome is the Boolean alone. *)
Theorem removal_stops_at_first_failed_batch
    (remote : world -> http_call -> http_outcome) (track_ids : list value)
    (before : list nat) (i : nat) (after : list nat) (w : world) :
  let done := S.remove_batches remote track_ids before w in
  let failing :=
    S.make_request remote "/me/tracks" "DELETE"
      (VDict [("ids", VList (S.slice track_ids i (i + S.batch_size)))]) VNone
      (snd done) in
  let run := S.remove_tracks_from_liked remote track_ids w in
  S.py_range (List.length track_ids) S.batch_size = (before ++ i :: after)%list ->
  fst done = Returns true ->
  rejected (fst failing) ->
  run = (Returns false, snd failing)
  /\ w_calls (snd run)
     = (w_calls w
        ++ map delete_call (firstn (S (List.length before)) (batches track_ids)))%list
  /\ adds_only HDELETE w (snd run).
Proof.
  intros done failing run Hrange Hdone Hrej.
  assert (run = (Returns false, snd failing)) as Hrun.
  { unfold run, S.remove_tracks_from_liked. rewrite Hrange.
    apply remove_batches_fail_fast; assumption. }
  split; [exact Hrun|]. split.
  - rewrite Hrun. cbn [snd]. unfold failing.
    rewrite service_make_request_calls.
    destruct (remove_batches_calls remote track_ids before w) as (k & Hk & Hc & Ht).
    fold done in Hc, Ht. specialize (Ht Hdone). subst k.
    rewrite Hc, firstn_all, <- app_assoc. f_equal.
    unfold batches. rewrite Hrange, firstn_map.
    replace (S (List.length before)) with (List.length (before ++ [i])%list)
      by (rewrite length_app; simpl; lia).
    replace (before ++ i :: after)%list with ((before ++ [i]) ++ after)%list
      by (rewrite <- app_assoc; reflexivity).
    rewrite firstn_app, firstn_all, Nat.sub_diag. simpl firstn.
    rewrite app_nil_r, !map_app, map_map. reflexivity.
  - apply remove_batches_only_deletes.
Qed.

(** ** The paginated fetch of the liked songs *)

Section Pagination.

Variable remote : world -> http_call -> http_outcome.

Lemma service_page_full (fuel : nat) (songs items : list value) (offset : Z)
    (w w1 : world) (response : value) :
  S.make_request remote "/me/tracks" "GET" VNone
    (VDict [("limit", VInt 50); ("offset", VInt offset)]) w = (Returns response, w1) ->
  full_page response items ->
  S.liked_songs_loop remote (S fuel) 50 songs offset w
  = S.liked_songs_loop remote fuel 50 (songs ++ items)%list (offset + 50) w1.
Proof.
  intros Hreq (d & -> & Hitems & Hlen). simpl S.liked_songs_loop.
  rewrite (bind_returns _ _ _ _ _ Hreq).
  assert (truthy (VDict d) = true) as -> by (destruct d; [discriminate | reflexivity]).
  unfold bind, lift. simpl. rewrite Hitems.
  assert (truthy (VList items) = true) as ->
    by (destruct items; [simpl in Hlen; lia | reflexivity]).
  simpl. destruct (Z.ltb_spec (Z.of_nat (List.length items)) 50); [lia | reflexivity].
Qed.

Lemma service_page_last (fuel : nat) (songs items : list value) (offset : Z)
    (w w1 : world) (response : value) :
  S.make_request remote "/me/tracks" "GET" VNone
    (VDict [("limit", VInt 50); ("offset", VInt offset)]) w = (Returns response, w1) ->
  last_page response items ->
  S.liked_songs_loop remote (S fuel) 50 songs offset w
  = (Returns (songs ++ items)%list, w1).
Proof.
  intros Hreq Hlast. simpl S.liked_songs_loop.
  rewrite (bind_returns _ _ _ _ _ Hreq).
  destruct Hlast as [(d & -> & Hitems & Hlen) | ([Hfalse | (d & -> & Hitems)] & ->)].
  - assert (truthy (VDict d) = true) as -> by (destruct d; [discriminate | reflexivity]).
    unfold bind, lift. simpl. rewrite Hitems.
    assert (truthy (VList items) = true) as ->
      by (destruct items; [simpl in Hlen; lia | reflexivity]).
    simpl. destruct (Z.ltb_spec (Z.of_nat (List.length items)) 50); [reflexivity | lia].
  - rewrite Hfalse. simpl. rewrite app_nil_r. reflexivity.
  - rewrite app_nil_r. destruct (truthy (VDict d)); [|reflexivity].
    unfold bind, lift. simpl.
    destruct (lookup "items" d) as [x|]; [rewrite Hitems|]; reflexivity.
Qed.

Lemma cleaner_page_full (fuel : nat) (songs items : list value) (offset : Z)
    (w w1 : world) (response : value) :
  C.make_spotify_request remote
    ("/me/tracks?limit=" ++ C.decimal 50 ++ "&offset=" ++ C.decimal offset)
    "GET" VNone w = (Returns response, w1) ->
  full_page response items ->
  C.liked_songs_loop remote (S fuel) 50 songs offset w
  = C.liked_songs_loop remote fuel 50 (songs ++ items)%list (offset + 50)
      (with_sleep 100 w1).
Proof.
  intros Hreq (d & -> & Hitems & Hlen). cbn [C.liked_songs_loop].
  rewrite (bind_returns _ _ _ _ _ Hreq).
  assert (truthy (VDict d) = true) as -> by (destruct d; [discriminate | reflexivity]).
  unfold bind, lift. cbn [negb dict_get]. rewrite Hitems.
  assert (truthy (VList items) = true) as ->
    by (destruct items; [simpl in Hlen; lia | reflexivity]).
  cbn [negb iterate py_len].
  destruct (Z.ltb_spec (Z.of_nat (List.length items)) 50); [lia | reflexivity].
Qed.

Lemma cleaner_page_last (fuel : nat) (songs items : list value) (offset : Z)
    (w w1 : world) (response : value) :
  C.make_spotify_request remote
    ("/me/tracks?limit=" ++ C.decimal 50 ++ "&offset=" ++ C.decimal offset)
    "GET" VNone w = (Returns response, w1) ->
  last_page response items ->
  C.liked_songs_loop remote (S fuel) 50 songs offset w
  = (Returns (songs ++ items)%list, w1).
Proof.
  intros Hreq Hlast. cbn [C.liked_songs_loop].
  rewrite (bind_returns _ _ _ _ _ Hreq).
  destruct Hlast as [(d & -> & Hitems & Hlen) | ([Hfalse | (d & -> & Hitems)] & ->)].
  - assert (truthy (VDict d) = true) as -> by (destruct d; [discriminate | reflexivity]).
    unfold bind, lift. cbn [negb dict_get]. rewrite Hitems.
    assert (truthy (VList items) = true) as ->
      by (destruct items; [simpl in Hlen; lia | reflexivity]).
    cbn [negb iterate py_len].
    destruct (Z.ltb_spec (Z.of_nat (List.length items)) 50); [reflexivity | lia].
  - rewrite Hfalse. cbn [negb]. rewrite app_nil_r. reflexivity.
  - rewrite app_nil_r. destruct (truthy (VDict d)); [|reflexivity].
    unfold bind, lift. cbn [negb dict_get].
    destruct (lookup "items" d) as [x|]; [rewrite Hitems|]; reflexivity.
Qed.

End Pagination.

Section PaginationRuns.

Variable remote : world -> http_call -> http_outcome.

(** [page i] is the answer of the request method to the request for the
    page number [i], [items i] the items of a full page. *)
Variable page : nat -> value.
Variable items : nat -> list value.

Lemma service_pagination_from (k : nat) :
  forall (j fuel : nat) (songs last : list value) (w : world),
    (k < fuel)%nat ->
    (forall i w0, (i <= k)%nat ->
       fst (S.make_request remote "/me/tracks" "GET" VNone
              (service_page_params (j + i)) w0) = Returns (page (j + i))) ->
    (forall i, (i < k)%nat -> full_page (page (j + i)) (items (j + i))) ->
    last_page (page (j + k)) last ->
    let run := S.liked_songs_loop remote fuel 50 songs (50 * Z.of_nat j) w in
    fst run = Returns (songs ++ List.concat (map items (seq j k)) ++ last)%list
    /\ w_calls (snd run)
       = (w_calls w
          ++ map (fun i => api_call_of "/me/tracks" "GET" VNone (service_page_params i))
                 (seq j (S k)))%list.
Proof.
  induction k as [|k IH]; intros j fuel songs last w Hfuel Hpage Hfull Hlast;
    (destruct fuel as [|fuel]; [lia|]);
    pose proof (Hpage 0%nat w (Nat.le_0_l _)) as Hreq;
    pose proof (service_make_request_calls remote "/me/tracks" "GET" VNone
                  (service_page_params (j + 0)) w) as Hcalls;
    rewrite Nat.add_0_r in Hreq, Hcalls;
    unfold service_page_params in Hreq, Hcalls at 1;
    destruct (S.make_request remote "/me/tracks" "GET" VNone _ w) as [o w1] eqn:E;
    simpl in Hreq, Hcalls; subst o.
  - rewrite Nat.add_0_r in Hlast.
    rewrite (service_page_last remote fuel songs last _ w w1 _ E Hlast).
    simpl. split; [reflexivity | exact Hcalls].
  - pose proof (Hfull 0%nat (Nat.lt_0_succ _)) as Hf. rewrite Nat.add_0_r in Hf.
    cbv zeta.
    rewrite (service_page_full remote fuel songs (items j) _ w w1 _ E Hf).
    replace (50 * Z.of_nat j + 50) with (50 * Z.of_nat (S j)) by lia.
    destruct (IH (S j) fuel (songs ++ items j)%list last w1) as (Hres & Hc).
    + lia.
    + intros i w0 Hi. replace (S j + i)%nat with (j + S i)%nat by lia.
      apply Hpage. lia.
    + intros i Hi. replace (S j + i)%nat with (j + S i)%nat by lia.
      apply Hfull. lia.
    + replace (S j + k)%nat with (j + S k)%nat by lia. exact Hlast.
    + split.
      * rewrite Hres. simpl. rewrite <- !app_assoc. reflexivity.
      * rewrite Hc, Hcalls, <- app_assoc. reflexivity.
Qed.

Lemma cleaner_pagination_from (k : nat) :
  forall (j fuel : nat) (songs last : list value) (w : world),
    (k < fuel)%nat ->
    (forall i w0, (i <= k)%nat ->
       fst (C.make_spotify_request remote (cleaner_page_endpoint (j + i)) "GET"
              VNone w0) = Returns (page (j + i))) ->
    (forall i, (i < k)%nat -> full_page (page (j + i)) (items (j + i))) ->
    last_page (page (j + k)) last ->
    let run := C.liked_songs_loop remote fuel 50 songs (50 * Z.of_nat j) w in
    fst run = Returns (songs ++ List.concat (map items (seq j k)) ++ last)%list
    /\ w_calls (snd run)
       = (w_calls w
          ++ map (fun i => api_call_of (cleaner_page_endpoint i) "GET" VNone VNone)
                 (seq j (S k)))%list.
Proof.
  induction k as [|k IH]; intros j fuel songs last w Hfuel Hpage Hfull Hlast;
    (destruct fuel as [|fuel]; [lia|]);
    pose proof (Hpage 0%nat w (Nat.le_0_l _)) as Hreq;
    pose proof (cleaner_make_request_calls remote (cleaner_page_endpoint (j + 0))
                  "GET" VNone w) as Hcalls;
    rewrite Nat.add_0_r in Hreq, Hcalls;
    unfold cleaner_page_endpoint in Hreq, Hcalls at 1;
    destruct (C.make_spotify_request remote _ "GET" VNone w) as [o w1] eqn:E;
    simpl fst in Hreq; simpl snd in Hcalls; subst o.
  - rewrite Nat.add_0_r in Hlast.
    rewrite (cleaner_page_last remote fuel songs last _ w w1 _ E Hlast).
    simpl. split; [reflexivity | exact Hcalls].
  - pose proof (Hfull 0%nat (Nat.lt_0_succ _)) as Hf. rewrite Nat.add_0_r in Hf.
    cbv zeta.
    rewrite (cleaner_page_full remote fuel songs (items j) _ w w1 _ E Hf).
    replace (50 * Z.of_nat j + 50) with (50 * Z.of_nat (S j)) by lia.
    destruct (IH (S j) fuel (songs ++ items j)%list last (with_sleep 100 w1))
      as (Hres & Hc).
    + lia.
    + intros i w0 Hi. replace (S j + i)%nat with (j + S i)%nat by lia.
      apply Hpage. lia.
    + intros i Hi. replace (S j + i)%nat with (j + S i)%nat by lia.
      apply Hfull. lia.
    + replace (S j + k)%nat with (j + S k)%nat by lia. exact Hlast.
    + split.
      * rewrite Hres. simpl. rewrite <- !app_assoc. reflexivity.
      * rewrite Hc. simpl w_calls. rewrite Hcalls, <- app_assoc. reflexivity.
Qed.

End PaginationRuns.

(** C7. The fetch of the liked songs asks for the pages 0, 1, 2, ... with
    limit 50 and offsets 0, 50, 100, ..., and appends the items of every
    page of at least 50 items. It ends at the first page that is not
    such a page, a shorter page, whose items are appended, or no page at
    all, and returns what it has accumulated. A failed page request is
    no page: the request method has returned [None] for it, the fetch
    returns the items of the pages before it and raises nothing. With
    [k] full pages before the last one and more than [k] units of fuel,
    the fetch returns and has invoked the request method [k + 1] times. *)
Theorem liked_songs_pagination
    (remote : world -> http_call -> http_outcome)
    (page : nat -> value) (items : nat -> list value)
    (k fuel : nat) (last : list value) (w : world) :
  (k < fuel)%nat ->
  (forall i w0, (i <= k)%nat ->
     fst (S.make_request remote "/me/tracks" "GET" VNone (service_page_params i) w0)
     = Returns (page i)) ->
  (forall i w0, (i <= k)%nat ->
     fst (C.make_spotify_request remote (cleaner_page_endpoint i) "GET" VNone w0)
     = Returns (page i)) ->
  (forall i, (i < k)%nat -> full_page (page i) (items i)) ->
  last_page (page k) last ->
  (let run := S.get_liked_songs remote fuel 50 w in
   fst run = Returns (List.concat (map items (seq 0 k)) ++ last)%list
   /\ w_calls (snd run)
      = (w_calls w
         ++ map (fun i => api_call_of "/me/tracks" "GET" VNone (service_page_params i))
                (seq 0 (S k)))%list)
  /\ (let run := C.get_liked_songs remote fuel w in
      fst run = Returns (List.concat (map items (seq 0 k)) ++ last)%list
      /\ w_calls (snd run)
         = (w_calls w
            ++ map (fun i => api_call_of (cleaner_page_endpoint i) "GET" VNone VNone)
                   (seq 0 (S k)))%list).
Proof.
  intros Hfuel Hs Hc Hfull Hlast. split.
  - apply (service_pagination_from remote page items k 0 fuel [] last w); auto.
  - apply (cleaner_pagination_from remote page items k 0 fuel [] last w); auto.
Qed.

(** ** The preview *)

Lemma reads_only_refl (w : world) : reads_only w w.
Proof.
  split; [apply adds_only_refl|]. exists []. rewrite app_nil_r. auto.
Qed.

Lemma reads_only_trans (w1 w2 w3 : world) :
  reads_only w1 w2 -> reads_only w2 w3 -> reads_only w1 w3.
Proof.
  intros (A1 & c1 & E1 & F1) (A2 & c2 & E2 & F2). split.
  - eapply adds_only_trans; eauto.
  - exists (c1 ++ c2)%list. rewrite E2, E1, app_assoc. split; [reflexivity|].
    apply Forall_app. auto.
Qed.

Lemma reads_only_sleep (ms : Z) (w : world) : reads_only w (with_sleep ms w).
Proof.
  split; [apply adds_only_same; reflexivity|].
  exists []. simpl. rewrite app_nil_r. auto.
Qed.

Section Preview.

Variable remote : world -> http_call -> http_outcome.
Variable fromisoformat : string -> option Z.

Lemma reads_bind {A B} (m : M A) (f : A -> M B) :
  respects reads_only m -> (forall a, respects reads_only (f a)) ->
  respects reads_only (bind m f).
Proof. apply respects_bind. exact reads_only_trans. Qed.

Lemma reads_lift {A} (r : res A) : respects reads_only (lift r).
Proof. apply respects_lift. exact reads_only_refl. Qed.

Lemma reads_ret {A} (a : A) : respects reads_only (ret a).
Proof. apply respects_ret. exact reads_only_refl. Qed.

Lemma service_get_reads (endpoint : string) (data params : value) :
  respects reads_only (S.make_request remote endpoint "GET" data params).
Proof.
  apply service_make_request_respects.
  - exact reads_only_refl.
  - exact reads_only_trans.
  - exact reads_only_sleep.
  - intros token c w Hp. apply service_prepare_verb in Hp. simpl in Hp.
    split.
    + rewrite <- Hp. apply adds_only_request.
    + exists []. simpl. rewrite app_nil_r. auto.
  - intros w. split; [apply adds_only_same; reflexivity|].
    exists [api_call_of endpoint "GET" data params]. simpl. auto.
Qed.

Lemma liked_songs_loop_reads (fuel : nat) :
  forall limit songs offset,
    respects reads_only (S.liked_songs_loop remote fuel limit songs offset).
Proof.
  induction fuel as [|fuel IH]; intros limit songs offset; simpl.
  - intros w. apply reads_only_refl.
  - apply reads_bind; [apply service_get_reads|]. intros response.
    destruct (truthy response); simpl; [|apply reads_ret].
    apply reads_bind; [apply reads_lift|]. intros items.
    destruct (truthy items); simpl; [|apply reads_ret].
    apply reads_bind; [apply reads_lift|]. intros page.
    apply reads_bind; [apply reads_lift|]. intros new.
    apply reads_bind; [apply reads_lift|]. intros n.
    destruct (n <? limit); [apply reads_ret | apply IH].
Qed.

Lemma items_or_empty_reads (response : value) :
  respects reads_only (S.items_or_empty response).
Proof.
  unfold S.items_or_empty. destruct (truthy response); [apply reads_lift | apply reads_ret].
Qed.



End Preview.


(** ** The reported counts *)



(** ** Classification in a run *)

Section ClassifiedRuns.

Variable remote : world -> http_call -> http_outcome.
Variable fromisoformat : string -> option Z.

Lemma cleanup_run_classified (fuel : nat) (timeframe_months now : Z) (w w' : world)
    (r : S.cleanup_result) :
  S.analyze_and_cleanup remote fromisoformat fuel timeframe_months now w
  = (Returns r, w') ->
  exists liked w1,
    S.get_liked_songs remote fuel 50 w = (Returns liked, w1)
    /\ (liked = [] -> r = empty_result /\ w' = w1)
    /\ (liked <> [] ->
        exists recently_played short_term_top medium_term_top w2 w3 w4 active plan k,
          S.get_recently_played remote 50 w1 = (Returns recently_played, w2)
          /\ S.get_top_tracks remote "short_term" 50 w2 = (Returns short_term_top, w3)
          /\ S.get_top_tracks remote "medium_term" 50 w3
             = (Returns medium_term_top, w4)
          /\ S.collect_active recently_played short_term_top medium_term_top
             = Ok active
          /\ classified
               (rule_candidate fromisoformat active (S.cutoff_date now timeframe_months))
               (kept_by_rule fromisoformat active (S.cutoff_date now timeframe_months))
               liked plan
          /\ w_calls w'
             = (w_calls w4
                ++ map delete_call (firstn k (batches (map S.r_id plan))))%list
          /\ (S.removed_tracks r = plan \/ S.removed_tracks r = [])
          /\ (0 < S.songs_removed r ->
              S.removed_tracks r = plan
              /\ k = List.length (batches (map S.r_id plan)))).
Proof.
  intros E. unfold S.analyze_and_cleanup in E.
  apply bind_inv in E. destruct E as (liked & w1 & Hliked & E).
  exists liked, w1. split; [exact Hliked|].
  destruct liked as [|item liked].
  { unfold ret in E. injection E as Er Ew. subst. split.
    - intros _. split; reflexivity.
    - intros H. congruence. }
  split; [intros H; discriminate|]. intros _.
  apply bind_inv in E. destruct E as (recent & w2 & Hrecent & E).
  apply bind_inv in E. destruct E as (short & w3 & Hshort & E).
  apply bind_inv in E. destruct E as (medium & w4 & Hmedium & E).
  apply bind_inv in E. destruct E as (active & w5 & Hactive & E).
  apply lift_inv in Hactive. destruct Hactive as (Hactive & ->).
  apply bind_inv in E. destruct E as (plan & w6 & Hplan & E).
  apply lift_inv in Hplan. destruct Hplan as (Hplan & ->).
  apply bind_inv in E. destruct E as (removed_count & w7 & Hcount & E).
  apply bind_inv in E. destruct E as (n1 & w8 & H8 & E).
  apply lift_inv in H8. destruct H8 as (_ & ->).
  apply bind_inv in E. destruct E as (n2 & w9 & H9 & E).
  apply lift_inv in H9. destruct H9 as (_ & ->).
  apply bind_inv in E. destruct E as (n3 & w10 & H10 & E).
  apply lift_inv in H10. destruct H10 as (_ & ->).
  unfold ret in E. injection E as Er Ew. subst r w'.
  cbn [S.songs_removed S.removed_tracks].
  apply removal_plan_classified in Hplan.
  destruct plan as [|p plan].
  - unfold ret in Hcount. injection Hcount as Hc Hw. subst removed_count w7.
    exists recent, short, medium, w2, w3, w4, active, [], 0%nat.
    split; [exact Hrecent|]. split; [exact Hshort|]. split; [exact Hmedium|].
    split; [exact Hactive|]. split; [exact Hplan|].
    split; [simpl; rewrite app_nil_r; reflexivity|].
    split; [left; reflexivity|]. intros Hpos. lia.
  - apply bind_inv in Hcount. destruct Hcount as (ok & w7' & Hremove & Hcount).
    unfold ret in Hcount. injection Hcount as Hc Hw. subst w7'.
    unfold S.remove_tracks_from_liked in Hremove.
    destruct (remove_batches_calls remote (map S.r_id (p :: plan))
                (S.py_range (List.length (map S.r_id (p :: plan))) S.batch_size) w4)
      as (k & Hk & Hcalls & Ht).
    rewrite Hremove in Hcalls, Ht. simpl fst in Ht. simpl snd in Hcalls.
    exists recent, short, medium, w2, w3, w4, active, (p :: plan), k.
    split; [exact Hrecent|]. split; [exact Hshort|]. split; [exact Hmedium|].
    split; [exact Hactive|]. split; [exact Hplan|].
    split.
    { rewrite Hcalls. unfold batches. rewrite firstn_map, map_map. reflexivity. }
    destruct ok; subst removed_count.
    + assert (firstn (Z.to_nat (S.py_list_len (p :: plan))) (p :: plan) = p :: plan)
        as Hall by (unfold S.py_list_len; rewrite Nat2Z.id; apply firstn_all).
      rewrite Hall. split; [left; reflexivity|]. intros _.
      split; [reflexivity|].
      rewrite (Ht eq_refl). unfold batches. rewrite !length_map. reflexivity.
    + split; [right; reflexivity|]. intros Hpos. lia.
Qed.

Lemma cleaner_run_classified (fuel : nat) (six_months_ago : Z) (answer : string)
    (w w' : world) (counts : Z * Z) :
  C.clean_liked_songs remote fromisoformat fuel six_months_ago answer w
  = (Returns (Some counts), w') ->
  exists user w0 liked w1 ids w2 songs,
    C.get_user_profile remote w = (Returns user, w0)
    /\ C.get_liked_songs remote fuel w0 = (Returns liked, w1)
    /\ C.analyze_listening_activity remote w1 = (Returns ids, w2)
    /\ classified (inactive_and_old_or_unparsable fromisoformat ids six_months_ago)
         (cleaner_kept fromisoformat ids six_months_ago) liked songs
    /\ C.confirms answer = true
    /\ C.remove_songs remote songs (0, 0) w2 = (Returns counts, w')
    /\ w_calls w'
       = (w_calls w2 ++ map (fun s => delete_call [C.s_id s]) songs)%list.
Proof.
  intros E. unfold C.clean_liked_songs in E.
  apply bind_inv in E. destruct E as (user & w0 & Huser & E).
  destruct (truthy user); simpl in E; [|unfold ret in E; discriminate].
  apply bind_inv in E. destruct E as (name & w0' & Hname & E).
  apply lift_inv in Hname. destruct Hname as (_ & ->).
  apply bind_inv in E. destruct E as (liked & w1 & Hliked & E).
  destruct liked as [|item liked]; [unfold ret in E; discriminate|].
  apply bind_inv in E. destruct E as (ids & w2 & Hids & E).
  apply bind_inv in E. destruct E as (songs & w3 & Hsongs & E).
  apply lift_inv in Hsongs. destruct Hsongs as (Hsongs & ->).
  apply cleaner_plan_classified in Hsongs. destruct Hsongs as (sel & -> & Hsel).
  cbn [app] in E. destruct sel as [|s sel]; [unfold ret in E; discriminate|].
  destruct (C.confirms answer) eqn:Hconfirm; cbn [negb] in E;
    [|unfold ret in E; discriminate].
  apply bind_inv in E. destruct E as (counts' & w4 & Hremove & E).
  unfold ret in E. injection E as Ec Ew. subst counts' w4.
  exists user, w0, (item :: liked), w1, ids, w2, (s :: sel).
  repeat split; try assumption.
  apply (cleaner_remove_songs_calls remote _ _ _ _ _ Hremove).
Qed.

End ClassifiedRuns.

(** C1. Classification against the reference rule. For a liked-songs item
    whose track has a hashable id and whose added-at string parses to the
    instant [t], both implementations decide as [reference_rule] says: an
    id in the active set is kept whatever [t] is; otherwise the item goes
    to the removal list when [t] is strictly before the cutoff and is kept
    when [t] is at or after it. The loops over a library of such items
    return exactly the entries of the items the rule removes, in library
    order, and so do the runs: the removed tracks a cleanup reports, and
    the ids it asks the remote to remove, are those of the liked songs
    fetched that the rule removes under the aggregated active set and the
    cutoff of the timeframe, thirty days a month before now; the
    command-line tool asks for the removal of the songs its rule removes,
    one by one. An item with an active id whose added-at string does not
    parse is kept by the command-line tool, which tests the id first, but
    not by the web service: it parses before it tests the id, and the
    [ValueError] leaves the loop. *)
Theorem classification_follows_reference_rule (fromisoformat : string -> option Z) :
  (forall (active : pyset) (cutoff : Z) (item track id : value) (a : atom) (t : Z)
          (artists : string),
     subscript item "track" = Ok track ->
     subscript track "id" = Ok id ->
     hash_key id = Ok a ->
     S.parse_added_at fromisoformat item = Ok t ->
     C.artists_text track = Ok artists ->
     (forall entry,
        S.classify_item fromisoformat entry active cutoff item =
        match reference_rule (set_mem a active) t cutoff with
        | Keep => Ok None
        | Remove => (r <- entry track t ;; Ok (Some r))%res
        end)
     /\ (exists name added_at,
           C.classify_item fromisoformat active cutoff item =
           match reference_rule (set_mem a active) t cutoff with
           | Keep => Ok None
           | Remove => Ok (Some {| C.s_id := id; C.s_name := name;
                                   C.s_artists := artists;
                                   C.s_added_at := added_at |})
           end))
  /\ (forall (active : pyset) (cutoff : Z)
             (entry : value -> Z -> res S.removal_record) (liked : list value)
             (views : list (atom * Z * S.removal_record)),
        Forall2 (describes fromisoformat entry active cutoff) liked views ->
        S.classify_all fromisoformat entry active cutoff liked []
        = Ok (map snd (filter (rule_removes active cutoff) views)))
  /\ (forall (active : pyset) (cutoff : Z) (liked : list value)
             (views : list (atom * Z * C.song)),
        Forall2 (cleaner_describes fromisoformat) liked views ->
        C.classify_all fromisoformat active cutoff liked []
        = Ok (map snd (filter (rule_removes active cutoff) views)))
  /\ (forall (active : pyset) (cutoff : Z) (item track id : value) (a : atom)
             (raw artists : string),
        subscript item "track" = Ok track ->
        subscript item "added_at" = Ok (VStr raw) ->
        fromisoformat (replace_Z raw) = None ->
        subscript track "id" = Ok id ->
        hash_key id = Ok a ->
        set_mem a active = true ->
        C.artists_text track = Ok artists ->
        (forall entry rest acc,
           S.classify_item fromisoformat entry active cutoff item = Raise ValueError
           /\ S.classify_all fromisoformat entry active cutoff (item :: rest) acc
              = Raise ValueError)
        /\ C.classify_item fromisoformat active cutoff item = Ok None
        /\ (forall rest acc,
              C.classify_all fromisoformat active cutoff (item :: rest) acc
              = C.classify_all fromisoformat active cutoff rest acc))
  /\ (forall remote fuel timeframe_months now w w' r,
        S.analyze_and_cleanup remote fromisoformat fuel timeframe_months now w
        = (Returns r, w') ->
        exists liked w1,
          S.get_liked_songs remote fuel 50 w = (Returns liked, w1)
          /\ (liked = [] -> r = empty_result /\ w' = w1)
          /\ (liked <> [] ->
              exists recently_played short_term_top medium_term_top w2 w3 w4
                     active plan k,
                S.get_recently_played remote 50 w1 = (Returns recently_played, w2)
                /\ S.get_top_tracks remote "short_term" 50 w2
                   = (Returns short_term_top, w3)
                /\ S.get_top_tracks remote "medium_term" 50 w3
                   = (Returns medium_term_top, w4)
                /\ S.collect_active recently_played short_term_top medium_term_top
                   = Ok active
                /\ classified
                     (rule_candidate fromisoformat active
                        (S.cutoff_date now timeframe_months))
                     (kept_by_rule fromisoformat active
                        (S.cutoff_date now timeframe_months))
                     liked plan
                /\ w_calls w'
                   = (w_calls w4
                      ++ map delete_call (firstn k (batches (map S.r_id plan))))%list
                /\ (S.removed_tracks r = plan \/ S.removed_tracks r = [])
                /\ (0 < S.songs_removed r ->
                    S.removed_tracks r = plan
                    /\ k = List.length (batches (map S.r_id plan)))))
  /\ (forall remote fuel six_months_ago answer w w' counts,
        C.clean_liked_songs remote fromisoformat fuel six_months_ago answer w
        = (Returns (Some counts), w') ->
        exists user w0 liked w1 ids w2 songs,
          C.get_user_profile remote w = (Returns user, w0)
          /\ C.get_liked_songs remote fuel w0 = (Returns liked, w1)
          /\ C.analyze_listening_activity remote w1 = (Returns ids, w2)
          /\ classified
               (inactive_and_old_or_unparsable fromisoformat ids six_months_ago)
               (cleaner_kept fromisoformat ids six_months_ago) liked songs
          /\ C.confirms answer = true
          /\ C.remove_songs remote songs (0, 0) w2 = (Returns counts, w')
          /\ w_calls w'
             = (w_calls w2 ++ map (fun s => delete_call [C.s_id s]) songs)%list)
  /\ (forall now timeframe_months,
        S.cutoff_date now timeframe_months
        = now - timeframe_months * 30 * (86400 * 1000000)).
Proof.
  split; [|split; [|split; [|split; [|split; [|split]]]]].
  - intros active cutoff item track id a t artists Htrack Hid Hhash Hparse Hart. split.
    + intros entry. unfold S.classify_item, set_contains, reference_rule, rbind.
      rewrite Htrack, Hparse, Hid, Hhash.
      destruct (set_mem a active); [reflexivity|].
      destruct (t <? cutoff); reflexivity.
    + destruct (parse_added_at_inv _ _ _ Hparse) as (raw & Hraw & Hiso).
      assert (exists name, dict_get track "name" (VStr "Unknown") = Ok name)
        as [name Hname].
      { destruct track; simpl in Hid; try discriminate. simpl.
        destruct (lookup "name" d); eauto. }
      exists name, (VStr raw).
      unfold C.classify_item, set_contains, C.older_than, reference_rule, rbind.
      rewrite (subscript_dict_get _ _ _ (VDict []) Htrack).
      rewrite (subscript_dict_get _ _ _ VNone Hid).
      rewrite Hname, Hart.
      rewrite (subscript_dict_get _ _ _ (VStr EmptyString) Hraw).
      rewrite Hhash. simpl. rewrite Hiso.
      destruct (set_mem a active); [reflexivity|].
      destruct (t <? cutoff); reflexivity.
  - intros active cutoff entry liked views H.
    rewrite (classify_all_complete fromisoformat entry active cutoff liked views H []).
    rewrite (filter_ext _ _ (stale_is_rule active cutoff)). reflexivity.
  - intros active cutoff liked views H.
    apply (cleaner_classify_all_complete fromisoformat active cutoff liked views H []).
  - intros active cutoff item track id a raw artists
           Htrack Hraw Hiso Hid Hhash Hmem Hart.
    assert (forall entry,
              S.classify_item fromisoformat entry active cutoff item = Raise ValueError)
      as Hs.
    { intros entry. unfold S.classify_item, S.parse_added_at, rbind.
      rewrite Htrack, Hraw. simpl. rewrite Hiso. reflexivity. }
    assert (C.classify_item fromisoformat active cutoff item = Ok None) as Hc.
    { assert (exists name, dict_get track "name" (VStr "Unknown") = Ok name)
        as [name Hname].
      { destruct track; simpl in Hid; try discriminate. simpl.
        destruct (lookup "name" d); eauto. }
      unfold C.classify_item, set_contains, rbind.
      rewrite (subscript_dict_get _ _ _ (VDict []) Htrack).
      rewrite (subscript_dict_get _ _ _ VNone Hid).
      rewrite Hname, Hart.
      rewrite (subscript_dict_get _ _ _ (VStr EmptyString) Hraw).
      rewrite Hhash, Hmem. reflexivity. }
    split; [|split].
    + intros entry rest acc. split; [apply Hs|].
      cbn [S.classify_all]. unfold rbind at 1. rewrite Hs. reflexivity.
    + exact Hc.
    + intros rest acc. cbn [C.classify_all]. unfold rbind at 1. rewrite Hc.
      reflexivity.
  - intros remote fuel timeframe_months now w w' r. apply cleanup_run_classified.
  - intros remote fuel six_months_ago answer w w' counts.
    apply cleaner_run_classified.
  - intros now timeframe_months. reflexivity.
Qed.

(** ** Worked examples *)

(** The scenario of the specification: song B, inactive and added a year
    ago, goes to the removal list in both implementations, and the plan of
    the library A, B, C is B alone; a song with an active id and the
    added-at string ["not-a-date"] is kept by the command-line tool and
    makes the web service raise. *)
Lemma classification_scenario_B :
  ((forall entry,
      S.classify_item iso_seconds entry [AStr "A"] scenario_cutoff item_B
      = (r <- entry (sample_track "B" sample_album) 1672531200000000 ;;
         Ok (Some r))%res)
   /\ (exists name added_at,
         C.classify_item iso_seconds [AStr "A"] scenario_cutoff item_B
         = Ok (Some {| C.s_id := VStr "B"; C.s_name := name;
                       C.s_artists := "Artist"; C.s_added_at := added_at |})))
  /\ S.classify_all iso_seconds S.removal_entry [AStr "A"] scenario_cutoff
       [item_A; item_B; item_C] []
     = Ok [sample_record "B" 1672531200000000]
  /\ C.classify_all iso_seconds [AStr "A"] scenario_cutoff
       [item_A; item_B; item_C] []
     = Ok [sample_song "B" "2023-01-01T00:00:00Z"]
  /\ (forall entry rest acc,
        S.classify_item iso_seconds entry [AStr "X"] scenario_cutoff item_unparsable
        = Raise ValueError
        /\ S.classify_all iso_seconds entry [AStr "X"] scenario_cutoff
             (item_unparsable :: rest) acc = Raise ValueError)
  /\ C.classify_item iso_seconds [AStr "X"] scenario_cutoff item_unparsable = Ok None.
Proof.
  destruct (classification_follows_reference_rule iso_seconds)
    as (Hitem & Hservice & Hcleaner & Hactive & _).
  split; [|split; [|split]].
  - exact (Hitem [AStr "A"] scenario_cutoff item_B (sample_track "B" sample_album)
             (VStr "B") (AStr "B")
             1672531200000000 "Artist" eq_refl eq_refl eq_refl eq_refl eq_refl).
  - refine (Hservice [AStr "A"] scenario_cutoff S.removal_entry [item_A; item_B; item_C]
              [sample_view "A" 1672531200000000; sample_view "B" 1672531200000000;
               sample_view "C" 1701388800000000] _).
    repeat apply Forall2_cons; try apply Forall2_nil.
    + exists (sample_track "A" sample_album), (VStr "A").
      repeat split; try (vm_compute; reflexivity).
    + exists (sample_track "B" sample_album), (VStr "B").
      repeat split; try (vm_compute; reflexivity).
    + exists (sample_track "C" sample_album), (VStr "C").
      repeat split; try (vm_compute; reflexivity).
  - refine (Hcleaner [AStr "A"] scenario_cutoff [item_A; item_B; item_C]
              [(AStr "A", 1672531200000000, sample_song "A" "2023-01-01T00:00:00Z");
               (AStr "B", 1672531200000000, sample_song "B" "2023-01-01T00:00:00Z");
               (AStr "C", 1701388800000000, sample_song "C" "2023-12-01T00:00:00Z")] _).
    repeat apply Forall2_cons; try apply Forall2_nil.
    + exists (sample_track "A" sample_album), "2023-01-01T00:00:00Z".
      repeat split; vm_compute; reflexivity.
    + exists (sample_track "B" sample_album), "2023-01-01T00:00:00Z".
      repeat split; vm_compute; reflexivity.
    + exists (sample_track "C" sample_album), "2023-12-01T00:00:00Z".
      repeat split; vm_compute; reflexivity.
  - destruct (Hactive [AStr "X"] scenario_cutoff item_unparsable
                (sample_track "X" sample_album) (VStr "X")
                (AStr "X") "not-a-date" "Artist"
                eq_refl eq_refl eq_refl eq_refl eq_refl eq_refl eq_refl)
      as (Hraise & Hkept & _).
    split; [exact Hraise | exact Hkept].
Defined.

(** A run over a library with that one song, which was played recently:
    the cleanup and the preview of the web service end with the
    [ValueError], while the command-line tool finds nothing to remove and
    sends no removal. *)
Lemma active_unparsable_song_aborts_the_run :
  let answers := [answer_json (items_page [item_unparsable]);
                  answer_json (items_page [played "X"]);
                  answer_json (items_page []);
                  answer_json (items_page [])] in
  fst (S.analyze_and_cleanup (scripted answers) iso_seconds 5 6 sample_now fresh_world)
  = Raises (Builtin ValueError)
  /\ fst (S.preview_cleanup (scripted answers) iso_seconds 5 6 sample_now fresh_world)
     = Raises (Builtin ValueError)
  /\ (let run := C.clean_liked_songs (scripted (answer_json sample_profile :: answers))
                   iso_seconds 5 scenario_cutoff "yes" fresh_world in
      fst run = Returns None
      /\ map c_verb (w_requests (snd run)) = [HGET; HGET; HGET; HGET; HGET]).
Proof. vm_compute. repeat split; reflexivity. Qed.

(** Songs A and C of the scenario are kept, and the plan is B alone. *)
Lemma classification_scenario_plan :
  S.classify_item iso_seconds S.removal_entry [AStr "A"] scenario_cutoff item_A = Ok None
  /\ S.classify_item iso_seconds S.removal_entry [AStr "A"] scenario_cutoff item_C = Ok None
  /\ C.classify_item iso_seconds [AStr "A"] scenario_cutoff item_A = Ok None
  /\ C.classify_item iso_seconds [AStr "A"] scenario_cutoff item_C = Ok None
  /\ option_map (map S.r_id)
       (match S.classify_all iso_seconds S.removal_entry [AStr "A"] scenario_cutoff
                [item_A; item_B; item_C] [] with
        | Ok plan => Some plan
        | Raise _ => None
        end) = Some [VStr "B"].
Proof. repeat split; vm_compute; reflexivity. Qed.

(** A liked song whose added-at string is ["not-a-date"]: the web service
    raises, the command-line tool removes. *)
Lemma unparsable_added_at_example :
  (forall entry rest acc,
     S.classify_item iso_seconds entry [AStr "A"] scenario_cutoff item_unparsable
     = Raise ValueError
     /\ S.classify_all iso_seconds entry [AStr "A"] scenario_cutoff
          (item_unparsable :: rest) acc = Raise ValueError)
  /\ (exists s,
        C.classify_item iso_seconds [AStr "A"] scenario_cutoff item_unparsable
        = Ok (Some s) /\ C.s_id s = VStr "X").
Proof.
  exact (unparsable_added_at_raises_in_service iso_seconds [AStr "A"]
           scenario_cutoff item_unparsable (sample_track "X" sample_album)
           (VStr "X") (AStr "X") "not-a-date" "Artist"
           eq_refl eq_refl eq_refl eq_refl eq_refl eq_refl eq_refl).
Defined.

(** The whole run of the web service over a library with that one song
    ends with the [ValueError], in the cleanup and in the preview. *)
Lemma unparsable_added_at_aborts_the_run :
  fst (S.analyze_and_cleanup (scripted (library_script [item_unparsable]))
         iso_seconds 5 6 sample_now fresh_world) = Raises (Builtin ValueError)
  /\ fst (S.preview_cleanup (scripted (library_script [item_unparsable]))
            iso_seconds 5 6 sample_now fresh_world) = Raises (Builtin ValueError).
Proof. split; vm_compute; reflexivity. Qed.

(** A track with an album and one image, and the same track with an empty
    image list. *)
Lemma candidate_record_example :
  S.removal_entry (sample_track "B" sample_album) 7
  = Ok {| S.r_id := VStr "B"; S.r_name := VStr "Song B"; S.r_artist := VStr "Artist";
          S.r_album := VStr "Album"; S.r_added_at := 7; S.r_preview_image := None |}
  /\ S.preview_entry (sample_track "B" sample_album) 7
     = Ok {| S.r_id := VStr "B"; S.r_name := VStr "Song B"; S.r_artist := VStr "Artist";
             S.r_album := VStr "Album"; S.r_added_at := 7;
             S.r_preview_image := Some (VStr "https://i.scdn.co/image/cover") |}.
Proof.
  destruct (candidate_record_needs_album (sample_track "B" sample_album)
              (VStr "B") (VStr "Song B") (VDict [("name", VStr "Artist")])
              (VStr "Artist") sample_album (VStr "Album") [] 7
              eq_refl eq_refl eq_refl eq_refl eq_refl eq_refl) as (H1 & _ & H3).
  split; [exact H1|].
  exact (H3 (VDict [("url", VStr "https://i.scdn.co/image/cover")]) []
            (VStr "https://i.scdn.co/image/cover") eq_refl eq_refl).
Defined.

(** A stale song whose album is null: building its record raises
    [TypeError], in the cleanup and in the preview, and so do the runs; a
    track without the ["album"] key raises [KeyError]. *)
Lemma missing_album_raises :
  S.removal_entry (sample_track "B" VNone) 1672531200000000 = Raise TypeError
  /\ S.preview_entry (sample_track "B" VNone) 1672531200000000 = Raise TypeError
  /\ S.removal_entry (VDict [("id", VStr "B"); ("name", VStr "Song B");
                             ("artists", VList [VDict [("name", VStr "Artist")]])])
                     1672531200000000 = Raise KeyError
  /\ S.classify_item iso_seconds S.removal_entry [AStr "A"] scenario_cutoff
       item_without_album = Raise TypeError
  /\ fst (S.analyze_and_cleanup (scripted (library_script [item_without_album]))
            iso_seconds 5 6 sample_now fresh_world) = Raises (Builtin TypeError)
  /\ fst (S.preview_cleanup (scripted (library_script [item_without_album]))
            iso_seconds 5 6 sample_now fresh_world) = Raises (Builtin TypeError).
Proof. repeat split; vm_compute; reflexivity. Qed.

(** One 429 answer with [Retry-After: 2], then the profile: both request
    methods return the profile after two identical calls and two seconds
    of sleep. Three 429 answers with [Retry-After: 1]: both return [None]
    after three calls and three seconds of sleep. *)
Lemma rate_limited_once_example :
  (let run := S.make_request
                (scripted [answer_rate_limited "2"; answer_json sample_profile])
                "/me" "GET" VNone VNone fresh_world in
   fst run = Returns sample_profile
   /\ w_requests (snd run) = [sample_get "/me"; sample_get "/me"]
   /\ w_slept (snd run) = 2000)
  /\ (let run := C.make_spotify_request
                   (scripted [answer_rate_limited "2"; answer_json sample_profile])
                   "/me" "GET" VNone fresh_world in
      fst run = Returns sample_profile
      /\ w_requests (snd run) = [sample_get "/me"; sample_get "/me"]
      /\ w_slept (snd run) = 2000)
  /\ (let remote := scripted [answer_rate_limited "1"; answer_rate_limited "1";
                              answer_rate_limited "1"; answer_json sample_profile] in
      let service := S.make_request remote "/me" "GET" VNone VNone fresh_world in
      let cleaner := C.make_spotify_request remote "/me" "GET" VNone fresh_world in
      (fst service = Returns VNone
       /\ w_requests (snd service)
          = [sample_get "/me"; sample_get "/me"; sample_get "/me"]
       /\ w_slept (snd service) = 3000)
      /\ (fst cleaner = Returns VNone
          /\ w_requests (snd cleaner)
             = [sample_get "/me"; sample_get "/me"; sample_get "/me"]
          /\ w_slept (snd cleaner) = 3000)).
Proof.
  assert (List.length [2] <= 3)%nat as Hlen by (simpl; lia).
  assert (List.length [2] < 3)%nat as Hlt by (simpl; lia).
  assert (List.length [1; 1; 1] <= 3)%nat as Hlen3 by (simpl; lia).
  assert (0 <= 2) as Hpos by lia.
  assert (0 <= 1) as Hpos1 by lia.
  destruct (rate_limited_request_retried_within_three_attempts
              (scripted [answer_rate_limited "2"; answer_json sample_profile])
              "/me" "GET" VNone VNone fresh_world (sample_get "/me") (sample_get "/me")
              [2] eq_refl eq_refl Hlen) as (Hs & Hc & _).
  destruct (rate_limited_request_retried_within_three_attempts
              (scripted [answer_rate_limited "1"; answer_rate_limited "1";
                         answer_rate_limited "1"; answer_json sample_profile])
              "/me" "GET" VNone VNone fresh_world (sample_get "/me") (sample_get "/me")
              [1; 1; 1] eq_refl eq_refl Hlen3) as (Hs3 & Hc3 & _).
  split; [|split; [|split]].
  - destruct Hs as (_ & _ & Hs & _).
    + split; [|exact I].
      exists {| status_code := 429; retry_after_header := Some "2";
                text := EmptyString; json := None |}.
      repeat split; try reflexivity; exact Hpos.
    + cbv zeta.
      rewrite (Hs (ok_response sample_profile) sample_profile
                 Hlt eq_refl eq_refl eq_refl eq_refl).
      vm_compute. repeat split; reflexivity.
  - destruct Hc as (_ & _ & Hc & _).
    + split; [|exact I].
      exists {| status_code := 429; retry_after_header := Some "2";
                text := EmptyString; json := None |}.
      repeat split; try reflexivity; exact Hpos.
    + cbv zeta.
      rewrite (Hc (ok_response sample_profile) sample_profile
                 Hlt eq_refl eq_refl eq_refl eq_refl).
      vm_compute. repeat split; reflexivity.
  - destruct Hs3 as (_ & Hs3 & _).
    + repeat (split;
              [exists {| status_code := 429; retry_after_header := Some "1";
                         text := EmptyString; json := None |};
               repeat split; try reflexivity; exact Hpos1|]).
      exact I.
    + cbv zeta. rewrite (Hs3 eq_refl). vm_compute. repeat split; reflexivity.
  - destruct Hc3 as (_ & Hc3 & _).
    + repeat (split;
              [exists {| status_code := 429; retry_after_header := Some "1";
                         text := EmptyString; json := None |};
               repeat split; try reflexivity; exact Hpos1|]).
      exact I.
    + cbv zeta. rewrite (Hc3 eq_refl). vm_compute. repeat split; reflexivity.
Defined.

(** Three 429 answers use up the three attempts: both request methods
    return [None] after three calls, although the fourth call would have
    been answered with the profile. So it is not the case that a request
    gets through after any number of 429 answers. *)
Lemma three_rate_limits_exhaust_the_attempts :
  (let run := S.make_request
                (scripted [answer_rate_limited "1"; answer_rate_limited "1";
                           answer_rate_limited "1"; answer_json sample_profile])
                "/me" "GET" VNone VNone fresh_world in
   fst run = Returns VNone
   /\ w_requests (snd run) = [sample_get "/me"; sample_get "/me"; sample_get "/me"]
   /\ w_slept (snd run) = 3000)
  /\ (let run := C.make_spotify_request
                   (scripted [answer_rate_limited "1"; answer_rate_limited "1";
                              answer_rate_limited "1"; answer_json sample_profile])
                   "/me" "GET" VNone fresh_world in
      fst run = Returns VNone
      /\ w_requests (snd run) = [sample_get "/me"; sample_get "/me"; sample_get "/me"]
      /\ w_slept (snd run) = 3000)
  /\ ~ (forall n,
          fst (S.make_request
                 (scripted (repeat (answer_rate_limited "1") n
                            ++ [answer_json sample_profile]))
                 "/me" "GET" VNone VNone fresh_world) = Returns sample_profile).
Proof.
  split; [|split].
  - vm_compute. repeat split; reflexivity.
  - vm_compute. repeat split; reflexivity.
  - intros H. specialize (H 3%nat). vm_compute in H. discriminate.
Qed.

(** A 401 answer to the web service: one call, [None], no refresh. *)
Lemma unauthorized_service_example :
  let run := S.make_request
               (scripted [answer_empty 401;
                          answer_json (VDict [("access_token", VStr "new")]);
                          answer_json sample_profile])
               "/me" "GET" VNone VNone fresh_world in
  fst run = Returns VNone
  /\ w_requests (snd run) = [sample_get "/me"]
  /\ c_url (sample_get "/me") <> C.token_url
  /\ w_access_token (snd run) = VStr "token".
Proof.
  exact (service_gives_up_on_unauthorized
           (scripted [answer_empty 401;
                      answer_json (VDict [("access_token", VStr "new")]);
                      answer_json sample_profile])
           "/me" "GET" VNone VNone fresh_world (sample_get "/me")
           {| status_code := 401; retry_after_header := None; text := EmptyString; json := None |}
           eq_refl eq_refl eq_refl).
Defined.

(** The same answers to the command-line tool: it refreshes the token and
    returns the profile fetched under the new bearer. *)
Lemma unauthorized_cleaner_example :
  let run := C.make_spotify_request
               (scripted [answer_empty 401;
                          answer_json (VDict [("access_token", VStr "new")]);
                          answer_json sample_profile])
               "/me" "GET" VNone fresh_world in
  fst run = Returns sample_profile
  /\ map c_url (w_requests (snd run))
     = [base_url ++ "/me"; C.token_url; base_url ++ "/me"]
  /\ map c_bearer (w_requests (snd run))
     = [Some (VStr "token"); None; Some (VStr "new")]
  /\ w_access_token (snd run) = VStr "new".
Proof. vm_compute. repeat split; reflexivity. Qed.

(** 120 ids in three batches; the first is accepted and the second is
    answered 500: the removal returns [False], the third batch is never
    asked for, and only DELETE calls were made. *)
Lemma second_batch_fails_example :
  let remote := scripted [answer_empty 200; answer_empty 500; answer_empty 200] in
  let run := S.remove_tracks_from_liked remote (sample_ids 120) fresh_world in
  fst run = Returns false
  /\ w_calls (snd run)
     = map delete_call (firstn 2 (batches (sample_ids 120)))
  /\ adds_only HDELETE fresh_world (snd run).
Proof.
  intros remote run.
  pose proof (removal_stops_at_first_failed_batch remote (sample_ids 120)
                [0%nat] 50%nat [100%nat] fresh_world eq_refl
                ltac:(vm_compute; reflexivity)
                ltac:(exists VNone; split;
                      [vm_compute; reflexivity | left; reflexivity]))
    as (H1 & H2 & H3).
  split; [|split].
  - fold run in H1. rewrite H1. reflexivity.
  - exact H2.
  - exact H3.
Defined.

(** A run over 51 stale songs in which the first removal batch of 50 is
    accepted (status 200) and the second is answered 500: the result
    reports no song removed and 51 kept, although the batch of 50 was
    removed remotely. *)
Lemma partial_removal_reported_as_nothing :
  let run := S.analyze_and_cleanup (scripted partial_removal_script) iso_seconds
               5 6 sample_now fresh_world in
  map status_of partial_removal_script = [200; 200; 200; 200; 200; 200; 500]
  /\ map c_verb (w_requests (snd run))
     = [HGET; HGET; HGET; HGET; HGET; HDELETE; HDELETE]
  /\ skipn 5 (w_calls (snd run))
     = [delete_call (firstn 50 ids_51); delete_call (skipn 50 ids_51)]
  /\ exists r, fst run = Returns r
               /\ S.total_liked_songs r = 51
               /\ S.songs_removed r = 0
               /\ S.songs_kept r = 51
               /\ S.removed_tracks r = [].
Proof.
  split; [reflexivity|]. split; [vm_compute; reflexivity|].
  split; [vm_compute; reflexivity|].
  eexists. split; [vm_compute; reflexivity|]. repeat split.
Qed.

(** 51 ids whose two batches are accepted: two invocations, the two
    planned batches. *)
Lemma two_batches_example :
  let run := S.remove_tracks_from_liked (scripted [answer_empty 200; answer_empty 200])
               ids_51 fresh_world in
  List.length (batches ids_51) = 2%nat
  /\ w_calls (snd run) = map delete_call (batches ids_51).
Proof.
  intros run.
  destruct (removal_batches_of_at_most_fifty
              (scripted [answer_empty 200; answer_empty 200]) ids_51 fresh_world)
    as (Hlen & _ & _ & (k & Hk & Hc & Ht) & _).
  split; [exact Hlen|].
  fold run in Hc, Ht.
  assert (fst run = Returns true) as Htrue by (vm_compute; reflexivity).
  specialize (Ht Htrue). rewrite Ht, <- Hlen, firstn_all in Hc. exact Hc.
Defined.

(** 51 ids: when the first batch is answered 500 the web service makes
    one removal invocation, and the command-line tool makes 51, one per
    song; neither is the ceiling of 51/50. *)
Lemma removal_calls_differ_from_the_ceiling :
  ((51 + 49) / 50 = 2)%nat
  /\ (let run := S.remove_tracks_from_liked (scripted [answer_empty 500])
                   ids_51 fresh_world in
      fst run = Returns false
      /\ w_calls (snd run) = [delete_call (firstn 50 ids_51)])
  /\ (let run := C.remove_songs (scripted (repeat (answer_empty 200) 51))
                   songs_51 (0, 0) fresh_world in
      fst run = Returns (51, 0)
      /\ List.length (w_calls (snd run)) = 51%nat
      /\ w_calls (snd run) = map (fun id => delete_call [id]) ids_51).
Proof.
  split; [reflexivity|]. split.
  - vm_compute. split; reflexivity.
  - vm_compute. repeat split; reflexivity.
Qed.

(** A library whose first page has 50 songs and whose second page request
    fails: both fetches return the 50 songs after two page requests. *)
Lemma failed_second_page_example :
  (let run := S.get_liked_songs first_page_only 5 50 fresh_world in
   fst run = Returns (firstn 50 liked_51)
   /\ w_calls (snd run)
      = [api_call_of "/me/tracks" "GET" VNone (service_page_params 0);
         api_call_of "/me/tracks" "GET" VNone (service_page_params 1)])
  /\ (let run := C.get_liked_songs first_page_only 5 fresh_world in
      fst run = Returns (firstn 50 liked_51)
      /\ w_calls (snd run)
         = [api_call_of (cleaner_page_endpoint 0) "GET" VNone VNone;
            api_call_of (cleaner_page_endpoint 1) "GET" VNone VNone]).
Proof.
  assert (forall i w0, (i <= 1)%nat ->
            fst (S.make_request first_page_only "/me/tracks" "GET" VNone
                   (service_page_params i) w0) = Returns (first_page_answers i)) as Hs.
  { intros i w0 Hi. destruct i as [|[|i]]; [reflexivity | reflexivity | lia]. }
  assert (forall i w0, (i <= 1)%nat ->
            fst (C.make_spotify_request first_page_only (cleaner_page_endpoint i)
                   "GET" VNone w0) = Returns (first_page_answers i)) as Hc.
  { intros i w0 Hi. destruct i as [|[|i]]; [reflexivity | reflexivity | lia]. }
  assert (forall i, (i < 1)%nat ->
            full_page (first_page_answers i) ((fun _ => firstn 50 liked_51) i)) as Hfull.
  { intros i Hi. destruct i as [|i]; [|lia].
    exists [("items", VList (firstn 50 liked_51))].
    split; [reflexivity|]. split; [reflexivity|]. vm_compute. lia. }
  assert (last_page (first_page_answers 1) []) as Hlast.
  { right. split; [left; reflexivity | reflexivity]. }
  pose proof (liked_songs_pagination first_page_only first_page_answers
                (fun _ => firstn 50 liked_51) 1 5 [] fresh_world
                ltac:(lia) Hs Hc Hfull Hlast) as ((Hs1 & Hs2) & (Hc1 & Hc2)).
  split; split.
  - rewrite Hs1. vm_compute. reflexivity.
  - rewrite Hs2. reflexivity.
  - rewrite Hc1. vm_compute. reflexivity.
  - rewrite Hc2. reflexivity.
Defined.

(** A failed page request is not surfaced. When the second page request is
    answered 500, the fetch returns the first 50 songs and the cleanup goes
    on with them, removing all 50; when the first page request is answered
    500, the cleanup returns the result of an empty library. Nothing is
    raised in either run. *)
Lemma failed_page_request_is_not_fatal :
  fst (S.get_liked_songs (scripted [answer_json first_page; answer_empty 500])
         5 50 fresh_world) = Returns (firstn 50 liked_51)
  /\ fst (C.get_liked_songs (scripted [answer_json first_page; answer_empty 500])
            5 fresh_world) = Returns (firstn 50 liked_51)
  /\ (exists r,
        fst (S.analyze_and_cleanup
               (scripted [answer_json first_page; answer_empty 500;
                          answer_json (items_page []); answer_json (items_page []);
                          answer_json (items_page []); answer_empty 200])
               iso_seconds 5 6 sample_now fresh_world) = Returns r
        /\ S.total_liked_songs r = 50
        /\ S.songs_removed r = 50)
  /\ fst (S.analyze_and_cleanup (scripted [answer_empty 500]) iso_seconds 5 6
            sample_now fresh_world)
     = Returns {| S.total_liked_songs := 0; S.songs_analyzed := 0;
                  S.songs_removed := 0; S.songs_kept := 0;
                  S.recent_tracks_found := None; S.top_tracks_found := None;
                  S.removed_tracks := [] |}.
Proof.
  split; [vm_compute; reflexivity|]. split; [vm_compute; reflexivity|]. split.
  - eexists. split; [vm_compute; reflexivity|]. split; reflexivity.
  - vm_compute. reflexivity.
Qed.



(** The calls of that preview and its candidate, computed. *)
Lemma scenario_preview_run :
  let run := S.preview_cleanup (scripted scenario_script) iso_seconds 5 6
               sample_now fresh_world in
  map c_verb (w_requests (snd run)) = [HGET; HGET; HGET; HGET]
  /\ map a_method (w_calls (snd run)) = ["GET"; "GET"; "GET"; "GET"]
  /\ exists r, fst run = Returns r
               /\ map S.r_preview_image (S.p_tracks_to_remove r)
                  = [Some (VStr "https://i.scdn.co/image/cover")].
Proof.
  vm_compute. split; [reflexivity|]. split; [reflexivity|].
  eexists. split; reflexivity.
Qed.

(** * Further properties of the code *)

(** ** The request loop: failures of the network and error answers *)

Section RequestEdges.

Variable remote : world -> http_call -> http_outcome.

Lemma service_attempt_network_failure
    (endpoint method : string) (data params : value) (a : Z)
    (w : world) (c : http_call) :
  S.prepare (w_access_token w) endpoint method data params = Ok c ->
  remote w c = NetworkFailure ->
  S.attempt_body remote endpoint method data params a w
  = if a =? 2 then (Returns (Some VNone), with_request c w)
    else (Returns None, with_sleep 1000 (with_request c w)).
Proof.
  intros Hp Hr. unfold S.attempt_body, try_except, bind, S.dispatch.
  rewrite Hp. unfold S.perform. rewrite Hr. simpl.
  destruct (a =? 2); reflexivity.
Qed.

Lemma cleaner_attempt_network_failure
    (endpoint method : string) (data : value) (a : Z)
    (w : world) (c : http_call) :
  C.prepare (w_access_token w) endpoint method data = Ok c ->
  remote w c = NetworkFailure ->
  C.attempt_body remote endpoint method data a w
  = if a <? 2 then (Returns None, with_sleep 2000 (with_request c w))
    else (Returns (Some VNone), with_request c w).
Proof.
  intros Hp Hr. unfold C.attempt_body, try_except, bind, C.dispatch.
  rewrite Hp. unfold C.perform. rewrite Hr. simpl.
  destruct (a <? 2); reflexivity.
Qed.

Lemma service_attempt_error_status
    (endpoint method : string) (data params : value) (a : Z)
    (w : world) (c : http_call) (r : http_response) :
  S.prepare (w_access_token w) endpoint method data params = Ok c ->
  remote w c = Responded r ->
  status_code r <> 429 ->
  status_code r <> 200 ->
  S.attempt_body remote endpoint method data params a w
  = (Returns (Some VNone), with_request c w).
Proof.
  intros Hp Hr H429 H200. unfold S.attempt_body, try_except, bind, S.dispatch.
  rewrite Hp. unfold S.perform. rewrite Hr. unfold S.handle_response.
  apply Z.eqb_neq in H429, H200. rewrite H429, H200.
  destruct (status_code r =? 401); reflexivity.
Qed.

Lemma cleaner_attempt_error_status
    (endpoint method : string) (data : value) (a : Z)
    (w : world) (c : http_call) (r : http_response) :
  C.prepare (w_access_token w) endpoint method data = Ok c ->
  remote w c = Responded r ->
  status_code r <> 401 ->
  status_code r <> 429 ->
  status_code r <> 200 ->
  status_code r <> 204 ->
  C.attempt_body remote endpoint method data a w
  = (Returns (Some VNone), with_request c w).
Proof.
  intros Hp Hr H401 H429 H200 H204.
  unfold C.attempt_body, try_except, bind, C.dispatch.
  rewrite Hp. unfold C.perform. rewrite Hr. unfold C.handle_response.
  apply Z.eqb_neq in H401, H429, H200, H204. rewrite H401, H429, H200, H204.
  reflexivity.
Qed.

End RequestEdges.

(** X1. A network outage: when [requests] raises on every try of the call,
    the web service gives up with [None] after three identical calls and
    two sleeps of one second, the command-line tool after three calls and
    two sleeps of two seconds; no exception leaves the method. *)
Theorem network_outage_exhausts_three_attempts
    (remote : world -> http_call -> http_outcome)
    (endpoint method : string) (data params : value) (w : world)
    (cs cc : http_call) :
  S.prepare (w_access_token w) endpoint method data params = Ok cs ->
  C.prepare (w_access_token w) endpoint method data = Ok cc ->
  (forall w', remote w' cs = NetworkFailure) ->
  (forall w', remote w' cc = NetworkFailure) ->
  (let run := S.make_request remote endpoint method data params w in
   fst run = Returns VNone
   /\ w_requests (snd run) = (w_requests w ++ [cs; cs; cs])%list
   /\ w_slept (snd run) = w_slept w + 2000)
  /\ (let run := C.make_spotify_request remote endpoint method data w in
      fst run = Returns VNone
      /\ w_requests (snd run) = (w_requests w ++ [cc; cc; cc])%list
      /\ w_slept (snd run) = w_slept w + 4000).
Proof.
  intros Hps Hpc Hs Hc. split.
  - unfold S.make_request.
    erewrite for_attempts_next
      by (rewrite (service_attempt_network_failure remote _ _ _ _ _ _ cs);
          [reflexivity | exact Hps | apply Hs]).
    erewrite for_attempts_next
      by (rewrite (service_attempt_network_failure remote _ _ _ _ _ _ cs);
          [reflexivity | exact Hps | apply Hs]).
    erewrite for_attempts_return
      by (rewrite (service_attempt_network_failure remote _ _ _ _ _ _ cs);
          [reflexivity | exact Hps | apply Hs]).
    simpl. rewrite <- !app_assoc. repeat split. lia.
  - unfold C.make_spotify_request.
    erewrite for_attempts_next
      by (rewrite (cleaner_attempt_network_failure remote _ _ _ _ _ cc);
          [reflexivity | exact Hpc | apply Hc]).
    erewrite for_attempts_next
      by (rewrite (cleaner_attempt_network_failure remote _ _ _ _ _ cc);
          [reflexivity | exact Hpc | apply Hc]).
    erewrite for_attempts_return
      by (rewrite (cleaner_attempt_network_failure remote _ _ _ _ _ cc);
          [reflexivity | exact Hpc | apply Hc]).
    simpl. rewrite <- !app_assoc. repeat split. lia.
Qed.


Lemma service_attempt_no_body (remote : world -> http_call -> http_outcome)
    (endpoint : string) (data params : value) (a : Z)
    (w : world) (c : http_call) (r : http_response) :
  S.prepare (w_access_token w) endpoint "DELETE" data params = Ok c ->
  remote w c = Responded r ->
  status_code r = 200 ->
  blank (text r) = true \/ json r = None ->
  S.attempt_body remote endpoint "DELETE" data params a w
  = (Returns (Some success), with_request c w).
Proof.
  intros Hp Hr H200 Hbody.
  unfold S.attempt_body, try_except, bind, S.dispatch.
  rewrite Hp. unfold S.perform. rewrite Hr.
  unfold S.handle_response. rewrite H200. simpl.
  destruct (blank (text r)); [reflexivity|].
  destruct Hbody as [H|H]; [discriminate|]. rewrite H. reflexivity.
Qed.



(** X4. A 429 whose Retry-After header is no integer (an HTTP date, say)
    or is negative: the [ValueError] leaves the web service's
    [make_request] after the one call, while the command-line tool takes
    it as a failed try, sleeps two seconds and tries again, and returns
    [None] after three such answers. *)
Theorem bad_retry_after_header
    (remote : world -> http_call -> http_outcome)
    (endpoint method : string) (data params : value) (w : world)
    (cs cc : http_call) (r : http_response) :
  status_code r = 429 ->
  bad_retry_after r ->
  S.prepare (w_access_token w) endpoint method data params = Ok cs ->
  remote (with_call (api_call_of endpoint method data params) w) cs = Responded r ->
  C.prepare (w_access_token w) endpoint method data = Ok cc ->
  (forall w', remote w' cc = Responded r) ->
  (let run := S.make_request remote endpoint method data params w in
   fst run = Raises (Builtin ValueError)
   /\ w_requests (snd run) = (w_requests w ++ [cs])%list
   /\ w_slept (snd run) = w_slept w)
  /\ (let run := C.make_spotify_request remote endpoint method data w in
      fst run = Returns VNone
      /\ w_requests (snd run) = (w_requests w ++ [cc; cc; cc])%list
      /\ w_slept (snd run) = w_slept w + 4000).
Proof.
  intros H429 Hbad Hps Hrs Hpc Hrc.
  assert (forall w0, bind (lift (S.retry_after_seconds r))
                       (fun n => bind (sleep (n * 1000)) (fun _ => ret (@None value))) w0
                     = (Raises (Builtin ValueError), w0)) as Hraise.
  { intros w0. unfold bind, lift.
    destruct Hbad as [E | (n & E & Hn)]; rewrite E; [reflexivity|].
    unfold sleep. destruct (Z.ltb_spec (n * 1000) 0); [reflexivity | lia]. }
  split.
  - assert (S.attempt_body remote endpoint method data params 0
              (with_call (api_call_of endpoint method data params) w)
            = (Raises (Builtin ValueError),
               with_request cs (with_call (api_call_of endpoint method data params) w)))
      as Hattempt.
    { unfold S.attempt_body, try_except, S.dispatch.
      unfold bind at 1. simpl w_access_token. rewrite Hps.
      unfold S.perform. rewrite Hrs. unfold S.handle_response.
      rewrite H429. simpl (429 =? 429). cbv iota. rewrite Hraise. reflexivity. }
    assert (S.make_request remote endpoint method data params w
            = (Raises (Builtin ValueError),
               with_request cs (with_call (api_call_of endpoint method data params) w)))
      as Hrun.
    { unfold S.make_request. fold (api_call_of endpoint method data params).
      simpl for_attempts. unfold bind at 1. rewrite Hattempt. reflexivity. }
    rewrite Hrun. simpl. auto.
  - assert (forall a w0, w_access_token w0 = w_access_token w ->
              C.attempt_body remote endpoint method data a w0
              = if a <? 2 then (Returns None, with_sleep 2000 (with_request cc w0))
                else (Returns (Some VNone), with_request cc w0)) as Hattempt.
    { intros a w0 Htok. unfold C.attempt_body, try_except, C.dispatch.
      unfold bind at 1. rewrite Htok, Hpc. unfold C.perform. rewrite Hrc.
      unfold C.handle_response. rewrite H429. simpl (429 =? 401). simpl (429 =? 429).
      cbv iota. change C.retry_after_seconds with S.retry_after_seconds.
      rewrite Hraise. simpl. destruct (a <? 2); reflexivity. }
    unfold C.make_spotify_request.
    erewrite for_attempts_next by (rewrite Hattempt; reflexivity).
    erewrite for_attempts_next by (rewrite Hattempt; reflexivity).
    erewrite for_attempts_return by (rewrite Hattempt; reflexivity).
    simpl. rewrite <- !app_assoc. repeat split. lia.
Qed.

(** ** What may leave the request methods *)

Lemma may_fail_weaken {A} (Q Q' : option pyexn -> Prop) (m : M A) :
  (forall k, Q k -> Q' k) -> may_fail Q m -> may_fail Q' m.
Proof.
  intros HQ Hm w. specialize (Hm w). destruct (fst (m w)); auto.
Qed.

Lemma may_fail_ret {A} (Q : option pyexn -> Prop) (a : A) : may_fail Q (ret a).
Proof. intros w. exact I. Qed.

Lemma may_fail_lift {A} (Q : option pyexn -> Prop) (r : res A) :
  (forall e, Q (Some (Builtin e))) -> may_fail Q (lift r).
Proof. intros HQ w. unfold lift. destruct r; simpl; auto. Qed.

Lemma may_fail_sleep (Q : option pyexn -> Prop) (ms : Z) :
  (ms < 0 -> Q (Some (Builtin ValueError))) -> may_fail Q (sleep ms).
Proof.
  intros HQ w. unfold sleep. destruct (Z.ltb_spec ms 0); simpl; auto.
Qed.

Lemma may_fail_bind {A B} (Q : option pyexn -> Prop) (m : M A) (f : A -> M B) :
  may_fail Q m -> (forall a, may_fail Q (f a)) -> may_fail Q (bind m f).
Proof.
  intros Hm Hf w. unfold bind. specialize (Hm w).
  destruct (m w) as [[a|e|] w1]; simpl in *; auto. apply Hf.
Qed.

Lemma may_fail_try {A} (Qb Q : option pyexn -> Prop) (handles : pyexn -> bool)
    (body handler : M A) :
  may_fail Qb body -> may_fail Q handler ->
  (forall e, Qb (Some e) -> handles e = false -> Q (Some e)) ->
  (Qb None -> Q None) ->
  may_fail Q (try_except handles body handler).
Proof.
  intros Hb Hh He Hn w. unfold try_except. specialize (Hb w).
  destruct (body w) as [[a|e|] w1]; simpl in *; auto.
  destruct (handles e) eqn:E; simpl; auto. apply Hh.
Qed.

Lemma may_fail_for_attempts (Q : option pyexn -> Prop)
    (body : Z -> M (option value)) (attempts : list Z) :
  (forall a, may_fail Q (body a)) -> may_fail Q (for_attempts attempts body).
Proof.
  intros Hb. induction attempts as [|a rest IH]; simpl.
  - apply may_fail_ret.
  - apply may_fail_bind; [apply Hb|]. intros [v|]; [apply may_fail_ret | exact IH].
Qed.

Lemma raises_only_builtin (e : exn) : raises_only (Some (Builtin e)).
Proof. eexists. reflexivity. Qed.

Section RequestFailures.

Variable remote : world -> http_call -> http_outcome.

Lemma service_body_raises_only (endpoint method : string) (data params : value) :
  may_fail raises_only
    (bind (S.dispatch remote endpoint method data params) (S.handle_response method)).
Proof.
  apply may_fail_bind.
  - intros w. unfold S.dispatch. destruct (S.prepare _ _ _ _ _) as [c|e]; simpl.
    + unfold S.perform. destruct (remote w c); simpl; [exact I | eexists; reflexivity].
    + eexists. reflexivity.
  - intros r. unfold S.handle_response.
    destruct (status_code r =? 429).
    { apply may_fail_bind; [apply may_fail_lift, raises_only_builtin|]. intros n.
      apply may_fail_bind; [|intros _; apply may_fail_ret].
      apply may_fail_sleep. intros _. apply raises_only_builtin. }
    destruct (status_code r =? 200).
    { destruct (_ && _); [apply may_fail_ret|].
      destruct (json r); [apply may_fail_ret|].
      destruct (String.eqb method "DELETE"); apply may_fail_ret. }
    destruct (status_code r =? 401); apply may_fail_ret.
Qed.

Lemma refresh_never_fails : may_fail never (C.refresh_access_token remote).
Proof.
  unfold C.refresh_access_token.
  apply (may_fail_try raises_only); [|apply may_fail_ret| |].
  - apply may_fail_bind.
    + intros w. unfold C.post_refresh, C.perform.
      destruct (remote w _); simpl; [exact I | eexists; reflexivity].
    + intros r. destruct (status_code r =? 200); [|apply may_fail_ret].
      apply may_fail_bind.
      { unfold C.response_json. destruct (json r); [apply may_fail_ret|].
        apply may_fail_lift, raises_only_builtin. }
      intros j. apply may_fail_bind; [apply may_fail_lift, raises_only_builtin|].
      intros t. apply may_fail_bind; [|intros _; apply may_fail_ret].
      intros w. exact I.
  - intros e _ H. discriminate.
  - intros (e & H). discriminate.
Qed.

Lemma cleaner_body_raises_only (endpoint method : string) (data : value) :
  may_fail raises_only
    (bind (C.dispatch remote endpoint method data) (C.handle_response remote method)).
Proof.
  apply may_fail_bind.
  - intros w. unfold C.dispatch. destruct (C.prepare _ _ _ _) as [c|e]; simpl.
    + unfold C.perform. destruct (remote w c); simpl; [exact I | eexists; reflexivity].
    + eexists. reflexivity.
  - intros r. unfold C.handle_response.
    destruct (status_code r =? 401).
    { apply may_fail_bind.
      - eapply may_fail_weaken; [|apply refresh_never_fails]. intros k [].
      - intros [|]; apply may_fail_ret. }
    destruct (status_code r =? 429).
    { apply may_fail_bind; [apply may_fail_lift, raises_only_builtin|]. intros n.
      apply may_fail_bind; [|intros _; apply may_fail_ret].
      apply may_fail_sleep. intros _. apply raises_only_builtin. }
    destruct (status_code r =? 200).
    { destruct (_ && _); [apply may_fail_ret|].
      destruct (json r); [apply may_fail_ret|].
      destruct (String.eqb method "DELETE"); apply may_fail_ret. }
    destruct (status_code r =? 204); apply may_fail_ret.
Qed.

Lemma service_make_request_builtin_only (endpoint method : string) (data params : value) :
  may_fail builtin_only (S.make_request remote endpoint method data params).
Proof.
  intros w. unfold S.make_request.
  apply (may_fail_for_attempts builtin_only). intros a.
  unfold S.attempt_body.
  apply (may_fail_try raises_only).
  - apply service_body_raises_only.
  - destruct (a =? 2); [apply may_fail_ret|].
    apply may_fail_bind; [|intros _; apply may_fail_ret].
    apply may_fail_sleep. lia.
  - intros [e|] _ H; [eexists; reflexivity | discriminate].
  - intros (e & H). discriminate.
Qed.

Lemma cleaner_make_request_never_fails (endpoint method : string) (data : value) :
  may_fail never (C.make_spotify_request remote endpoint method data).
Proof.
  intros w. unfold C.make_spotify_request.
  apply (may_fail_for_attempts never). intros a.
  unfold C.attempt_body.
  apply (may_fail_try raises_only).
  - apply cleaner_body_raises_only.
  - destruct (a <? 2); [|apply may_fail_ret].
    apply may_fail_bind; [|intros _; apply may_fail_ret].
    apply may_fail_sleep. lia.
  - intros e _ H. discriminate.
  - intros (e & H). discriminate.
Qed.

End RequestFailures.

(** X5. What can leave the request methods. Whatever the remote does,
    [make_spotify_request] and [refresh_access_token] of the command-line
    tool return: they raise nothing. From the web service's [make_request]
    a [requests.RequestException] never escapes; only a built-in error
    can (the [ValueError] of a bad Retry-After header, the [TypeError] of
    a removal id that is no string). *)
Theorem request_methods_contain_failures
    (remote : world -> http_call -> http_outcome) :
  (forall endpoint method data params,
     may_fail builtin_only (S.make_request remote endpoint method data params))
  /\ (forall endpoint method data,
        may_fail never (C.make_spotify_request remote endpoint method data))
  /\ may_fail never (C.refresh_access_token remote).
Proof.
  split; [|split].
  - apply service_make_request_builtin_only.
  - apply cleaner_make_request_never_fails.
  - apply refresh_never_fails.
Qed.

(** X6. The token refresh: it posts the refresh token and the client
    credentials once to the token endpoint, without a bearer header. It
    returns [True] only when the answer is a 200 whose JSON has an
    ["access_token"], which then is the new access token; in every other
    case it returns [False] and the access token is unchanged. *)
Theorem refresh_token_protocol
    (remote : world -> http_call -> http_outcome) (w : world) :
  let run := C.refresh_access_token remote w in
  w_requests (snd run) = (w_requests w ++ [C.refresh_call (w_creds w)])%list
  /\ c_bearer (C.refresh_call (w_creds w)) = None
  /\ subscript (c_form (C.refresh_call (w_creds w))) "refresh_token"
     = Ok (refresh_token (w_creds w))
  /\ ((fst run = Returns true
       /\ exists r j,
            remote w (C.refresh_call (w_creds w)) = Responded r
            /\ status_code r = 200
            /\ json r = Some j
            /\ subscript j "access_token" = Ok (w_access_token (snd run)))
      \/ (fst run = Returns false
          /\ w_access_token (snd run) = w_access_token w)).
Proof.
  intros run. subst run.
  unfold C.refresh_access_token, try_except, bind, C.post_refresh, C.perform.
  destruct (remote w (C.refresh_call (w_creds w))) as [r|] eqn:Hr; simpl.
  2:{ repeat split. right. auto. }
  destruct (Z.eqb_spec (status_code r) 200) as [H200|H200]; simpl.
  2:{ repeat split. right. auto. }
  unfold C.response_json. destruct (json r) as [j|] eqn:Hj; simpl.
  2:{ repeat split. right. auto. }
  destruct (subscript j "access_token") as [t|e] eqn:Ht; simpl.
  2:{ repeat split. right. auto. }
  repeat split. left. split; [reflexivity|]. exists r, j. auto.
Qed.

(** ** An API that answers with errors *)

Section ApiDown.

Variable remote : world -> http_call -> http_outcome.
Variable fromisoformat : string -> option Z.
Hypothesis down : api_down remote.

Lemma service_get_fails (endpoint : string) (data params : value) (w : world) :
  exists w', S.make_request remote endpoint "GET" data params w = (Returns VNone, w')
             /\ one_call_later HGET w w'.
Proof.
  set (c := {| c_verb := HGET; c_url := base_url ++ endpoint;
               c_bearer := Some (w_access_token w); c_params := params;
               c_json := VNone; c_form := VNone |}).
  destruct (down (with_call (api_call_of endpoint "GET" data params) w) c)
    as (r & Hr & H200 & H204 & H401 & H429).
  exists (with_request c (with_call (api_call_of endpoint "GET" data params) w)).
  split.
  - unfold S.make_request. fold (api_call_of endpoint "GET" data params).
    apply for_attempts_return.
    apply (service_attempt_error_status remote endpoint "GET" data params 0 _ c r);
      auto.
  - split; [|split; reflexivity]. exists c. split; reflexivity.
Qed.

Lemma cleaner_get_fails (endpoint : string) (data : value) (w : world) :
  exists w', C.make_spotify_request remote endpoint "GET" data w = (Returns VNone, w')
             /\ one_call_later HGET w w'.
Proof.
  set (c := {| c_verb := HGET; c_url := base_url ++ endpoint;
               c_bearer := Some (w_access_token w); c_params := VNone;
               c_json := VNone; c_form := VNone |}).
  destruct (down (with_call (api_call_of endpoint "GET" data VNone) w) c)
    as (r & Hr & H200 & H204 & H401 & H429).
  exists (with_request c (with_call (api_call_of endpoint "GET" data VNone) w)).
  split.
  - unfold C.make_spotify_request. fold (api_call_of endpoint "GET" data VNone).
    apply for_attempts_return.
    apply (cleaner_attempt_error_status remote endpoint "GET" data 0 _ c r); auto.
  - split; [|split; reflexivity]. exists c. split; reflexivity.
Qed.

Lemma activity_fetches_absorb_errors (w : world) (time_range : string) (limit : Z) :
  (exists w', S.get_recently_played remote limit w = (Returns (VList []), w')
              /\ one_call_later HGET w w')
  /\ (exists w', S.get_top_tracks remote time_range limit w = (Returns (VList []), w')
                 /\ one_call_later HGET w w')
  /\ (exists w', C.get_recently_played_tracks remote w = (Returns (VList []), w')
                 /\ one_call_later HGET w w')
  /\ (exists w', C.get_top_tracks remote time_range w = (Returns (VList []), w')
                 /\ one_call_later HGET w w').
Proof.
  split; [|split; [|split]].
  - destruct (service_get_fails "/me/player/recently-played" VNone
                (VDict [("limit", VInt limit)]) w) as (w' & E & H).
    exists w'. split; [|exact H]. unfold S.get_recently_played.
    rewrite (bind_returns _ _ _ _ _ E). reflexivity.
  - destruct (service_get_fails "/me/top/tracks" VNone
                (VDict [("time_range", VStr time_range); ("limit", VInt limit)]) w)
      as (w' & E & H).
    exists w'. split; [|exact H]. unfold S.get_top_tracks.
    rewrite (bind_returns _ _ _ _ _ E). reflexivity.
  - destruct (cleaner_get_fails "/me/player/recently-played?limit=50" VNone w)
      as (w' & E & H).
    exists w'. split; [|exact H]. unfold C.get_recently_played_tracks.
    rewrite (bind_returns _ _ _ _ _ E). reflexivity.
  - destruct (cleaner_get_fails ("/me/top/tracks?limit=50&time_range=" ++ time_range)
                VNone w) as (w' & E & H).
    exists w'. split; [|exact H]. unfold C.get_top_tracks.
    rewrite (bind_returns _ _ _ _ _ E). reflexivity.
Qed.

Lemma runs_on_a_failing_api (fuel : nat) (timeframe_months now : Z) (answer : string)
    (w : world) :
  (exists w', S.analyze_and_cleanup remote fromisoformat (S fuel) timeframe_months now w
              = (Returns empty_result, w') /\ one_call_later HGET w w')
  /\ (exists w', S.preview_cleanup remote fromisoformat (S fuel) timeframe_months now w
                 = (Returns empty_preview, w') /\ one_call_later HGET w w')
  /\ (exists w', C.clean_liked_songs remote fromisoformat fuel now answer w
                 = (Returns None, w') /\ one_call_later HGET w w').
Proof.
  destruct (service_get_fails "/me/tracks" VNone
              (VDict [("limit", VInt 50); ("offset", VInt 0)]) w) as (w' & E & H).
  assert (S.get_liked_songs remote (S fuel) 50 w = (Returns [], w')) as Hliked.
  { unfold S.get_liked_songs. simpl S.liked_songs_loop.
    rewrite (bind_returns _ _ _ _ _ E). reflexivity. }
  split; [|split].
  - exists w'. split; [|exact H]. unfold S.analyze_and_cleanup.
    rewrite (bind_returns _ _ _ _ _ Hliked). reflexivity.
  - exists w'. split; [|exact H]. unfold S.preview_cleanup.
    rewrite (bind_returns _ _ _ _ _ Hliked). reflexivity.
  - destruct (cleaner_get_fails "/me" VNone w) as (w2 & E2 & H2).
    exists w2. split; [|exact H2]. unfold C.clean_liked_songs, C.get_user_profile.
    rewrite (bind_returns _ _ _ _ _ E2). reflexivity.
Qed.

End ApiDown.

(** X7. The activity fetches absorb a failed request: when the API
    answers with an error status, [get_recently_played] and
    [get_top_tracks] of the web service and [get_recently_played_tracks]
    and [get_top_tracks] of the command-line tool return the empty list
    after the one GET, and raise nothing. *)
Theorem activity_fetch_of_a_failing_api_is_empty
    (remote : world -> http_call -> http_outcome) (w : world)
    (time_range : string) (limit : Z) :
  api_down remote ->
  (exists w', S.get_recently_played remote limit w = (Returns (VList []), w')
              /\ one_call_later HGET w w')
  /\ (exists w', S.get_top_tracks remote time_range limit w = (Returns (VList []), w')
                 /\ one_call_later HGET w w')
  /\ (exists w', C.get_recently_played_tracks remote w = (Returns (VList []), w')
                 /\ one_call_later HGET w w')
  /\ (exists w', C.get_top_tracks remote time_range w = (Returns (VList []), w')
                 /\ one_call_later HGET w w').
Proof.
  intros down. apply activity_fetches_absorb_errors. exact down.
Qed.

(** X8. A run against an API that answers with errors ends quietly after
    its first call: the cleanup and the preview of the web service return
    the result of an empty library (all counts 0, no activity fetch, no
    removal), and [clean_liked_songs] returns after the failed profile
    request; nothing is raised. *)
Theorem run_against_a_failing_api_ends_after_one_call
    (remote : world -> http_call -> http_outcome)
    (fromisoformat : string -> option Z)
    (fuel : nat) (timeframe_months now : Z) (answer : string) (w : world) :
  api_down remote ->
  (exists w', S.analyze_and_cleanup remote fromisoformat (S fuel) timeframe_months now w
              = (Returns empty_result, w') /\ one_call_later HGET w w')
  /\ (exists w', S.preview_cleanup remote fromisoformat (S fuel) timeframe_months now w
                 = (Returns empty_preview, w') /\ one_call_later HGET w w')
  /\ (exists w', C.clean_liked_songs remote fromisoformat fuel now answer w
                 = (Returns None, w') /\ one_call_later HGET w w').
Proof.
  intros down. apply runs_on_a_failing_api. exact down.
Qed.

(** ** The active set *)

Lemma atom_eqb_eq (a b : atom) : atom_eqb a b = true <-> a = b.
Proof.
  destruct a, b; simpl; split; intros H; try discriminate; try reflexivity.
  - apply Z.eqb_eq in H. congruence.
  - inversion H. apply Z.eqb_refl.
  - apply String.eqb_eq in H. congruence.
  - inversion H. apply String.eqb_refl.
Qed.

Lemma set_mem_In (a : atom) (s : pyset) : set_mem a s = true <-> In a s.
Proof.
  unfold set_mem. rewrite existsb_exists. split.
  - intros (x & Hin & E). apply atom_eqb_eq in E. subst. exact Hin.
  - intros Hin. exists a. split; [exact Hin | apply atom_eqb_eq; reflexivity].
Qed.

Lemma set_add_spec (v : value) (s s1 : pyset) :
  set_add v s = Ok s1 ->
  exists a, hash_key v = Ok a
            /\ (NoDup s -> NoDup s1)
            /\ (forall x, In x s1 <-> In x s \/ x = a).
Proof.
  unfold set_add. destruct (hash_key v) as [a|e]; [|discriminate].
  intros H. inversion H. subst s1. clear H. exists a. split; [reflexivity|].
  destruct (set_mem a s) eqn:E.
  - apply set_mem_In in E. split; [auto|].
    intros x. split; [auto|]. intros [Hx | ->]; auto.
  - assert (~ In a s) as Hnot.
    { intros Hin. apply set_mem_In in Hin. congruence. }
    split.
    + intros Hnd. apply NoDup_app; [exact Hnd | repeat constructor; intros [] |].
      intros x Hx [Hxa | []]. subst. contradiction.
    + intros x. rewrite in_app_iff. simpl. intuition.
Qed.

Lemma add_played_spec (items : list value) :
  forall s s', S.add_played items s = Ok s' ->
    (NoDup s -> NoDup s')
    /\ (forall a, In a s' <-> In a s \/ exists item, In item items /\ played_id item a).
Proof.
  induction items as [|item rest IH]; intros s s'; simpl.
  - intros H. inversion H. subst. split; [auto|].
    intros a. split; [auto|]. intros [H0 | (item & [] & _)]. exact H0.
  - unfold rbind.
    destruct (subscript item "track") as [track|e] eqn:Ht; [|discriminate].
    destruct (subscript track "id") as [id|e] eqn:Hid; [|discriminate].
    destruct (set_add id s) as [s1|e] eqn:Hadd; [|discriminate].
    intros H. apply IH in H. destruct H as (Hnd & Hin).
    apply set_add_spec in Hadd. destruct Hadd as (a0 & Hk & Hnd1 & Hin1).
    split; [auto|]. intros a. rewrite Hin, Hin1. split.
    + intros [[H | ->] | (x & Hx & Hp)].
      * auto.
      * right. exists item. split; [left; reflexivity|]. exists track, id. auto.
      * right. exists x. split; [right; exact Hx | exact Hp].
    + intros [H | (x & [-> | Hx] & Hp)].
      * auto.
      * destruct Hp as (track' & id' & Ht' & Hid' & Hk').
        rewrite Ht in Ht'. inversion Ht'. subst track'.
        rewrite Hid in Hid'. inversion Hid'. subst id'.
        rewrite Hk in Hk'. inversion Hk'. auto.
      * right. exists x. auto.
Qed.

Lemma add_top_spec (tracks : list value) :
  forall s s', S.add_top tracks s = Ok s' ->
    (NoDup s -> NoDup s')
    /\ (forall a, In a s' <-> In a s \/ exists track, In track tracks /\ top_id track a).
Proof.
  induction tracks as [|track rest IH]; intros s s'; simpl.
  - intros H. inversion H. subst. split; [auto|].
    intros a. split; [auto|]. intros [H0 | (x & [] & _)]. exact H0.
  - unfold rbind.
    destruct (subscript track "id") as [id|e] eqn:Hid; [|discriminate].
    destruct (set_add id s) as [s1|e] eqn:Hadd; [|discriminate].
    intros H. apply IH in H. destruct H as (Hnd & Hin).
    apply set_add_spec in Hadd. destruct Hadd as (a0 & Hk & Hnd1 & Hin1).
    split; [auto|]. intros a. rewrite Hin, Hin1. split.
    + intros [[H | ->] | (x & Hx & Hp)].
      * auto.
      * right. exists track. split; [left; reflexivity|]. exists id. auto.
      * right. exists x. split; [right; exact Hx | exact Hp].
    + intros [H | (x & [-> | Hx] & Hp)].
      * auto.
      * destruct Hp as (id' & Hid' & Hk').
        rewrite Hid in Hid'. inversion Hid'. subst id'.
        rewrite Hk in Hk'. inversion Hk'. auto.
      * right. exists x. auto.
Qed.

(** X9. The active set is the union of its three sources without
    duplicates: when the aggregation of the web service succeeds on the
    three lists, an id is in the set exactly when it is the track id of a
    recently played item or the id of a short-term or medium-term top
    track, and no id is in the set twice (so [recent_activity_count]
    counts distinct ids). *)
Theorem active_set_is_the_union_of_the_sources
    (recently_played short_term_top medium_term_top : list value) (active : pyset) :
  S.collect_active (VList recently_played) (VList short_term_top)
    (VList medium_term_top) = Ok active ->
  NoDup active
  /\ forall a,
       In a active
       <-> (exists item, In item recently_played /\ played_id item a)
           \/ (exists track, In track (short_term_top ++ medium_term_top)%list
                             /\ top_id track a).
Proof.
  unfold S.collect_active, rbind. simpl.
  destruct (S.add_played recently_played []) as [s1|e] eqn:Hp; [|discriminate].
  intros Ht. apply add_played_spec in Hp. apply add_top_spec in Ht.
  destruct Hp as (Hnd1 & Hin1). destruct Ht as (Hnd2 & Hin2).
  split; [apply Hnd2, Hnd1; constructor|].
  intros a. rewrite Hin2, Hin1. simpl. tauto.
Qed.

(** X10. A recently played item without a ["track"] key, or whose track
    has no ["id"] key, ends the aggregation of the web service with
    [KeyError], while the command-line tool skips it. A track whose id is
    null is skipped by the command-line tool and enters the web
    service's set as [None]. *)
Theorem activity_item_without_id
    (d dt : list (string * value)) (rest : list value) (s : pyset) :
  (lookup "track" d = None ->
   S.add_played (VDict d :: rest) s = Raise KeyError
   /\ C.add_played (VDict d :: rest) s = C.add_played rest s)
  /\ (lookup "track" d = Some (VDict dt) -> lookup "id" dt = None ->
      S.add_played (VDict d :: rest) s = Raise KeyError
      /\ C.add_played (VDict d :: rest) s = C.add_played rest s)
  /\ (lookup "track" d = Some (VDict dt) -> lookup "id" dt = Some VNone ->
      S.add_played (VDict d :: rest) s
      = S.add_played rest (if set_mem ANone s then s else (s ++ [ANone])%list)
      /\ C.add_played (VDict d :: rest) s = C.add_played rest s).
Proof.
  split; [|split].
  - intros H. simpl. unfold rbind, C.add_id, rbind. simpl. rewrite H. simpl. auto.
  - intros H Hid. simpl. unfold rbind, C.add_id, rbind. simpl.
    rewrite H. simpl. rewrite Hid. simpl. auto.
  - intros H Hid. simpl. unfold rbind, C.add_id, rbind. simpl.
    rewrite H. simpl. rewrite Hid. simpl. auto.
Qed.

(** ** The removal plan *)

Lemma picked_length {A} (P : value -> A -> Prop) (items : list value) (plan : list A) :
  picked P items plan -> (List.length plan <= List.length items)%nat.
Proof. intros H. induction H; simpl; lia. Qed.

Lemma picked_In {A} (P : value -> A -> Prop) (items : list value) (plan : list A) :
  picked P items plan -> forall x, In x plan -> exists item, In item items /\ P item x.
Proof.
  intros H. induction H; intros y Hy.
  - destruct Hy.
  - destruct (IHpicked y Hy) as (it & Hin & Hp). exists it. split; [right|]; auto.
  - destruct Hy as [<- | Hy].
    + exists item. split; [left; reflexivity | assumption].
    + destruct (IHpicked y Hy) as (it & Hin & Hp). exists it. split; [right|]; auto.
Qed.

Section Plans.

Variable fromisoformat : string -> option Z.

Lemma classify_all_picks (entry : value -> Z -> res S.removal_record)
    (active : pyset) (cutoff : Z) (liked : list value) :
  forall acc plan,
    S.classify_all fromisoformat entry active cutoff liked acc = Ok plan ->
    exists sel,
      plan = (acc ++ sel)%list
      /\ picked (fun item r =>
                   S.classify_item fromisoformat entry active cutoff item = Ok (Some r))
                liked sel.
Proof.
  induction liked as [|item rest IH]; intros acc plan; simpl.
  - intros H. inversion H. exists []. rewrite app_nil_r. split; [auto | constructor].
  - unfold rbind at 1.
    destruct (S.classify_item fromisoformat entry active cutoff item)
      as [[r|]|e] eqn:E; try discriminate; intros H; apply IH in H;
      destruct H as (sel & -> & Hsel).
    + exists (r :: sel). rewrite <- app_assoc. split; [reflexivity|].
      apply picked_take; assumption.
    + exists sel. split; [reflexivity|]. apply picked_skip. assumption.
Qed.

Lemma picked_impl {A} (P Q : value -> A -> Prop) (items : list value) (plan : list A) :
  (forall item x, P item x -> Q item x) -> picked P items plan -> picked Q items plan.
Proof.
  intros HPQ H.
  induction H; [apply picked_nil | apply picked_skip | apply picked_take]; auto.
Qed.

Lemma cleaner_classify_all_picks (ids : pyset) (cutoff : Z) (liked : list value) :
  forall acc songs,
    C.classify_all fromisoformat ids cutoff liked acc = Ok songs ->
    exists sel,
      songs = (acc ++ sel)%list
      /\ picked (fun item s =>
                   C.classify_item fromisoformat ids cutoff item = Ok (Some s))
                liked sel.
Proof.
  induction liked as [|item rest IH]; intros acc songs; simpl.
  - intros H. inversion H. exists []. rewrite app_nil_r. split; [auto | constructor].
  - unfold rbind at 1.
    destruct (C.classify_item fromisoformat ids cutoff item)
      as [[r|]|e] eqn:E; try discriminate; intros H; apply IH in H;
      destruct H as (sel & -> & Hsel).
    + exists (r :: sel). rewrite <- app_assoc. split; [reflexivity|].
      apply picked_take; assumption.
    + exists sel. split; [reflexivity|]. apply picked_skip. assumption.
Qed.

End Plans.

(** X11. The removal plan of the web service only holds inactive, old
    songs, in library order: when the classification of the cleanup or of
    the preview succeeds, its records are, in order, those of a
    subsequence of the liked songs, and each record carries the id and
    the added-at instant of a song whose id is not in the active set and
    whose instant is strictly before the cutoff. No active song and no
    song added at or after the cutoff is ever planned for removal. *)
Theorem removal_plan_holds_only_inactive_old_songs
    (fromisoformat : string -> option Z) (active : pyset) (cutoff : Z)
    (liked : list value) (plan : list S.removal_record) :
  S.classify_all fromisoformat S.removal_entry active cutoff liked [] = Ok plan
  \/ S.classify_all fromisoformat S.preview_entry active cutoff liked [] = Ok plan ->
  picked (fun item r =>
            inactive_and_old fromisoformat active cutoff item (S.r_id r)
              (S.r_added_at r))
         liked plan.
Proof.
  intros [H | H]; apply classify_all_picks in H; destruct H as (sel & -> & Hsel);
    simpl; eapply picked_impl; try exact Hsel; intros item r Hr;
    apply classify_item_selected in Hr;
    destruct Hr as (track & id & a & t & Ht & Hid & Hk & Hm & Hp & Hlt & He).
  - apply removal_entry_fields in He. destruct He as (Hid' & <-).
    rewrite Hid in Hid'. inversion Hid'. subst id.
    exists track, a. auto 10.
  - apply preview_entry_fields in He. destruct He as (Hid' & <-).
    rewrite Hid in Hid'. inversion Hid'. subst id.
    exists track, a. auto 10.
Qed.

(** X12. On a well-formed library the web service plans exactly the stale
    songs, in library order: when every liked item has a track with a
    hashable id and an added-at string that parses, and the record of
    every stale one can be built, the classification returns the records
    of the items that are inactive and older than the cutoff, in the
    order of the library, and raises nothing. *)
Theorem removal_plan_of_a_well_formed_library
    (fromisoformat : string -> option Z)
    (entry : value -> Z -> res S.removal_record) (active : pyset) (cutoff : Z)
    (liked : list value) (views : list (atom * Z * S.removal_record)) :
  Forall2 (describes fromisoformat entry active cutoff) liked views ->
  S.classify_all fromisoformat entry active cutoff liked []
  = Ok (map snd (filter (is_stale active cutoff) views)).
Proof.
  intros H. apply (classify_all_complete fromisoformat entry active cutoff liked views H []).
Qed.

(** X13. The removal list of the command-line tool only holds songs that
    were not played recently: its entries are, in order, those of a
    subsequence of the liked songs, each with the id of a song that is
    not in the set of recently played ids and whose added-at value is
    older than six months ago or could not be read as a date. *)
Theorem cleaner_plan_holds_only_inactive_songs
    (fromisoformat : string -> option Z) (ids : pyset) (six_months_ago : Z)
    (liked : list value) (songs : list C.song) :
  C.classify_all fromisoformat ids six_months_ago liked [] = Ok songs ->
  picked (inactive_and_old_or_unparsable fromisoformat ids six_months_ago) liked songs.
Proof.
  intros H. apply cleaner_classify_all_picks in H. destruct H as (sel & -> & Hsel).
  simpl. eapply picked_impl; [|exact Hsel].
  intros item s Hs. apply cleaner_classify_item_selected. exact Hs.
Qed.

(** ** Removal calls on the wire *)

Lemma join_strs_strings (sep : string) (l : list string) :
  join_strs sep (map VStr l) = Ok (String.concat sep l).
Proof.
  induction l as [|x [|y l] IH]; try reflexivity.
  change (join_strs sep (map VStr (x :: y :: l)))
    with (match join_strs sep (map VStr (y :: l)) with
          | Ok r => Ok (x ++ sep ++ r)
          | other => other
          end).
  rewrite IH. reflexivity.
Qed.

Lemma join_strs_non_string (sep : string) (l : list value) :
  existsb (fun v => negb (is_string v)) l = true ->
  join_strs sep l = Raise TypeError.
Proof.
  induction l as [|x l IH]; [discriminate|].
  simpl existsb. destruct x; simpl; try reflexivity.
  intros H. specialize (IH H). destruct l as [|y l]; [discriminate|].
  rewrite IH. reflexivity.
Qed.

Lemma slice_map {A B} (f : A -> B) (l : list A) (i j : nat) :
  S.slice (map f l) i j = map f (S.slice l i j).
Proof. unfold S.slice. rewrite skipn_map, firstn_map. reflexivity. Qed.

Lemma service_prepare_removal (token : value) (batch : list string) (params : value) :
  S.prepare token "/me/tracks" "DELETE" (VDict [("ids", VList (map VStr batch))]) params
  = Ok (removal_request token batch).
Proof.
  unfold S.prepare, rbind, py_join. simpl. rewrite join_strs_strings. reflexivity.
Qed.

Lemma cleaner_prepare_removal (token : value) (batch : list string) :
  C.prepare token "/me/tracks" "DELETE" (VDict [("ids", VList (map VStr batch))])
  = Ok (removal_request token batch).
Proof.
  unfold C.prepare, rbind, py_join. simpl. rewrite join_strs_strings. reflexivity.
Qed.

Section RemovalOnTheWire.

Variable remote : world -> http_call -> http_outcome.
Hypothesis accepted : accepts_removals remote.

Lemma accepted_batch (batch : list string) (w : world) :
  S.make_request remote "/me/tracks" "DELETE"
    (VDict [("ids", VList (map VStr batch))]) VNone w
  = (Returns success,
     with_request (removal_request (w_access_token w) batch)
       (with_call (delete_call (map VStr batch)) w)).
Proof.
  unfold S.make_request. fold (delete_call (map VStr batch)).
  set (w0 := with_call (delete_call (map VStr batch)) w).
  destruct (accepted w0 (removal_request (w_access_token w) batch) eq_refl)
    as (r & Hr & H200 & Hblank).
  apply for_attempts_return.
  apply (service_attempt_no_body remote "/me/tracks" _ VNone 0 w0
           (removal_request (w_access_token w) batch) r); auto.
  apply service_prepare_removal.
Qed.

Lemma accepted_batches (ids : list string) (starts : list nat) :
  forall w, exists w',
    S.remove_batches remote (map VStr ids) starts w = (Returns true, w')
    /\ w_requests w'
       = (w_requests w
          ++ map (fun i => removal_request (w_access_token w)
                             (S.slice ids i (i + S.batch_size))) starts)%list
    /\ w_slept w' = w_slept w
    /\ w_access_token w' = w_access_token w.
Proof.
  induction starts as [|i rest IH]; intros w.
  - exists w. simpl. rewrite app_nil_r. auto.
  - cbn [S.remove_batches]. rewrite slice_map.
    rewrite (bind_returns _ _ _ _ _ (accepted_batch _ w)).
    cbn [truthy success negb]. unfold bind at 1. unfold lift. simpl dict_get.
    cbn iota. cbn [truthy negb].
    destruct (IH (with_request (removal_request (w_access_token w)
                                  (S.slice ids i (i + S.batch_size)))
                    (with_call (delete_call (map VStr (S.slice ids i (i + S.batch_size))))
                       w)))
      as (w' & Hrun & Hreq & Hslept & Htok).
    exists w'. split; [exact Hrun|]. split; [|split].
    + rewrite Hreq. simpl. rewrite <- app_assoc. reflexivity.
    + rewrite Hslept. reflexivity.
    + rewrite Htok. reflexivity.
Qed.

End RemovalOnTheWire.

(** X14. A removal that the remote accepts, on the wire: for string ids
    and a remote that answers every DELETE with a 200 without a body,
    [remove_tracks_from_liked] returns [True] after exactly one DELETE per
    batch of 50, in order, each to [/me/tracks] with the ids of its batch
    comma-joined in the query parameter ["ids"] and without a JSON body;
    nothing is retried and nothing sleeps. *)
Theorem accepted_removal_on_the_wire
    (remote : world -> http_call -> http_outcome) (ids : list string) (w : world) :
  accepts_removals remote ->
  let run := S.remove_tracks_from_liked remote (map VStr ids) w in
  fst run = Returns true
  /\ w_requests (snd run)
     = (w_requests w
        ++ map (removal_request (w_access_token w)) (string_batches ids))%list
  /\ w_slept (snd run) = w_slept w.
Proof.
  intros accepted run. subst run. unfold S.remove_tracks_from_liked.
  rewrite length_map.
  destruct (accepted_batches remote accepted ids
              (S.py_range (List.length ids) S.batch_size) w)
    as (w' & Hrun & Hreq & Hslept & _).
  rewrite Hrun. simpl. split; [reflexivity|]. split; [|exact Hslept].
  rewrite Hreq. unfold string_batches. rewrite map_map. reflexivity.
Qed.

(** X15. A removal id that is no string (the null id of a local file):
    the comma-join raises [TypeError] before any HTTP call. In the web
    service the error leaves [remove_tracks_from_liked] when such an id is
    in the first batch; the command-line tool takes it as a failed try
    three times over, and [remove_track_from_liked] returns [False] after
    four seconds of sleep without having sent anything. *)
Theorem removal_of_a_non_string_id
    (remote : world -> http_call -> http_outcome)
    (track_ids : list value) (track_id : value) (w : world) :
  existsb (fun v => negb (is_string v)) (S.slice track_ids 0 S.batch_size) = true ->
  is_string track_id = false ->
  (let run := S.remove_tracks_from_liked remote track_ids w in
   fst run = Raises (Builtin TypeError)
   /\ w_requests (snd run) = w_requests w)
  /\ (let run := C.remove_track_from_liked remote track_id w in
      fst run = Returns (VBool false)
      /\ w_requests (snd run) = w_requests w
      /\ w_slept (snd run) = w_slept w + 4000).
Proof.
  intros Hbatch Hid. split.
  - assert (S.py_range (List.length track_ids) S.batch_size
            = 0%nat :: S.range_from (List.length track_ids - 1) S.batch_size
                         (List.length track_ids) S.batch_size) as Hrange.
    { destruct track_ids as [|x l]; [discriminate|].
      unfold S.py_range. simpl. rewrite Nat.sub_0_r. reflexivity. }
    unfold S.remove_tracks_from_liked. rewrite Hrange. cbn [S.remove_batches].
    set (batch := S.slice track_ids 0 (0 + S.batch_size)).
    assert (forall token,
              S.prepare token "/me/tracks" "DELETE" (VDict [("ids", VList batch)]) VNone
              = Raise TypeError) as Hprep.
    { intros token. unfold S.prepare, rbind, py_join. simpl.
      rewrite (join_strs_non_string "," batch Hbatch). reflexivity. }
    assert (S.make_request remote "/me/tracks" "DELETE" (VDict [("ids", VList batch)])
              VNone w
            = (Raises (Builtin TypeError),
               with_call (api_call_of "/me/tracks" "DELETE"
                            (VDict [("ids", VList batch)]) VNone) w)) as Hreq.
    { unfold S.make_request. fold (api_call_of "/me/tracks" "DELETE"
                                     (VDict [("ids", VList batch)]) VNone).
      simpl for_attempts. unfold bind at 1.
      unfold S.attempt_body at 1, try_except. unfold bind at 1.
      unfold S.dispatch. rewrite Hprep. reflexivity. }
    unfold bind. rewrite Hreq. simpl. auto.
  - assert (forall token,
              C.prepare token "/me/tracks" "DELETE" (VDict [("ids", VList [track_id])])
              = Raise TypeError) as Hprep.
    { intros token. unfold C.prepare, rbind, py_join. simpl.
      destruct track_id; try discriminate; reflexivity. }
    assert (forall a w0,
              C.attempt_body remote "/me/tracks" "DELETE"
                (VDict [("ids", VList [track_id])]) a w0
              = if a <? 2 then (Returns None, with_sleep 2000 w0)
                else (Returns (Some VNone), w0)) as Hattempt.
    { intros a w0. unfold C.attempt_body, try_except. unfold bind at 1.
      unfold C.dispatch. rewrite Hprep. simpl. destruct (a <? 2); reflexivity. }
    unfold C.remove_track_from_liked, bind, C.make_spotify_request.
    erewrite for_attempts_next by (rewrite Hattempt; reflexivity).
    erewrite for_attempts_next by (rewrite Hattempt; reflexivity).
    erewrite for_attempts_return by (rewrite Hattempt; reflexivity).
    simpl. repeat split. lia.
Qed.

Lemma cleaner_remove_songs_monotone (remote : world -> http_call -> http_outcome)
    (songs : list C.song) :
  forall counts counts' w w',
    C.remove_songs remote songs counts w = (Returns counts', w') ->
    fst counts <= fst counts' /\ snd counts <= snd counts'.
Proof.
  induction songs as [|s rest IH]; intros counts counts' w w'; simpl.
  - unfold ret. intros H. inversion H. lia.
  - intros H. apply bind_inv in H. destruct H as (removed & w1 & _ & H).
    apply bind_inv in H. destruct H as ([] & w2 & _ & H).
    apply IH in H. destruct (truthy removed); simpl in H; lia.
Qed.

(** X16. The removal loop of the command-line tool counts every song
    once and does not stop at a failure: when the loop ends, the numbers
    of removed and failed songs are non-negative and add up to the
    number of songs, and the request method was invoked once for every
    song, in order, whatever the earlier removals answered. *)
Theorem cleaner_removal_counts_every_song
    (remote : world -> http_call -> http_outcome) (songs : list C.song)
    (removed failed : Z) (w w' : world) :
  C.remove_songs remote songs (0, 0) w = (Returns (removed, failed), w') ->
  removed + failed = Z.of_nat (List.length songs)
  /\ 0 <= removed /\ 0 <= failed
  /\ w_calls w' = (w_calls w ++ map (fun s => delete_call [C.s_id s]) songs)%list.
Proof.
  intros H.
  destruct (cleaner_remove_songs_calls remote songs (0, 0) (removed, failed) w w' H)
    as (Hcalls & Hsum).
  destruct (cleaner_remove_songs_monotone remote songs (0, 0) (removed, failed) w w' H)
    as (Hr & Hf).
  simpl in *. repeat split; auto; lia.
Qed.

(** ** The calls of a whole run *)

Lemma reads_then_deletes_of (w w1 w2 : world) :
  reads_only w w1 -> adds_only HDELETE w1 w2 -> reads_then_deletes w w2.
Proof.
  intros ((gets & Eg & Fg) & _) (dels & Ed & Fd).
  exists gets, dels. rewrite Ed, Eg, app_assoc. auto.
Qed.

Section RunCalls.

Variable remote : world -> http_call -> http_outcome.
Variable fromisoformat : string -> option Z.

(** While the run reads: a step that reads, then the rest of the run. *)
Lemma reading_step {A B} (m : M A) (f : A -> M B) (w w0 : world) :
  reads_only w w0 ->
  respects reads_only m ->
  (forall a w1, reads_only w w1 -> reads_then_deletes w (snd (f a w1))) ->
  reads_then_deletes w (snd (bind m f w0)).
Proof.
  intros Hw Hm Hf. unfold bind. specialize (Hm w0).
  destruct (m w0) as [[a|e|] w1]; simpl in *.
  - apply Hf. eapply reads_only_trans; eauto.
  - eapply reads_then_deletes_of;
      [eapply reads_only_trans; eauto | apply adds_only_refl].
  - eapply reads_then_deletes_of;
      [eapply reads_only_trans; eauto | apply adds_only_refl].
Qed.

Lemma service_fetch_reads (endpoint : string) (params : value) :
  respects reads_only
    (bind (S.make_request remote endpoint "GET" VNone params) S.items_or_empty).
Proof.
  apply reads_bind; [apply service_get_reads | apply items_or_empty_reads].
Qed.

Lemma removal_phase_deletes (plan : list S.removal_record) {B}
    (finish : Z -> M B) :
  (forall n, respects (adds_only HDELETE) (finish n)) ->
  respects (adds_only HDELETE)
    (bind (match plan with
           | [] => ret 0
           | _ :: _ =>
               bind (S.remove_tracks_from_liked remote (map S.r_id plan))
                 (fun ok : bool => ret (if ok then S.py_list_len plan else 0))
           end) finish).
Proof.
  intros Hfinish.
  apply (respects_bind _ (adds_only_trans HDELETE)); [|exact Hfinish].
  destruct plan as [|r plan].
  - apply respects_ret, adds_only_refl.
  - apply (respects_bind _ (adds_only_trans HDELETE)).
    + apply remove_batches_only_deletes.
    + intros ok. apply respects_ret, adds_only_refl.
Qed.

End RunCalls.

(** X17. The HTTP calls of a cleanup run are reads followed by removals:
    whatever the remote answers and however the run ends, the calls
    [analyze_and_cleanup] adds to the log are GETs followed by DELETEs;
    it never sends a PUT or a POST and never reads after it has started
    to remove. *)
Theorem cleanup_reads_then_deletes
    (remote : world -> http_call -> http_outcome)
    (fromisoformat : string -> option Z)
    (fuel : nat) (timeframe_months now : Z) (w : world) :
  reads_then_deletes w
    (snd (S.analyze_and_cleanup remote fromisoformat fuel timeframe_months now w)).
Proof.
  unfold S.analyze_and_cleanup.
  apply reading_step; [apply reads_only_refl | apply liked_songs_loop_reads|].
  intros liked w1 H1. destruct liked as [|item liked].
  { simpl. eapply reads_then_deletes_of; [exact H1 | apply adds_only_refl]. }
  apply reading_step; [exact H1 | apply service_fetch_reads|].
  intros recent w2 H2.
  apply reading_step; [exact H2 | apply service_fetch_reads|].
  intros short w3 H3.
  apply reading_step; [exact H3 | apply service_fetch_reads|].
  intros medium w4 H4.
  apply reading_step; [exact H4 | apply reads_lift|].
  intros active w5 H5.
  apply reading_step; [exact H5 | apply reads_lift|].
  intros plan w6 H6.
  eapply reads_then_deletes_of; [exact H6|].
  apply removal_phase_deletes. intros n.
  apply (respects_bind _ (adds_only_trans HDELETE));
    [apply respects_lift, adds_only_refl|]. intros n1.
  apply (respects_bind _ (adds_only_trans HDELETE));
    [apply respects_lift, adds_only_refl|]. intros n2.
  apply (respects_bind _ (adds_only_trans HDELETE));
    [apply respects_lift, adds_only_refl|]. intros n3.
  apply respects_ret, adds_only_refl.
Qed.

Lemma respects_at {A} (R : world -> world -> Prop) (m : M A) (w w' : world) (o : out A) :
  respects R m -> m w = (o, w') -> R w w'.
Proof. intros H E. specialize (H w). rewrite E in H. exact H. Qed.

(** X18. A reported removal means that every batch was sent: when the
    cleanup returns with a positive [songs_removed], the invocations of
    the run are GET invocations followed by the DELETE invocations for
    all the batches of the ids of [removed_tracks], in order, and
    [removed_tracks] is the whole plan. *)
Theorem reported_removal_sent_every_batch
    (remote : world -> http_call -> http_outcome)
    (fromisoformat : string -> option Z)
    (fuel : nat) (timeframe_months now : Z) (w w' : world) (r : S.cleanup_result) :
  S.analyze_and_cleanup remote fromisoformat fuel timeframe_months now w
  = (Returns r, w') ->
  0 < S.songs_removed r ->
  exists reads,
    w_calls w'
    = (w_calls w ++ reads
       ++ map delete_call (batches (map S.r_id (S.removed_tracks r))))%list
    /\ Forall (fun a => a_method a = "GET") reads.
Proof.
  intros E Hpos. unfold S.analyze_and_cleanup in E.
  apply bind_inv in E. destruct E as (liked & w1 & Hliked & E).
  pose proof (respects_at _ _ _ _ _ (liked_songs_loop_reads remote fuel 50 [] 0) Hliked)
    as R1.
  destruct liked as [|item liked].
  { unfold ret in E. injection E as Er Ew. subst r. simpl in Hpos. lia. }
  apply bind_inv in E. destruct E as (recent & w2 & Hrecent & E).
  pose proof (respects_at _ _ _ _ _ (service_fetch_reads remote _ _) Hrecent) as R2.
  apply bind_inv in E. destruct E as (short & w3 & Hshort & E).
  pose proof (respects_at _ _ _ _ _ (service_fetch_reads remote _ _) Hshort) as R3.
  apply bind_inv in E. destruct E as (medium & w4 & Hmedium & E).
  pose proof (respects_at _ _ _ _ _ (service_fetch_reads remote _ _) Hmedium) as R4.
  apply bind_inv in E. destruct E as (active & w5 & Hactive & E).
  apply lift_inv in Hactive. destruct Hactive as (_ & ->).
  apply bind_inv in E. destruct E as (plan & w6 & Hplan & E).
  apply lift_inv in Hplan. destruct Hplan as (_ & ->).
  apply bind_inv in E. destruct E as (removed_count & w7 & Hcount & E).
  apply bind_inv in E. destruct E as (n1 & w8 & H8 & E).
  apply lift_inv in H8. destruct H8 as (_ & ->).
  apply bind_inv in E. destruct E as (n2 & w9 & H9 & E).
  apply lift_inv in H9. destruct H9 as (_ & ->).
  apply bind_inv in E. destruct E as (n3 & w10 & H10 & E).
  apply lift_inv in H10. destruct H10 as (_ & ->).
  unfold ret in E. injection E as Er Ew. subst r w'.
  cbn [S.songs_removed S.removed_tracks] in *.
  destruct plan as [|p plan].
  { unfold ret in Hcount. injection Hcount as Hc _. lia. }
  apply bind_inv in Hcount. destruct Hcount as (ok & w7' & Hremove & Hcount).
  unfold ret in Hcount. injection Hcount as Hc Hw. subst w7'.
  destruct ok; [|lia]. subst removed_count.
  unfold S.py_list_len. rewrite Nat2Z.id, firstn_all.
  unfold S.remove_tracks_from_liked in Hremove.
  destruct (remove_batches_calls remote (map S.r_id (p :: plan))
              (S.py_range (List.length (map S.r_id (p :: plan))) S.batch_size) w4)
    as (k & Hk & Hcalls & Ht).
  rewrite Hremove in Hcalls, Ht. simpl fst in Ht. simpl snd in Hcalls.
  rewrite (Ht eq_refl), firstn_all in Hcalls.
  assert (reads_only w w4) as Hreads.
  { eapply reads_only_trans; [|exact R4].
    eapply reads_only_trans; [|exact R3].
    eapply reads_only_trans; [exact R1 | exact R2]. }
  destruct Hreads as (_ & reads & Hreads & Hget).
  exists reads. split; [|exact Hget].
  rewrite Hcalls, Hreads, <- app_assoc. unfold batches. rewrite map_map. reflexivity.
Qed.

(** ** The preview and the cleanup agree *)

Lemma entries_agree (track : value) (t : Z) (ra rp : S.removal_record) :
  S.removal_entry track t = Ok ra ->
  S.preview_entry track t = Ok rp ->
  ra = without_image rp.
Proof.
  unfold S.removal_entry, S.preview_entry, rbind.
  destruct (subscript track "id"); [|discriminate].
  destruct (subscript track "name"); [|discriminate].
  destruct (subscript track "artists") as [artists|]; [|discriminate].
  destruct (index0 artists) as [first|]; [|discriminate].
  destruct (subscript first "name"); [|discriminate].
  destruct (subscript track "album") as [album|]; [|discriminate].
  destruct (subscript album "name"); [|discriminate].
  destruct (subscript album "images") as [images|]; [|discriminate].
  destruct (if truthy images then _ else _); [|discriminate].
  intros Ha Hp. inversion Ha. inversion Hp. reflexivity.
Qed.

Lemma classify_items_agree (fromisoformat : string -> option Z) (active : pyset)
    (cutoff : Z) (item : value) (oa op : option S.removal_record) :
  S.classify_item fromisoformat S.removal_entry active cutoff item = Ok oa ->
  S.classify_item fromisoformat S.preview_entry active cutoff item = Ok op ->
  oa = option_map without_image op.
Proof.
  unfold S.classify_item, set_contains, rbind.
  destruct (subscript item "track") as [track|]; [|discriminate].
  destruct (S.parse_added_at fromisoformat item) as [t|]; [|discriminate].
  destruct (subscript track "id") as [id|]; [|discriminate].
  destruct (hash_key id) as [a|]; [|discriminate].
  destruct (set_mem a active).
  { intros Ha Hp. inversion Ha. inversion Hp. reflexivity. }
  destruct (t <? cutoff).
  2:{ intros Ha Hp. inversion Ha. inversion Hp. reflexivity. }
  destruct (S.removal_entry track t) as [ra|] eqn:Ea; [|discriminate].
  destruct (S.preview_entry track t) as [rp|] eqn:Ep; [|discriminate].
  intros Ha Hp. inversion Ha. inversion Hp. simpl.
  f_equal. eapply entries_agree; eauto.
Qed.

Lemma classify_all_agree (fromisoformat : string -> option Z) (active : pyset)
    (cutoff : Z) (liked : list value) :
  forall acc_a acc_p plan_a plan_p,
    S.classify_all fromisoformat S.removal_entry active cutoff liked acc_a = Ok plan_a ->
    S.classify_all fromisoformat S.preview_entry active cutoff liked acc_p = Ok plan_p ->
    acc_a = map without_image acc_p ->
    plan_a = map without_image plan_p.
Proof.
  induction liked as [|item rest IH]; intros acc_a acc_p plan_a plan_p; simpl.
  - intros Ha Hp Hacc. inversion Ha. inversion Hp. subst. reflexivity.
  - unfold rbind.
    destruct (S.classify_item fromisoformat S.removal_entry active cutoff item)
      as [oa|] eqn:Ea; [|discriminate].
    destruct (S.classify_item fromisoformat S.preview_entry active cutoff item)
      as [op|] eqn:Ep; [|discriminate].
    pose proof (classify_items_agree _ _ _ _ _ _ Ea Ep) as Hagree.
    intros Ha Hp Hacc. apply (IH _ _ _ _ Ha Hp).
    subst oa acc_a. destruct op as [rp|]; simpl; [|reflexivity].
    rewrite map_app. reflexivity.
Qed.

(** X19. The preview shows what the cleanup removes: when the cleanup and
    the preview both return from the same state against the same remote,
    they report the same number of liked songs, and unless the cleanup
    reports no removal, its [removed_tracks] are the preview's
    [tracks_to_remove] without the image reference, in the same order,
    and the two report the same number of songs kept. *)
Theorem preview_shows_what_cleanup_removes
    (remote : world -> http_call -> http_outcome)
    (fromisoformat : string -> option Z)
    (fuel : nat) (timeframe_months now : Z) (w wa wp : world)
    (ra : S.cleanup_result) (rp : S.preview_result) :
  S.analyze_and_cleanup remote fromisoformat fuel timeframe_months now w
  = (Returns ra, wa) ->
  S.preview_cleanup remote fromisoformat fuel timeframe_months now w
  = (Returns rp, wp) ->
  S.total_liked_songs ra = S.p_total_liked_songs rp
  /\ (S.songs_removed ra = 0
      \/ (S.removed_tracks ra = map without_image (S.p_tracks_to_remove rp)
          /\ S.songs_kept ra = S.p_tracks_to_keep rp)).
Proof.
  intros Ea Ep. unfold S.analyze_and_cleanup in Ea. unfold S.preview_cleanup in Ep.
  apply bind_inv in Ea. destruct Ea as (liked & w1 & Hliked & Ea).
  rewrite (bind_returns _ _ _ _ _ Hliked) in Ep.
  destruct liked as [|item liked].
  { unfold ret in Ea, Ep. injection Ea as <- _. injection Ep as <- _.
    simpl. auto. }
  apply bind_inv in Ea. destruct Ea as (recent & w2 & Hrecent & Ea).
  rewrite (bind_returns _ _ _ _ _ Hrecent) in Ep.
  apply bind_inv in Ea. destruct Ea as (short & w3 & Hshort & Ea).
  rewrite (bind_returns _ _ _ _ _ Hshort) in Ep.
  apply bind_inv in Ea. destruct Ea as (medium & w4 & Hmedium & Ea).
  rewrite (bind_returns _ _ _ _ _ Hmedium) in Ep.
  apply bind_inv in Ea. destruct Ea as (active & w5 & Hactive & Ea).
  rewrite (bind_returns _ _ _ _ _ Hactive) in Ep.
  apply bind_inv in Ea. destruct Ea as (plan_a & w6 & Hplan_a & Ea).
  apply lift_inv in Hplan_a. destruct Hplan_a as (Hplan_a & ->).
  apply bind_inv in Ep. destruct Ep as (plan_p & w6' & Hplan_p & Ep).
  apply lift_inv in Hplan_p. destruct Hplan_p as (Hplan_p & ->).
  pose proof (classify_all_agree _ _ _ _ _ _ _ _ Hplan_a Hplan_p eq_refl) as Hagree.
  apply bind_inv in Ea. destruct Ea as (removed_count & w7 & Hcount & Ea).
  apply bind_inv in Ea. destruct Ea as (n1 & w8 & _ & Ea).
  apply bind_inv in Ea. destruct Ea as (n2 & w9 & _ & Ea).
  apply bind_inv in Ea. destruct Ea as (n3 & w10 & _ & Ea).
  unfold ret, S.py_list_len in Ea, Ep.
  remember (Z.of_nat (List.length (item :: liked))) as total eqn:Htotal.
  injection Ea as <- _. injection Ep as <- _.
  cbn [S.total_liked_songs S.p_total_liked_songs S.songs_removed S.removed_tracks
       S.p_tracks_to_remove S.songs_kept S.p_tracks_to_keep].
  split; [reflexivity|].
  assert (removed_count = 0 \/ removed_count = Z.of_nat (List.length plan_a)) as Hrc.
  { destruct plan_a as [|p plan_a].
    - inversion Hcount. auto.
    - apply bind_inv in Hcount. destruct Hcount as (ok & w7' & _ & Hcount).
      inversion Hcount. destruct ok; auto. }
  destruct Hrc as [-> | ->]; [left; reflexivity | right].
  rewrite Nat2Z.id, firstn_all. split; [exact Hagree|].
  rewrite Hagree, length_map. reflexivity.
Qed.

(** ** The command-line run without a confirmation *)





Section Unconfirmed.

Variable remote : world -> http_call -> http_outcome.
Variable fromisoformat : string -> option Z.










End Unconfirmed.


(** ** The redirect URI *)

Lemma lstrip_incl (l : list ascii) : incl (lstrip l) l.
Proof.
  induction l as [|c l IH]; simpl; [apply incl_refl|].
  destruct (is_space c); [apply incl_tl; exact IH | apply incl_refl].
Qed.

Lemma strip_incl (l : list ascii) : incl (strip l) l.
Proof.
  unfold strip. intros x Hx. apply in_rev in Hx.
  apply lstrip_incl in Hx. apply in_rev in Hx. apply lstrip_incl in Hx. exact Hx.
Qed.

Lemma first_field_no_comma (s : string) : has_comma (App.first_field s) = false.
Proof.
  unfold has_comma. induction s as [|c s IH]; [reflexivity|].
  cbn [App.first_field].
  destruct (Ascii.eqb c ","%char) eqn:E; [reflexivity|].
  cbn [list_ascii_of_string existsb].
  rewrite (Ascii.eqb_sym ","%char c), E. exact IH.
Qed.

Lemma first_field_prefix (d rest : string) :
  has_comma d = false -> App.first_field (d ++ String ","%char rest) = d.
Proof.
  unfold has_comma. induction d as [|c d IH]; intros H.
  - cbn [String.append App.first_field]. rewrite Ascii.eqb_refl. reflexivity.
  - cbn [list_ascii_of_string existsb] in H.
    apply orb_false_iff in H. destruct H as (Hc & Hd).
    cbn [String.append App.first_field].
    rewrite (Ascii.eqb_sym c ","%char), Hc. f_equal. apply IH. exact Hd.
Qed.

(** X21. The production redirect URI: when [REPLIT_DOMAINS] is set and not
    empty, the redirect URI is [https://<host>/callback], where the host
    is the text before the first comma of the variable without its
    surrounding whitespace, whatever [REPLIT_DEV_DOMAIN] holds; the host
    has no comma in it. *)
Theorem production_redirect_uri_uses_first_domain
    (domains : string) (replit_dev_domain : option string) :
  domains <> EmptyString ->
  exists host,
    App.redirect_uri (Some domains) replit_dev_domain
    = "https://" ++ host ++ "/callback"
    /\ host = App.py_strip (App.first_field domains)
    /\ has_comma host = false
    /\ (forall d rest, domains = d ++ String ","%char rest -> has_comma d = false ->
        host = App.py_strip d).
Proof.
  intros Hne. exists (App.py_strip (App.first_field domains)).
  split; [|split; [reflexivity|split]].
  - unfold App.redirect_uri, App.if_set.
    destruct (String.eqb_spec domains EmptyString); [contradiction | reflexivity].
  - unfold has_comma, App.py_strip. rewrite list_ascii_of_string_of_list_ascii.
    pose proof (first_field_no_comma domains) as H. unfold has_comma in H.
    destruct (existsb (Ascii.eqb ","%char)
                (strip (list_ascii_of_string (App.first_field domains)))) eqn:E;
      [|reflexivity].
    apply existsb_exists in E. destruct E as (x & Hx & Hx').
    apply strip_incl in Hx.
    assert (existsb (Ascii.eqb ","%char)
              (list_ascii_of_string (App.first_field domains)) = true) as Hc
      by (apply existsb_exists; exists x; auto).
    congruence.
  - intros d rest -> Hd. rewrite first_field_prefix by exact Hd. reflexivity.
Qed.

(** ** The timeframe *)




(** ** Worked examples of the further properties *)

(** A remote that cannot be reached: [None] after three calls. *)
Lemma network_outage_example :
  (let run := S.make_request (always NetworkFailure) "/me" "GET" VNone VNone
                fresh_world in
   fst run = Returns VNone
   /\ w_requests (snd run) = [sample_get "/me"; sample_get "/me"; sample_get "/me"]
   /\ w_slept (snd run) = 2000)
  /\ (let run := C.make_spotify_request (always NetworkFailure) "/me" "GET" VNone
                   fresh_world in
      fst run = Returns VNone
      /\ w_requests (snd run) = [sample_get "/me"; sample_get "/me"; sample_get "/me"]
      /\ w_slept (snd run) = 4000).
Proof.
  exact (network_outage_exhausts_three_attempts (always NetworkFailure)
           "/me" "GET" VNone VNone fresh_world (sample_get "/me") (sample_get "/me")
           eq_refl eq_refl (fun _ => eq_refl) (fun _ => eq_refl)).
Defined.



(** A 429 with an HTTP date in its Retry-After header. *)
Lemma http_date_retry_after_example :
  (let run := S.make_request (always (Responded dated_rate_limit)) "/me" "GET"
                VNone VNone fresh_world in
   fst run = Raises (Builtin ValueError)
   /\ w_requests (snd run) = [sample_get "/me"]
   /\ w_slept (snd run) = 0)
  /\ (let run := C.make_spotify_request (always (Responded dated_rate_limit)) "/me"
                   "GET" VNone fresh_world in
      fst run = Returns VNone
      /\ w_requests (snd run) = [sample_get "/me"; sample_get "/me"; sample_get "/me"]
      /\ w_slept (snd run) = 4000).
Proof.
  exact (bad_retry_after_header (always (Responded dated_rate_limit))
           "/me" "GET" VNone VNone fresh_world (sample_get "/me") (sample_get "/me")
           dated_rate_limit eq_refl (or_introl eq_refl)
           eq_refl eq_refl eq_refl (fun _ => eq_refl)).
Defined.

(** A remote that answers every call with a 500 is down. *)
Lemma always_500_is_down : api_down (always (answer_empty 500)).
Proof.
  intros w c. exists (no_body 500). split; [reflexivity|].
  repeat split; vm_compute; discriminate.
Qed.

Lemma always_200_accepts_removals : accepts_removals (always (answer_empty 200)).
Proof.
  intros w c _. exists (no_body 200). repeat split.
Qed.

(** The activity fetches against that remote. *)
Lemma failing_activity_fetch_example :
  (exists w', S.get_recently_played (always (answer_empty 500)) 50 fresh_world
              = (Returns (VList []), w') /\ one_call_later HGET fresh_world w')
  /\ (exists w', S.get_top_tracks (always (answer_empty 500)) "short_term" 50 fresh_world
                 = (Returns (VList []), w') /\ one_call_later HGET fresh_world w')
  /\ (exists w', C.get_recently_played_tracks (always (answer_empty 500)) fresh_world
                 = (Returns (VList []), w') /\ one_call_later HGET fresh_world w')
  /\ (exists w', C.get_top_tracks (always (answer_empty 500)) "short_term" fresh_world
                 = (Returns (VList []), w') /\ one_call_later HGET fresh_world w').
Proof.
  exact (activity_fetch_of_a_failing_api_is_empty (always (answer_empty 500))
           fresh_world "short_term" 50 always_500_is_down).
Defined.

(** The three runs against that remote. *)
Lemma failing_api_run_example :
  (exists w', S.analyze_and_cleanup (always (answer_empty 500)) iso_seconds 5 6
                sample_now fresh_world
              = (Returns empty_result, w') /\ one_call_later HGET fresh_world w')
  /\ (exists w', S.preview_cleanup (always (answer_empty 500)) iso_seconds 5 6
                   sample_now fresh_world
                 = (Returns empty_preview, w') /\ one_call_later HGET fresh_world w')
  /\ (exists w', C.clean_liked_songs (always (answer_empty 500)) iso_seconds 4
                   sample_now "yes" fresh_world
                 = (Returns None, w') /\ one_call_later HGET fresh_world w').
Proof.
  exact (run_against_a_failing_api_ends_after_one_call (always (answer_empty 500))
           iso_seconds 4 6 sample_now "yes" fresh_world always_500_is_down).
Defined.

(** The active set of a listener who played A and whose top tracks are B
    and A. *)
Lemma scenario_active_set_example :
  NoDup [AStr "A"; AStr "B"]
  /\ forall a,
       In a [AStr "A"; AStr "B"]
       <-> (exists item, In item [played "A"] /\ played_id item a)
           \/ (exists track, In track [VDict [("id", VStr "B")]; VDict [("id", VStr "A")]]
                             /\ top_id track a).
Proof.
  exact (active_set_is_the_union_of_the_sources
           [played "A"] [VDict [("id", VStr "B")]] [VDict [("id", VStr "A")]]
           [AStr "A"; AStr "B"] eq_refl).
Defined.

(** A recently played item without a track, one whose track has no id and
    one whose track id is null, each followed by a play of A. *)
Lemma played_item_without_id_example :
  (S.add_played [VDict []; played "A"] [] = Raise KeyError
   /\ C.add_played [VDict []; played "A"] [] = Ok [AStr "A"])
  /\ (S.add_played [VDict [("track", VDict [])]; played "A"] [] = Raise KeyError
      /\ C.add_played [VDict [("track", VDict [])]; played "A"] [] = Ok [AStr "A"])
  /\ (S.add_played [VDict [("track", VDict [("id", VNone)])]; played "A"] []
      = Ok [ANone; AStr "A"]
      /\ C.add_played [VDict [("track", VDict [("id", VNone)])]; played "A"] []
         = Ok [AStr "A"]).
Proof.
  split; [|split].
  - exact (proj1 (activity_item_without_id [] [] [played "A"] []) eq_refl).
  - exact (proj1 (proj2 (activity_item_without_id [("track", VDict [])] []
                           [played "A"] []))
             eq_refl eq_refl).
  - exact (proj2 (proj2 (activity_item_without_id
                           [("track", VDict [("id", VNone)])] [("id", VNone)]
                           [played "A"] []))
             eq_refl eq_refl).
Defined.

(** The plan of the scenario is B alone, inactive and added before the
    cutoff. *)
Lemma scenario_plan_is_sound_example :
  picked (fun item r =>
            inactive_and_old iso_seconds [AStr "A"] scenario_cutoff item (S.r_id r)
              (S.r_added_at r))
         [item_A; item_B; item_C] [sample_record "B" 1672531200000000].
Proof.
  refine (removal_plan_holds_only_inactive_old_songs iso_seconds [AStr "A"]
            scenario_cutoff [item_A; item_B; item_C]
            [sample_record "B" 1672531200000000] (or_introl _)).
  vm_compute. reflexivity.
Defined.

(** The scenario is a well-formed library, and its plan is B alone. *)
Lemma scenario_plan_is_exact_example :
  S.classify_all iso_seconds S.removal_entry [AStr "A"] scenario_cutoff
    [item_A; item_B; item_C] []
  = Ok [sample_record "B" 1672531200000000].
Proof.
  refine (removal_plan_of_a_well_formed_library iso_seconds S.removal_entry
            [AStr "A"] scenario_cutoff [item_A; item_B; item_C]
            [sample_view "A" 1672531200000000; sample_view "B" 1672531200000000;
             sample_view "C" 1701388800000000] _).
  repeat apply Forall2_cons; try apply Forall2_nil.
  - exists (sample_track "A" sample_album), (VStr "A").
    repeat split; try (vm_compute; reflexivity).
  - exists (sample_track "B" sample_album), (VStr "B").
    repeat split; try (vm_compute; reflexivity).
  - exists (sample_track "C" sample_album), (VStr "C").
    repeat split; try (vm_compute; reflexivity).
Defined.

(** The list of the command-line tool for the scenario and a song whose
    added-at string is no date: B and that song. *)
Lemma cleaner_scenario_plan_example :
  picked (inactive_and_old_or_unparsable iso_seconds [AStr "A"] scenario_cutoff)
         [item_A; item_B; item_C; item_unparsable]
         [sample_song "B" "2023-01-01T00:00:00Z"; sample_song "X" "not-a-date"].
Proof.
  refine (cleaner_plan_holds_only_inactive_songs iso_seconds [AStr "A"]
            scenario_cutoff [item_A; item_B; item_C; item_unparsable]
            [sample_song "B" "2023-01-01T00:00:00Z"; sample_song "X" "not-a-date"] _).
  vm_compute. reflexivity.
Defined.

(** 51 ids accepted: two DELETE calls, of 50 ids and of one. *)
Lemma accepted_removal_example :
  let run := S.remove_tracks_from_liked (always (answer_empty 200))
               (map VStr (sample_names 51)) fresh_world in
  fst run = Returns true
  /\ w_requests (snd run)
     = [removal_request (VStr "token") (firstn 50 (sample_names 51));
        removal_request (VStr "token") ["t50"]]
  /\ w_slept (snd run) = 0.
Proof.
  pose proof (accepted_removal_on_the_wire (always (answer_empty 200))
                (sample_names 51) fresh_world always_200_accepts_removals)
    as (H1 & H2 & H3).
  split; [exact H1|]. split; [|exact H3].
  rewrite H2. vm_compute. reflexivity.
Defined.

(** The null id of a local file among the ids to remove. *)
Lemma null_id_removal_example :
  (let run := S.remove_tracks_from_liked (always (answer_empty 200))
                [VStr "t0"; VNone] fresh_world in
   fst run = Raises (Builtin TypeError)
   /\ w_requests (snd run) = [])
  /\ (let run := C.remove_track_from_liked (always (answer_empty 200)) VNone
                   fresh_world in
      fst run = Returns (VBool false)
      /\ w_requests (snd run) = []
      /\ w_slept (snd run) = 4000).
Proof.
  exact (removal_of_a_non_string_id (always (answer_empty 200))
           [VStr "t0"; VNone] VNone fresh_world eq_refl eq_refl).
Defined.

(** Three songs, the removal of the second answered 500: two removed, one
    failed, three invocations. *)
Lemma cleaner_removal_count_example :
  let songs := [sample_song "t0" "2020-01-01T00:00:00Z";
                sample_song "t1" "2020-01-01T00:00:00Z";
                sample_song "t2" "2020-01-01T00:00:00Z"] in
  let run := C.remove_songs
               (scripted [answer_empty 200; answer_empty 500; answer_empty 204])
               songs (0, 0) fresh_world in
  fst run = Returns (2, 1)
  /\ w_calls (snd run)
     = [delete_call [VStr "t0"]; delete_call [VStr "t1"]; delete_call [VStr "t2"]].
Proof.
  intros songs run.
  assert (run = (Returns (2, 1), snd run)) as E by (vm_compute; reflexivity).
  destruct (cleaner_removal_counts_every_song
              (scripted [answer_empty 200; answer_empty 500; answer_empty 204])
              songs 2 1 fresh_world (snd run) E) as (_ & _ & _ & H).
  split; [rewrite E; reflexivity | exact H].
Defined.

(** The cleanup of the scenario reports one removal: its invocations are
    reads followed by the removal of B. *)
Lemma scenario_removal_sent_example :
  let run := S.analyze_and_cleanup (scripted scenario_script) iso_seconds 5 6
               sample_now fresh_world in
  exists reads,
    w_calls (snd run) = (reads ++ [delete_call [VStr "B"]])%list
    /\ Forall (fun a => a_method a = "GET") reads.
Proof.
  intros run.
  assert (run = (Returns (returned empty_result run), snd run)) as E
    by (vm_compute; reflexivity).
  assert (0 < S.songs_removed (returned empty_result run)) as Hpos
    by (vm_compute; reflexivity).
  destruct (reported_removal_sent_every_batch (scripted scenario_script) iso_seconds
              5 6 sample_now fresh_world (snd run) (returned empty_result run)
              E Hpos) as (reads & H1 & H2).
  exists reads. split; [|exact H2].
  rewrite H1. vm_compute. reflexivity.
Defined.

(** The cleanup and the preview of the scenario agree on B. *)
Lemma scenario_preview_agrees_example :
  let cleanup := returned empty_result
                   (S.analyze_and_cleanup (scripted scenario_script) iso_seconds 5 6
                      sample_now fresh_world) in
  let preview := returned empty_preview
                   (S.preview_cleanup (scripted scenario_script) iso_seconds 5 6
                      sample_now fresh_world) in
  S.total_liked_songs cleanup = S.p_total_liked_songs preview
  /\ (S.songs_removed cleanup = 0
      \/ (S.removed_tracks cleanup = map without_image (S.p_tracks_to_remove preview)
          /\ S.songs_kept cleanup = S.p_tracks_to_keep preview)).
Proof.
  intros cleanup preview.
  assert (S.analyze_and_cleanup (scripted scenario_script) iso_seconds 5 6
            sample_now fresh_world
          = (Returns cleanup,
             snd (S.analyze_and_cleanup (scripted scenario_script) iso_seconds 5 6
                    sample_now fresh_world))) as Ea
    by (vm_compute; reflexivity).
  assert (S.preview_cleanup (scripted scenario_script) iso_seconds 5 6
            sample_now fresh_world
          = (Returns preview,
             snd (S.preview_cleanup (scripted scenario_script) iso_seconds 5 6
                    sample_now fresh_world))) as Ep
    by (vm_compute; reflexivity).
  exact (preview_shows_what_cleanup_removes (scripted scenario_script) iso_seconds
           5 6 sample_now fresh_world _ _ cleanup preview Ea Ep).
Defined.


(** The same run reaches the prompt: answered "Yes", it removes B. *)
Lemma confirmed_run_sends_the_delete :
  let declined := C.clean_liked_songs (scripted cleaner_script) iso_seconds 5
                    scenario_cutoff "no" fresh_world in
  let confirmed := C.clean_liked_songs (scripted cleaner_script) iso_seconds 5
                     scenario_cutoff " Yes " fresh_world in
  fst declined = Returns None
  /\ map c_verb (w_requests (snd declined)) = [HGET; HGET; HGET; HGET; HGET]
  /\ fst confirmed = Returns (Some (1, 0))
  /\ map c_verb (w_requests (snd confirmed)) = [HGET; HGET; HGET; HGET; HGET; HDELETE].
Proof. vm_compute. repeat split; reflexivity. Qed.

(** Two domains with blanks around the first one. *)
Lemma redirect_uri_example :
  App.redirect_uri (Some " app.example.com ,other.example.com")
    (Some "dev.example.com")
  = "https://app.example.com/callback".
Proof.
  assert (" app.example.com ,other.example.com" <> EmptyString) as Hset
    by discriminate.
  destruct (production_redirect_uri_uses_first_domain
              " app.example.com ,other.example.com" (Some "dev.example.com") Hset)
    as (host & H1 & H2 & _).
  rewrite H1, H2. vm_compute. reflexivity.
Defined.


